(** * Africa Payments MCP, Python SDK: request pipeline, error taxonomy,
      polling and webhook dispatch

    A shallow embedding of [africa_payments_mcp/exceptions.py],
    [africa_payments_mcp/models.py], [africa_payments_mcp/config.py] and
    [africa_payments_mcp/client.py].

    Conventions.
    - A Python [str] is a Rocq [string], one character per code point; this
      covers the code points below 256 (the range of an HTTP header value).
    - Python [bytes] are [list byte].
    - Values decoded from JSON, and the Python values that travel with them
      ([None], [str], numbers, [Decimal], [dict]), are terms of [pyobj].
    - A Python call either returns or raises: [outcome].
    - The network, the clock and the registered callbacks are the
      environment; each function takes the part of the environment it
      talks to as an oracle and returns, next to its outcome, the list of
      effects it performed ([effect]). *)

From Stdlib Require Import ZArith QArith Qround List String Ascii Bool Lia.
From Stdlib Require Import Strings.Byte DecimalString.
Import ListNotations.

#[local] Set Warnings "-register-all".

Local Open Scope string_scope.
Local Open Scope list_scope.
Local Open Scope Z_scope.

(* ------------------------------------------------------------------ *)
(** ** Python values *)

(** A finite [decimal.Decimal]: sign, coefficient and exponent, as
    [Decimal.as_tuple()] gives them; its value is
    [(-1)^sign * coefficient * 10^exponent]. *)
Record Decimal : Type := mkDecimal {
  dec_sign : bool;
  dec_coefficient : Z;
  dec_exponent : Z
}.

(** A Python [float]: a binary64 number, held by its exact rational
    value when it is finite. *)
Inductive pyfloat : Type :=
| Finite (x : Q)
| Infinity (negative : bool)
| NaN.

Inductive pyobj : Type :=
| PyNone
| PyBool (b : bool)
| PyInt (n : Z)
| PyFloat (x : pyfloat)
| PyStr (s : string)
| PyDecimal (d : Decimal)
| PyList (l : list pyobj)
| PyDict (d : list (string * pyobj)).

(** [d.get(k)] on a [dict] kept in insertion order. *)
Fixpoint dict_get (d : list (string * pyobj)) (k : string) : option pyobj :=
  match d with
  | [] => None
  | (k', v) :: d' => if String.eqb k' k then Some v else dict_get d' k
  end.

(** [d.get(k, default)]. *)
Definition get_default (d : list (string * pyobj)) (k : string) (default : pyobj) : pyobj :=
  match dict_get d k with
  | Some v => v
  | None => default
  end.

(** [d[k] = v]: the value of an existing key is replaced in place, a new
    key goes to the end. *)
Fixpoint dict_set (d : list (string * pyobj)) (k : string) (v : pyobj)
  : list (string * pyobj) :=
  match d with
  | [] => [(k, v)]
  | (k', v') :: d' =>
      if String.eqb k' k then (k', v) :: d' else (k', v') :: dict_set d' k v
  end.

(** Truth value of a Python object, as [if x:] and [x or y] test it. *)
Definition truthy (v : pyobj) : bool :=
  match v with
  | PyNone => false
  | PyBool b => b
  | PyInt n => negb (n =? 0)
  | PyFloat (Finite x) => negb (Qeq_bool x 0)
  | PyFloat _ => true
  | PyStr s => negb (String.eqb s EmptyString)
  | PyDecimal d => negb (dec_coefficient d =? 0)
  | PyList l => match l with [] => false | _ => true end
  | PyDict d => match d with [] => false | _ => true end
  end.

(** [x or y]. *)
Definition py_or (x y : pyobj) : pyobj := if truthy x then x else y.

(* ------------------------------------------------------------------ *)
(** ** exceptions.py *)

Module Exceptions.

(** The classes of the SDK: [AfricaPaymentsError] and its subclasses. *)
Inductive sdk_class : Type :=
| AfricaPaymentsError
| AuthenticationError
| PaymentError
| ValidationError
| NotFoundError
| ServerError
| RateLimitError
| TimeoutError.

(** Exception classes that come from Python itself, pydantic and httpx.
    [CancelledError], [KeyboardInterrupt] and [SystemExit] derive from
    [BaseException] only; the others derive from [Exception]. *)
Inductive py_class : Type :=
| TypeError
| ValueError
| AttributeError
| PydanticValidationError
| HttpxTimeoutException
| HttpxNetworkError
| OtherException
| CancelledError
| KeyboardInterrupt
| SystemExit.

Inductive exn : Type :=
| SdkError (cls : sdk_class) (message code details : pyobj)
| PyError (cls : py_class) (text : string).

Inductive outcome (A : Type) : Type :=
| Ret (a : A)
| Raise (e : exn).
Arguments Ret {A} a.
Arguments Raise {A} e.

Definition sdk_class_eqb (a b : sdk_class) : bool :=
  match a, b with
  | AfricaPaymentsError, AfricaPaymentsError
  | AuthenticationError, AuthenticationError
  | PaymentError, PaymentError
  | ValidationError, ValidationError
  | NotFoundError, NotFoundError
  | ServerError, ServerError
  | RateLimitError, RateLimitError
  | TimeoutError, TimeoutError => true
  | _, _ => false
  end.

(** [isinstance(e, Exception)]: what [except Exception] catches. *)
Definition is_Exception (e : exn) : bool :=
  match e with
  | SdkError _ _ _ _ => true
  | PyError (CancelledError | KeyboardInterrupt | SystemExit) _ => false
  | PyError _ _ => true
  end.

(** [isinstance(e, AfricaPaymentsError)]. *)
Definition is_AfricaPaymentsError (e : exn) : bool :=
  match e with
  | SdkError _ _ _ _ => true
  | PyError _ _ => false
  end.

Definition is_httpx_timeout (e : exn) : bool :=
  match e with
  | PyError HttpxTimeoutException _ => true
  | _ => false
  end.

Definition is_httpx_network (e : exn) : bool :=
  match e with
  | PyError HttpxNetworkError _ => true
  | _ => false
  end.

(** [str(e)] for an exception that is not one of the SDK's. *)
Definition py_text (e : exn) : string :=
  match e with
  | PyError _ t => t
  | SdkError _ _ _ _ => EmptyString
  end.

(** Keyword arguments of a call, in the order they are written. *)
Definition kwargs : Type := list (string * pyobj).

Definition has_key (kw : kwargs) (k : string) : bool :=
  existsb (fun kv => String.eqb (fst kv) k) kw.

(** The call [f(..., k1=v1, ..., **star)]: Python refuses it with a
    [TypeError] when a key of [star] repeats an explicit keyword, before
    [f] runs. *)
Definition call_keywords (explicit star : kwargs) : outcome kwargs :=
  match find (fun kv => has_key explicit (fst kv)) star with
  | Some (k, _) =>
      Raise (PyError TypeError
               ("__init__() got multiple values for keyword argument '" ++ k ++ "'")%string)
  | None => Ret (explicit ++ star)
  end.

(** [AfricaPaymentsError.__init__(self, message, code=None, details=None)]
    called with [message] by position and [kw] by keyword, for an object of
    class [cls]. *)
Definition AfricaPaymentsError_init (cls : sdk_class) (message : pyobj) (kw : kwargs)
  : outcome exn :=
  match find (fun kv => negb (String.eqb (fst kv) "code" || String.eqb (fst kv) "details")) kw with
  | Some (k, _) =>
      Raise (PyError TypeError
               ("__init__() got an unexpected keyword argument '" ++ k ++ "'")%string)
  | None =>
      let code := get_default kw "code" PyNone in
      let details := get_default kw "details" PyNone in
      Ret (SdkError cls message code (py_or details (PyDict [])))
  end.

(** The [code=...] literal that each subclass passes to
    [super().__init__]; the base class has no [__init__] override. *)
Definition class_code (cls : sdk_class) : option string :=
  match cls with
  | AfricaPaymentsError => None
  | AuthenticationError => Some "AUTH_ERROR"
  | PaymentError => Some "PAYMENT_ERROR"
  | ValidationError => Some "VALIDATION_ERROR"
  | NotFoundError => Some "NOT_FOUND"
  | ServerError => Some "SERVER_ERROR"
  | RateLimitError => Some "RATE_LIMIT"
  | TimeoutError => Some "TIMEOUT"
  end.

(** The constructor call [cls(message, **kw)].  A subclass has
    [def __init__(self, message=..., **kwargs):
       super().__init__(message, code=<class code>, **kwargs)]. *)
Definition construct (cls : sdk_class) (message : pyobj) (kw : kwargs) : outcome exn :=
  match class_code cls with
  | None => AfricaPaymentsError_init cls message kw
  | Some c =>
      match call_keywords [("code", PyStr c)] kw with
      | Ret kw' => AfricaPaymentsError_init cls message kw'
      | Raise e => Raise e
      end
  end.

(** [raise cls(message, **kw)]: the constructor runs first, and what it
    raises is what propagates. *)
Definition raise_new {A : Type} (cls : sdk_class) (message : pyobj) (kw : kwargs)
  : outcome A :=
  match construct cls message kw with
  | Ret e => Raise e
  | Raise e => Raise e
  end.

Definition raise_for_status (status_code : Z) (response_data : pyobj) : outcome unit :=
  match response_data with
  | PyDict d =>
      let message := get_default d "message" (PyStr "Unknown error") in
      let code := get_default d "code" PyNone in
      let details := get_default d "details" (PyDict []) in
      let kw := [("code", code); ("details", details)] in
      if status_code =? 400 then raise_new ValidationError message kw
      else if status_code =? 401 then raise_new AuthenticationError message kw
      else if status_code =? 404 then raise_new NotFoundError message kw
      else if status_code =? 409 then raise_new PaymentError message kw
      else if status_code =? 429 then raise_new RateLimitError message kw
      else if status_code >=? 500 then raise_new ServerError message kw
      else if status_code >=? 400 then raise_new AfricaPaymentsError message kw
      else Ret tt
  | _ => Raise (PyError AttributeError "object has no attribute 'get'")
  end.

(** The statuses that [raise_for_status] sends to a subclass. *)
Definition classified (status_code : Z) : bool :=
  (status_code =? 400) || (status_code =? 401) || (status_code =? 404)
  || (status_code =? 409) || (status_code =? 429) || (status_code >=? 500).

(** The [TypeError] of a repeated [code] keyword. *)
Definition duplicate_code : exn :=
  PyError TypeError "__init__() got multiple values for keyword argument 'code'".

End Exceptions.

(* ------------------------------------------------------------------ *)
(** ** hashlib.sha256, hmac.new and hmac.compare_digest

    The digest functions of Python's standard library, written out from
    FIPS 180-4 and RFC 2104 on 32-bit words held in [Z]. *)

Module Hashlib.
Import Exceptions.

Definition w32 (x : Z) : Z := Z.land x 0xFFFFFFFF.

Definition add32 (x y : Z) : Z := w32 (x + y).

Definition rotr (n x : Z) : Z :=
  Z.lor (Z.shiftr x n) (w32 (Z.shiftl x (32 - n))).

Definition Ch (x y z : Z) : Z :=
  Z.lxor (Z.land x y) (Z.land (Z.lxor x 0xFFFFFFFF) z).

Definition Maj (x y z : Z) : Z :=
  Z.lxor (Z.lxor (Z.land x y) (Z.land x z)) (Z.land y z).

Definition Sigma0 (x : Z) : Z := Z.lxor (Z.lxor (rotr 2 x) (rotr 13 x)) (rotr 22 x).
Definition Sigma1 (x : Z) : Z := Z.lxor (Z.lxor (rotr 6 x) (rotr 11 x)) (rotr 25 x).
Definition sigma0 (x : Z) : Z := Z.lxor (Z.lxor (rotr 7 x) (rotr 18 x)) (Z.shiftr x 3).
Definition sigma1 (x : Z) : Z := Z.lxor (Z.lxor (rotr 17 x) (rotr 19 x)) (Z.shiftr x 10).

(** [p] has no divisor among [k] candidates counted down from [d]. *)
Fixpoint no_divisor (k : nat) (d p : Z) : bool :=
  match k with
  | O => true
  | S k' => if d <? 2 then true
            else if p mod d =? 0 then false
            else no_divisor k' (d - 1) p
  end.

Definition is_prime (p : Z) : bool :=
  (2 <=? p) && no_divisor (Z.to_nat p) (Z.sqrt p) p.

(** The first [n] primes from [p] on, looking at no more than [fuel]
    candidates. *)
Fixpoint primes_from (fuel n : nat) (p : Z) : list Z :=
  match fuel, n with
  | S fuel', S n' =>
      if is_prime p then p :: primes_from fuel' n' (p + 1)
      else primes_from fuel' n (p + 1)
  | _, _ => []
  end.

(** The integer cube root, one bit at a time from bit [k - 1] down. *)
Fixpoint cbrt_bits (k : nat) (r n : Z) : Z :=
  match k with
  | O => r
  | S k' =>
      let r' := r + 2 ^ Z.of_nat k' in
      cbrt_bits k' (if r' * r' * r' <=? n then r' else r) n
  end.

(** The round constants: the first 32 bits of the fractional parts of
    the cube roots of the first 64 primes (FIPS 180-4, 4.2.2). *)
Definition K256 : list Z :=
  map (fun p => w32 (cbrt_bits 36 0 (p * 2 ^ 96))) (primes_from 320 64 2).

(** The initial hash value: the same bits of the square roots of the
    first 8 primes (FIPS 180-4, 5.3.3). *)
Definition H256 : list Z :=
  map (fun p => w32 (Z.sqrt (p * 2 ^ 64))) (primes_from 320 8 2).

(** Big-endian bytes of the low [8 * n] bits of [x]. *)
Fixpoint be_bytes (n : nat) (x : Z) : list Z :=
  match n with
  | O => []
  | S k => Z.land (Z.shiftr x (8 * Z.of_nat k)) 0xFF :: be_bytes k x
  end.

(** The message followed by the bit 1, zeros, and its length in bits on
    64 bits: a whole number of 64-byte blocks. *)
Definition pad (msg : list Z) : list Z :=
  let len := Z.of_nat (List.length msg) in
  msg ++ [0x80] ++ repeat 0 (Z.to_nat ((55 - len) mod 64)) ++ be_bytes 8 (8 * len).

Fixpoint be_words (n : nat) (bs : list Z) : list Z :=
  match n, bs with
  | S k, b0 :: b1 :: b2 :: b3 :: rest =>
      (b0 * 0x1000000 + b1 * 0x10000 + b2 * 0x100 + b3) :: be_words k rest
  | _, _ => []
  end.

(** The message schedule, latest word first: [rev_w] holds W(t-1), W(t-2),
    ... and [n] more words are to be produced. *)
Fixpoint schedule (n : nat) (rev_w : list Z) : list Z :=
  match n with
  | O => rev_w
  | S k =>
      let w := add32 (add32 (sigma1 (nth 1 rev_w 0)) (nth 6 rev_w 0))
                     (add32 (sigma0 (nth 14 rev_w 0)) (nth 15 rev_w 0)) in
      schedule k (w :: rev_w)
  end.

Definition round (st : list Z) (kw : Z * Z) : list Z :=
  match st with
  | [a; b; c; d; e; f; g; h] =>
      let t1 := add32 (add32 (add32 h (Sigma1 e)) (add32 (Ch e f g) (fst kw))) (snd kw) in
      let t2 := add32 (Sigma0 a) (Maj a b c) in
      [add32 t1 t2; a; b; c; add32 d t1; e; f; g]
  | _ => st
  end.

Definition compress (st : list Z) (block : list Z) : list Z :=
  let w := rev (schedule 48 (rev (be_words 16 block))) in
  map (fun p => add32 (fst p) (snd p)) (combine st (fold_left round (combine K256 w) st)).

Fixpoint blocks (n : nat) (st : list Z) (bs : list Z) : list Z :=
  match n with
  | O => st
  | S k => blocks k (compress st (firstn 64 bs)) (skipn 64 bs)
  end.

Definition sha256_z (msg : list Z) : list Z :=
  let p := pad msg in
  flat_map (be_bytes 4) (blocks (List.length p / 64) H256 p).

Definition byte_z (b : byte) : Z := Z.of_N (Byte.to_N b).

Definition z_byte (z : Z) : byte :=
  match Byte.of_N (Z.to_N z) with
  | Some b => b
  | None => x00
  end.

(** [hashlib.sha256(msg).digest()]. *)
Definition sha256 (msg : list byte) : list byte :=
  map z_byte (sha256_z (map byte_z msg)).

(** [hmac.new(key, msg, hashlib.sha256).digest()]. *)
Definition hmac_sha256 (key msg : list byte) : list byte :=
  let k := map byte_z key in
  let k0 := if (64 <? Z.of_nat (List.length k)) then sha256_z k else k in
  let kb := k0 ++ repeat 0 (64 - List.length k0) in
  let inner := sha256_z (map (Z.lxor 0x36) kb ++ map byte_z msg) in
  map z_byte (sha256_z (map (Z.lxor 0x5c) kb ++ inner)).

Definition hex_digit (n : Z) : ascii :=
  nth (Z.to_nat n) (list_ascii_of_string "0123456789abcdef") "0"%char.

(** [.hexdigest()]: two lower-case hexadecimal digits per byte. *)
Fixpoint hexdigest (bs : list byte) : string :=
  match bs with
  | [] => EmptyString
  | b :: rest =>
      String (hex_digit (byte_z b / 16)) (String (hex_digit (byte_z b mod 16)) (hexdigest rest))
  end.

Definition is_ascii (s : string) : bool :=
  forallb (fun c => (nat_of_ascii c <? 128)%nat) (list_ascii_of_string s).

(** [hmac.compare_digest(a, b)] on two [str]: both must be ASCII ("a and b
    must both be of the same type: either str (ASCII only ...) or a
    bytes-like object"), otherwise it raises [TypeError]. *)
Definition compare_digest (a b : string) : outcome bool :=
  if is_ascii a && is_ascii b then Ret (String.eqb a b)
  else Raise (PyError TypeError "comparing strings with non-ASCII characters is not supported").

(** [s.encode()]: UTF-8, for code points below 256. *)
Fixpoint str_encode (s : string) : list byte :=
  match s with
  | EmptyString => []
  | String c rest =>
      let n := Z.of_nat (nat_of_ascii c) in
      if n <? 128 then z_byte n :: str_encode rest
      else z_byte (Z.lor 0xC0 (Z.shiftr n 6)) :: z_byte (Z.lor 0x80 (Z.land n 0x3F))
             :: str_encode rest
  end.

(** A [bytes] literal of ASCII characters. *)
Definition bytes_of (s : string) : list byte := map byte_of_ascii (list_ascii_of_string s).

End Hashlib.

(* ------------------------------------------------------------------ *)
(** ** float(Decimal)

    [float(d)] for a [Decimal] [d]: CPython writes [d] out and reads the
    text back as a binary64 number, correctly rounded (to nearest, ties to
    even; a magnitude past the largest double becomes [inf]). *)

Module Float.

(** [floor (log2 (n / d))] for [n], [d] positive. *)
Definition ilog2 (n d : Z) : Z :=
  let k := Z.log2 n - Z.log2 d in
  if (if 0 <=? k then d * 2 ^ k <=? n else d <=? n * 2 ^ (- k)) then k else k - 1.

(** [n / d] rounded to the nearest integer, a tie going to the even one. *)
Definition div_half_even (n d : Z) : Z :=
  let q := n / d in
  let r := n mod d in
  if 2 * r <? d then q
  else if d <? 2 * r then q + 1
  else if Z.even q then q else q + 1.

(** [n / (d * 2^s)] rounded to an integer. *)
Definition scaled_round (n d s : Z) : Z :=
  if 0 <=? s then div_half_even n (d * 2 ^ s) else div_half_even (n * 2 ^ (- s)) d.

(** [m * 2^s] as a rational. *)
Definition ldexp (m s : Z) : Q :=
  if 0 <=? s then inject_Z (m * 2 ^ s) else Qmake m (Z.to_pos (2 ^ (- s))).

(** The binary64 number nearest to [n / d], for [n], [d] positive: 53
    significant bits, the last place weighing at least [2^-1074]. *)
Definition round_pos (n d : Z) : pyfloat :=
  let e := Z.max (ilog2 n d) (-1022) in
  let s := e - 52 in
  let m := scaled_round n d s in
  if (1024 <=? e) || ((e =? 1023) && (m =? 2 ^ 53)) then Infinity false
  else Finite (ldexp m s).

Definition float_neg (x : pyfloat) : pyfloat :=
  match x with
  | Finite q => Finite (Qopp q)
  | Infinity b => Infinity (negb b)
  | NaN => NaN
  end.

(** Exact value of a [Decimal]. *)
Definition Decimal_value (a : Decimal) : Q :=
  let c := if dec_sign a then - dec_coefficient a else dec_coefficient a in
  if 0 <=? dec_exponent a then inject_Z (c * 10 ^ dec_exponent a)
  else Qmake c (Z.to_pos (10 ^ (- dec_exponent a))).

(** [float(a)]. *)
Definition float_of_Decimal (a : Decimal) : pyfloat :=
  if dec_coefficient a <=? 0 then Finite 0
  else
    let r := if 0 <=? dec_exponent a
             then round_pos (dec_coefficient a * 10 ^ dec_exponent a) 1
             else round_pos (dec_coefficient a) (10 ^ (- dec_exponent a)) in
    if dec_sign a then float_neg r else r.

(** [a > 0] on a [Decimal]. *)
Definition Decimal_gt0 (a : Decimal) : bool :=
  negb (dec_sign a) && (0 <? dec_coefficient a).

(** [2^e <= n / d] and [n / d < 2^e], for [n], [d] positive and [e] of
    either sign, on integers. *)
Definition pow2_le (e n d : Z) : Prop :=
  d * 2 ^ Z.max e 0 <= n * 2 ^ Z.max (- e) 0.

Definition pow2_gt (e n d : Z) : Prop :=
  n * 2 ^ Z.max (- e) 0 < d * 2 ^ Z.max e 0.

(** [n / d = m * 2^s], on integers. *)
Definition scaled_eq (n d m s : Z) : Prop :=
  n * 2 ^ Z.max (- s) 0 = d * m * 2 ^ Z.max s 0.

(** The rationals that a finite binary64 number can hold exactly: [m * 2^s]
    with at most 53 bits in [m], and [s] between the weight of the last
    place of a subnormal and that of the largest double. *)
Definition representable (q : Q) : Prop :=
  exists m s : Z, 0 <= m < 2 ^ 53 /\ -1074 <= s <= 971 /\ Qeq q (ldexp m s).

End Float.

(* ------------------------------------------------------------------ *)
(** ** models.py *)

Module Models.
Import Exceptions.

Inductive PaymentStatus : Type := PENDING | SUCCESS | FAILED | CANCELLED.

Definition PaymentStatus_value (s : PaymentStatus) : string :=
  match s with
  | PENDING => "pending"
  | SUCCESS => "success"
  | FAILED => "failed"
  | CANCELLED => "cancelled"
  end.

Definition PaymentStatus_eqb (a b : PaymentStatus) : bool :=
  match a, b with
  | PENDING, PENDING | SUCCESS, SUCCESS | FAILED, FAILED | CANCELLED, CANCELLED => true
  | _, _ => false
  end.

Inductive PaymentProvider : Type := MPESA | MTN | VODAFONE | AIRTEL | BANK | CARD.

Definition PaymentProvider_value (p : PaymentProvider) : string :=
  match p with
  | MPESA => "mpesa"
  | MTN => "mtn"
  | VODAFONE => "vodafone"
  | AIRTEL => "airtel"
  | BANK => "bank"
  | CARD => "card"
  end.

Inductive PaymentRegion : Type := KE | NG | GH | ZA | TZ | UG.

Inductive PaymentEnvironment : Type := SANDBOX | PRODUCTION.

Record datetime : Type := mkDatetime {
  posix_microseconds : Z;
  utc_offset_seconds : option Z
}.

(** What the SDK takes from the Python runtime and from pydantic: the
    validators of the two field types whose accepted inputs pydantic
    defines ([Decimal] and [datetime]), and the text of a [float] in an
    f-string. *)
Class Runtime : Type := {
  validate_Decimal : pyobj -> option Decimal;
  validate_datetime : pyobj -> option datetime;
  float_repr : Q -> string
}.

(** *** PaymentRequest *)

Record PaymentRequest : Type := mkPaymentRequest {
  amount : Decimal;
  currency : string;
  phone_number : string;
  reference : string;
  description : option string;
  callback_url : option string;
  metadata : option (list (string * pyobj));
  provider : option PaymentProvider
}.

(** [c.isdigit()] below code point 256: the decimal digits and the
    superscripts two, three and one. *)
Definition isdigit (c : ascii) : bool :=
  let n := Z.of_nat (nat_of_ascii c) in
  ((48 <=? n) && (n <=? 57)) || (n =? 178) || (n =? 179) || (n =? 185).

(** [c.upper()] below code point 256.  The sharp s becomes two letters;
    the micro sign and the y with diaeresis, whose capitals lie past code
    point 255, are left as they are. *)
Definition char_upper (c : ascii) : string :=
  let n := Z.of_nat (nat_of_ascii c) in
  if ((97 <=? n) && (n <=? 122)) || ((224 <=? n) && (n <=? 254) && negb (n =? 247))
  then String (ascii_of_nat (Z.to_nat (n - 32))) EmptyString
  else if n =? 223 then "SS"
  else String c EmptyString.

(** [v.upper()]. *)
Fixpoint str_upper (v : string) : string :=
  match v with
  | EmptyString => EmptyString
  | String c rest => (char_upper c ++ str_upper rest)%string
  end.

Fixpoint str_filter (f : ascii -> bool) (v : string) : string :=
  match v with
  | EmptyString => EmptyString
  | String c rest => if f c then String c (str_filter f rest) else str_filter f rest
  end.

Definition len (v : string) : Z := Z.of_nat (String.length v).

Definition validate_phone_number (v : string) : outcome string :=
  let cleaned := str_filter isdigit v in
  if (len cleaned <? 9) || (15 <? len cleaned)
  then Raise (PyError ValueError "Invalid phone number length")
  else Ret cleaned.

Definition validate_currency (v : string) : outcome string := Ret (str_upper v).

Definition request_invalid : exn :=
  PyError PydanticValidationError "validation error for PaymentRequest".

(** [PaymentRequest(amount=..., currency=..., phone_number=..., ...)]:
    the [Field] constraints are checked on the input, then the field
    validators run; any failure makes pydantic raise its
    [ValidationError]. *)
Definition PaymentRequest_new
    (amount : Decimal) (currency phone_number reference : string)
    (description callback_url : option string)
    (metadata : option (list (string * pyobj))) (provider : option PaymentProvider)
  : outcome PaymentRequest :=
  if negb (Float.Decimal_gt0 amount) then Raise request_invalid
  else if negb (len currency =? 3) then Raise request_invalid
  else if len reference <? 1 then Raise request_invalid
  else
    match validate_currency currency, validate_phone_number phone_number with
    | Ret cur, Ret phone =>
        Ret (mkPaymentRequest amount cur phone reference description callback_url
               metadata provider)
    | _, _ => Raise request_invalid
    end.

Definition dump_opt {A : Type} (k : string) (f : A -> pyobj) (v : option A)
  : list (string * pyobj) :=
  match v with
  | Some a => [(k, f a)]
  | None => []
  end.

(** [self.model_dump(by_alias=True, exclude_none=True)]. *)
Definition PaymentRequest_model_dump (self : PaymentRequest) : list (string * pyobj) :=
  [ ("amount", PyDecimal (amount self));
    ("currency", PyStr (currency self));
    ("phoneNumber", PyStr (phone_number self));
    ("reference", PyStr (reference self)) ]
  ++ dump_opt "description" PyStr (description self)
  ++ dump_opt "callbackUrl" PyStr (callback_url self)
  ++ dump_opt "metadata" PyDict (metadata self)
  ++ dump_opt "provider" (fun p => PyStr (PaymentProvider_value p)) (provider self).

Definition to_api_payload (self : PaymentRequest) : list (string * pyobj) :=
  let data := PaymentRequest_model_dump self in
  dict_set data "amount" (PyFloat (Float.float_of_Decimal (amount self))).

(** *** PaymentResponse *)

Record PaymentResponse : Type := mkPaymentResponse {
  transaction_id : string;
  status : PaymentStatus;
  resp_reference : string;
  resp_amount : Decimal;
  resp_currency : string;
  resp_phone_number : string;
  created_at : datetime;
  updated_at : datetime;
  receipt_url : option string;
  failure_reason : option string
}.

Definition is_success (self : PaymentResponse) : bool :=
  PaymentStatus_eqb (status self) SUCCESS.

Definition is_pending (self : PaymentResponse) : bool :=
  PaymentStatus_eqb (status self) PENDING.

Definition is_failed (self : PaymentResponse) : bool :=
  PaymentStatus_eqb (status self) FAILED.

(** *** Validation of a decoded body ([model_validate]) *)

(** With [populate_by_name=True] a field is read under its alias, or else
    under its own name. *)
Definition field (d : list (string * pyobj)) (alias name : string) : option pyobj :=
  match dict_get d alias with
  | Some v => Some v
  | None => dict_get d name
  end.

Definition required {A : Type} (d : list (string * pyobj)) (alias name : string)
    (validate : pyobj -> option A) : option A :=
  match field d alias name with
  | Some v => validate v
  | None => None
  end.

(** An [Optional[...]] field with [default=None]. *)
Definition optional {A : Type} (d : list (string * pyobj)) (alias name : string)
    (validate : pyobj -> option A) : option (option A) :=
  match field d alias name with
  | None | Some PyNone => Some None
  | Some v => option_map Some (validate v)
  end.

Definition validate_str (v : pyobj) : option string :=
  match v with
  | PyStr s => Some s
  | _ => None
  end.

Definition validate_PaymentStatus (v : pyobj) : option PaymentStatus :=
  match v with
  | PyStr s =>
      find (fun st => String.eqb (PaymentStatus_value st) s)
           [PENDING; SUCCESS; FAILED; CANCELLED]
  | _ => None
  end.

Definition opt_bind {A B : Type} (x : option A) (f : A -> option B) : option B :=
  match x with
  | Some a => f a
  | None => None
  end.

Notation "x <- e ;; k" := (opt_bind e (fun x => k))
  (at level 100, e at next level, right associativity, only parsing).

Definition parse_PaymentResponse {R : Runtime} (v : pyobj) : option PaymentResponse :=
  match v with
  | PyDict d =>
      tid <- required d "transactionId" "transaction_id" validate_str ;;
      st <- required d "status" "status" validate_PaymentStatus ;;
      ref <- required d "reference" "reference" validate_str ;;
      amt <- required d "amount" "amount" validate_Decimal ;;
      cur <- required d "currency" "currency" validate_str ;;
      phone <- required d "phoneNumber" "phone_number" validate_str ;;
      created <- required d "createdAt" "created_at" validate_datetime ;;
      updated <- required d "updatedAt" "updated_at" validate_datetime ;;
      receipt <- optional d "receiptUrl" "receipt_url" validate_str ;;
      reason <- optional d "failureReason" "failure_reason" validate_str ;;
      Some (mkPaymentResponse tid st ref amt cur phone created updated receipt reason)
  | _ => None
  end.

(** [PaymentResponse.model_validate(data)]. *)
Definition PaymentResponse_model_validate {R : Runtime} (data : pyobj)
  : outcome PaymentResponse :=
  match parse_PaymentResponse data with
  | Some r => Ret r
  | None => Raise (PyError PydanticValidationError "validation error for PaymentResponse")
  end.

(** *** WebhookEvent *)

Record WebhookEvent : Type := mkWebhookEvent {
  event_type : string;
  data : PaymentResponse;
  timestamp : datetime;
  signature : string
}.

Definition event_id (self : WebhookEvent) : string :=
  (event_type self ++ ":" ++ transaction_id (data self))%string.

Definition parse_WebhookEvent {R : Runtime} (v : pyobj) : option WebhookEvent :=
  match v with
  | PyDict d =>
      ty <- required d "eventType" "event_type" validate_str ;;
      dat <- required d "data" "data" parse_PaymentResponse ;;
      ts <- required d "timestamp" "timestamp" validate_datetime ;;
      sig <- required d "signature" "signature" validate_str ;;
      Some (mkWebhookEvent ty dat ts sig)
  | _ => None
  end.

Definition webhook_invalid : exn :=
  PyError PydanticValidationError "validation error for WebhookEvent".

(** [WebhookEvent.model_validate(payload)]. *)
Definition WebhookEvent_model_validate {R : Runtime} (payload : pyobj)
  : outcome WebhookEvent :=
  match parse_WebhookEvent payload with
  | Some e => Ret e
  | None => Raise webhook_invalid
  end.

End Models.

(* ------------------------------------------------------------------ *)
(** ** config.py *)

Module Config.
Import Exceptions Models.

Record PaymentConfig : Type := mkPaymentConfig {
  api_key : string;
  environment : PaymentEnvironment;
  region : PaymentRegion;
  base_url : option string;
  timeout : Q;
  max_retries : Z
}.

Definition post_init (self : PaymentConfig) : outcome unit :=
  if String.eqb (api_key self) EmptyString then Raise (PyError ValueError "API key is required")
  else if Qle_bool (timeout self) 0 then Raise (PyError ValueError "Timeout must be positive")
  else if max_retries self <? 0 then Raise (PyError ValueError "Max retries must be non-negative")
  else Ret tt.

Definition effective_base_url (self : PaymentConfig) : string :=
  match base_url self with
  | Some u => if String.eqb u EmptyString then
                match environment self with
                | PRODUCTION => "https://api.africapayments.com"
                | SANDBOX => "https://api.sandbox.africapayments.com"
                end
              else u
  | None =>
      match environment self with
      | PRODUCTION => "https://api.africapayments.com"
      | SANDBOX => "https://api.sandbox.africapayments.com"
      end
  end.

End Config.

(* ------------------------------------------------------------------ *)
(** ** client.py *)

Module Client.
Import Exceptions Models Config.

(** An [httpx.Response]: [json_body] is what [response.json()] returns,
    or [None] when the body is not JSON and [response.json()] raises. *)
Record Response : Type := mkResponse {
  status_code : Z;
  json_body : option pyobj;
  text : string
}.

(** What one [await client.request(...)] does. *)
Inductive sent : Type :=
| Responds (response : Response)
| Fails (e : exn).

(** The network seen from one call of [_request]: what the attempt of
    each index does. *)
Definition transport : Type := nat -> sent.

(** The effects of the client, in the order they happen. *)
Inductive effect : Type :=
| EvRequest (method url : string) (json_data params : option pyobj)
| EvSleep (seconds : Q)
| EvClock
| EvCallback (transaction : PaymentResponse)
| EvHandler (hid : nat)
| EvAwait (hid : nat).

Definition Response_json (response : Response) : outcome pyobj :=
  match json_body response with
  | Some j => Ret j
  | None => Raise (PyError ValueError "Expecting value")
  end.

(** How one pass through the [try] of [_request] leaves the loop body. *)
Inductive attempt_end : Type :=
| Returned (j : pyobj)
| Propagated (e : exn)
| Recorded (last_error : exn).

Inductive loop_end : Type :=
| LoopReturn (j : pyobj)
| LoopRaise (e : exn)
| Exhausted (last_error : option exn).

(** [last_error = cls(...)] inside an [except] clause. *)
Definition record_error (made : outcome exn) : attempt_end :=
  match made with
  | Ret e => Recorded e
  | Raise e => Propagated e
  end.

Section Pipeline.
Context {R : Runtime}.
Variable config : PaymentConfig.

(** The body of the [try] block. *)
Definition try_body (s : sent) : outcome pyobj :=
  match s with
  | Fails e => Raise e
  | Responds response =>
      if status_code response >=? 400 then
        let error_data :=
          match Response_json response with
          | Ret j => j
          | Raise _ => PyDict [("message", PyStr (text response))]
          end in
        match raise_for_status (status_code response) error_data with
        | Raise e => Raise e
        | Ret _ => Response_json response
        end
      else Response_json response
  end.

(** The [try] block with its four [except] clauses. *)
Definition attempt_once (s : sent) : attempt_end :=
  match try_body s with
  | Ret j => Returned j
  | Raise e =>
      match e with
      | PyError HttpxTimeoutException _ =>
          record_error
            (construct TimeoutError
               (PyStr ("Request timed out after " ++ float_repr (timeout config) ++ "s")%string) [])
      | PyError HttpxNetworkError t =>
          record_error
            (construct AfricaPaymentsError (PyStr ("Network error: " ++ t)%string) [])
      | SdkError _ _ _ _ => Propagated e
      | PyError _ t =>
          if is_Exception e
          then record_error
                 (construct AfricaPaymentsError (PyStr ("Request failed: " ++ t)%string) [])
          else Propagated e
      end
  end.

(** [for attempt in range(...)], with [remaining] values of [attempt] to
    go. *)
Fixpoint attempts (http : transport) (method url : string)
    (json_data params : option pyobj)
    (remaining : nat) (attempt : Z) (last_error : option exn)
  : loop_end * list effect :=
  match remaining with
  | O => (Exhausted last_error, [])
  | S k =>
      let call := EvRequest method url json_data params in
      match attempt_once (http (Z.to_nat attempt)) with
      | Returned j => (LoopReturn j, [call])
      | Propagated e => (LoopRaise e, [call])
      | Recorded e =>
          let wait := if attempt <? max_retries config
                      then [EvSleep (inject_Z (2 ^ attempt))] else [] in
          let (r, tr) := attempts http method url json_data params k (attempt + 1) (Some e) in
          (r, call :: wait ++ tr)
      end
  end.

Definition request_loop (http : transport) (method path : string)
    (json_data params : option pyobj) : loop_end * list effect :=
  attempts http method ("/v1" ++ path)%string json_data params
           (Z.to_nat (max_retries config + 1)) 0 None.

Definition _request (http : transport) (method path : string)
    (json_data params : option pyobj) : outcome pyobj * list effect :=
  let (r, tr) := request_loop http method path json_data params in
  match r with
  | LoopReturn j => (Ret j, tr)
  | LoopRaise e => (Raise e, tr)
  | Exhausted (Some e) => (Raise e, tr)
  | Exhausted None =>
      (raise_new AfricaPaymentsError (PyStr "Request failed after retries") [], tr)
  end.

Definition initiate_payment (http : transport) (request : PaymentRequest)
  : outcome PaymentResponse * list effect :=
  let (r, tr) := _request http "POST" "/payments" (Some (PyDict (to_api_payload request))) None in
  (match r with
   | Ret d => PaymentResponse_model_validate d
   | Raise e => Raise e
   end, tr).

Definition get_transaction (http : transport) (transaction_id : string)
  : outcome PaymentResponse * list effect :=
  let (r, tr) := _request http "GET" ("/payments/" ++ transaction_id)%string None None in
  (match r with
   | Ret d => PaymentResponse_model_validate d
   | Raise e => Raise e
   end, tr).

Definition verify_payment (http : transport) (transaction_id : string)
  : outcome bool * list effect :=
  match get_transaction http transaction_id with
  | (Ret transaction, tr) => (Ret (is_success transaction), tr)
  | (Raise e, tr) => if is_Exception e then (Ret false, tr) else (Raise e, tr)
  end.

(** A progress callback: what its call of each index does with the
    transaction it is given. *)
Definition progress : Type := nat -> PaymentResponse -> outcome unit.

(** [if callback: callback(transaction)], in round [i]. *)
Definition run_callback (callback : option progress) (i : nat) (transaction : PaymentResponse)
  : outcome unit * list effect :=
  match callback with
  | Some f => (f i transaction, [EvCallback transaction])
  | None => (Ret tt, [])
  end.

(** The [while True] loop from round [i] on.  [http i] is the network
    during the fetch of round [i]; [clock 0] is the reading taken before
    the loop and [clock (S i)] the one of round [i].  The loop has no
    bound of its own: [None] says that [fuel] rounds were not enough. *)
Fixpoint poll_loop (fuel : nat) (http : nat -> transport) (clock : nat -> Q)
    (transaction_id : string) (interval timeout_ : Q) (callback : option progress)
    (start_time : Q) (i : nat)
  : option (outcome PaymentResponse) * list effect :=
  match fuel with
  | O => (None, [])
  | S fuel' =>
      match get_transaction (http i) transaction_id with
      | (Raise e, tr) => (Some (Raise e), tr)
      | (Ret transaction, tr) =>
          match run_callback callback i transaction with
          | (Raise e, ev) => (Some (Raise e), tr ++ ev)
          | (Ret _, ev) =>
              if negb (PaymentStatus_eqb (status transaction) PENDING)
              then (Some (Ret transaction), tr ++ ev)
              else
                let elapsed := Qminus (clock (S i)) start_time in
                if Qle_bool timeout_ elapsed
                then (Some (raise_new TimeoutError
                              (PyStr ("Polling timed out after " ++ float_repr timeout_ ++ "s")%string)
                              []),
                      tr ++ ev ++ [EvClock])
                else
                  let (r, rest) := poll_loop fuel' http clock transaction_id interval timeout_
                                             callback start_time (S i) in
                  (r, tr ++ ev ++ [EvClock; EvSleep interval] ++ rest)
          end
      end
  end.

Definition poll_transaction_status (fuel : nat) (http : nat -> transport) (clock : nat -> Q)
    (transaction_id : string) (interval timeout_ : Q) (callback : option progress)
  : option (outcome PaymentResponse) * list effect :=
  let start_time := clock O in
  let (r, tr) := poll_loop fuel http clock transaction_id interval timeout_ callback
                           start_time O in
  (r, EvClock :: tr).

End Pipeline.

(** *** Webhooks *)

(** What [handler(event)] does: it returns a plain value, or a coroutine
    (which [handle_webhook] then awaits), or it raises. *)
Inductive call : Type :=
| Returns
| ReturnsCoroutine (awaited : outcome unit)
| Throws (e : exn).

(** What a handler can do to the registry of its client while it runs,
    or while its coroutine is awaited: [client.add_event_handler(h)] for a
    callable [h], and [client.remove_event_handler(h)] for the callable
    of identity [id]. *)
Inductive registry_call (H : Type) : Type :=
| Registers (h : H)
| Unregisters (id : nat).

Arguments Registers {H} h.
Arguments Unregisters {H} id.

(** A registered callable.  Two callables are [==] when they are the same
    object: [hid] is that identity.  [run] is what the call does for its
    caller, [registry_calls] what it does to [self._event_handlers], in
    order, before [handle_webhook] goes on to the next handler. *)
Inductive handler : Type := mkHandler {
  hid : nat;
  run : WebhookEvent -> call;
  registry_calls : WebhookEvent -> list (registry_call handler)
}.

(** [self._event_handlers.append(handler)]. *)
Definition add_event_handler (handlers : list handler) (h : handler) : list handler :=
  handlers ++ [h].

(** [l.remove(x)]: the list without its first item equal to [x], if any. *)
Fixpoint list_remove (l : list handler) (x : handler) : option (list handler) :=
  match l with
  | [] => None
  | y :: rest =>
      if Nat.eqb (hid y) (hid x) then Some rest
      else option_map (cons y) (list_remove rest x)
  end.

(** [self._event_handlers.remove(handler)]. *)
Definition remove_event_handler (handlers : list handler) (h : handler)
  : outcome (list handler) :=
  match list_remove handlers h with
  | Some l => Ret l
  | None => Raise (PyError ValueError "list.remove(x): x not in list")
  end.

Definition verify_webhook_signature (payload : list byte) (signature secret : string)
  : outcome bool :=
  let expected := Hashlib.hexdigest (Hashlib.hmac_sha256 (Hashlib.str_encode secret) payload) in
  Hashlib.compare_digest signature expected.

(** The body of the [try] in [handle_webhook]. *)
Definition invoke (h : handler) (event : WebhookEvent) : outcome unit * list effect :=
  match run h event with
  | Returns => (Ret tt, [EvHandler (hid h)])
  | ReturnsCoroutine awaited => (awaited, [EvHandler (hid h); EvAwait (hid h)])
  | Throws e => (Raise e, [EvHandler (hid h)])
  end.

(** The registry after one call of a handler to the registry.  A
    [remove] of a callable that is not registered raises inside the
    handler and leaves the list as it is. *)
Definition registry_after_call (handlers : list handler) (c : registry_call handler)
  : list handler :=
  match c with
  | Registers h => add_event_handler handlers h
  | Unregisters id =>
      match find (fun y => Nat.eqb (hid y) id) handlers with
      | Some y =>
          match remove_event_handler handlers y with
          | Ret l => l
          | Raise _ => handlers
          end
      | None => handlers
      end
  end.

Definition registry_after (handlers : list handler) (cs : list (registry_call handler))
  : list handler :=
  fold_left registry_after_call cs handlers.

(** [for handler in self._event_handlers: try: ... except Exception: pass].
    The [for] walks the list object itself, not a copy: its iterator keeps
    a position [i], and at each round takes the item that is at [i] in the
    list as it is then, or stops when [i] has reached its length.  The
    result is [None] when [fuel] rounds were not enough; the second
    component is the registry the delivery leaves. *)
Fixpoint dispatch (fuel : nat) (handlers : list handler) (i : nat) (event : WebhookEvent)
  : option (outcome unit) * list handler * list effect :=
  match fuel with
  | O => (None, handlers, [])
  | S fuel' =>
      match nth_error handlers i with
      | None => (Some (Ret tt), handlers, [])
      | Some h =>
          let (o, ev) := invoke h event in
          let handlers' := registry_after handlers (registry_calls h event) in
          match o with
          | Raise e =>
              if is_Exception e
              then let '(r, l, tr) := dispatch fuel' handlers' (S i) event in (r, l, ev ++ tr)
              else (Some (Raise e), handlers', ev)
          | Ret _ => let '(r, l, tr) := dispatch fuel' handlers' (S i) event in (r, l, ev ++ tr)
          end
      end
  end.

Definition handle_webhook {R : Runtime} (fuel : nat) (handlers : list handler) (payload : pyobj)
  : option (outcome unit) * list handler * list effect :=
  match WebhookEvent_model_validate payload with
  | Raise e => (Some (Raise e), handlers, [])
  | Ret event => dispatch fuel handlers O event
  end.

(** *** Reading a list of effects *)

(** The handlers called, in the order of the calls. *)
Fixpoint handler_calls (tr : list effect) : list nat :=
  match tr with
  | [] => []
  | EvHandler i :: rest => i :: handler_calls rest
  | _ :: rest => handler_calls rest
  end.

(** What a delivery that reaches [h] shows of it: its call, and the
    await of what it returned when that is a coroutine. *)
Definition delivered (event : WebhookEvent) (h : handler) : list effect :=
  match run h event with
  | ReturnsCoroutine _ => [EvHandler (hid h); EvAwait (hid h)]
  | Returns | Throws _ => [EvHandler (hid h)]
  end.

(** The number of HTTP attempts. *)
Fixpoint request_count (tr : list effect) : nat :=
  match tr with
  | [] => O
  | EvRequest _ _ _ _ :: rest => S (request_count rest)
  | _ :: rest => request_count rest
  end.

(** The sleeps, in order. *)
Fixpoint sleeps (tr : list effect) : list Q :=
  match tr with
  | [] => []
  | EvSleep s :: rest => s :: sleeps rest
  | _ :: rest => sleeps rest
  end.

(** The delays [2^k, 2^(k+1), ...], [n] of them. *)
Fixpoint backoff (n : nat) (k : Z) : list Q :=
  match n with
  | O => []
  | S n' => inject_Z (2 ^ k) :: backoff n' (k + 1)
  end.

(** One attempt, then [n] times a sleep of [2^k], [2^(k+1)], ... seconds
    followed by one more attempt. *)
Fixpoint retry_trace (call : effect) (n : nat) (k : Z) : list effect :=
  match n with
  | O => [call]
  | S n' => call :: EvSleep (inject_Z (2 ^ k)) :: retry_trace call n' (k + 1)
  end.

Section PollingEffects.
Context {R : Runtime}.
Variable config : PaymentConfig.
Variables (http : nat -> transport) (transaction_id : string) (interval : Q).
Variable callback : option progress.

(** The effects of round [i] of [poll_transaction_status] up to the test
    of the status, when the fetch returns [transaction]: those of the
    fetch, then the call of the callback. *)
Definition round_effects (i : nat) (transaction : PaymentResponse) : list effect :=
  snd (get_transaction config (http i) transaction_id)
  ++ snd (run_callback callback i transaction).

(** The effects of the rounds [i], ..., [i + n - 1] when each of them
    fetches [tx i], reads the clock and goes to sleep. *)
Fixpoint pending_rounds (tx : nat -> PaymentResponse) (n i : nat) : list effect :=
  match n with
  | O => []
  | S n' =>
      round_effects i (tx i) ++ [EvClock; EvSleep interval] ++ pending_rounds tx n' (S i)
  end.

End PollingEffects.

(** A handler call that returns, or fails with an error (an instance of
    [Exception]). *)
Definition returns_or_errs (c : call) : bool :=
  match c with
  | Returns | ReturnsCoroutine (Ret _) => true
  | ReturnsCoroutine (Raise e) | Throws e => is_Exception e
  end.

(** A fetch that returns, or fails with an error (an instance of
    [Exception]). *)
Definition fetched_or_errs {A : Type} (o : outcome A) : bool :=
  match o with
  | Ret _ => true
  | Raise e => is_Exception e
  end.

End Client.

(* ------------------------------------------------------------------ *)
(** ** A runtime and a network for running the model

    As in [tests/test_client.py], where [respx] answers for the server. *)

Module Fixture.
Import Exceptions Models Config Client.

(** Integers as amounts, POSIX seconds as timestamps, and the text of a
    float with no fractional part. *)
#[export] Instance runtime : Runtime := {
  validate_Decimal v :=
    match v with
    | PyInt n => Some (mkDecimal (n <? 0) (Z.abs n) 0)
    | PyDecimal d => Some d
    | _ => None
    end;
  validate_datetime v :=
    match v with
    | PyInt n => Some (mkDatetime (n * 1000000) None)
    | _ => None
    end;
  float_repr x :=
    (NilZero.string_of_int (Z.to_int (Qfloor x)) ++ ".0")%string
}.

(** [AfricaPaymentsClient(api_key="test-api-key")]. *)
Definition config : PaymentConfig :=
  mkPaymentConfig "test-api-key" SANDBOX KE None (30 # 1) 3.

Definition transaction_body (tid st : string) : pyobj :=
  PyDict [ ("transactionId", PyStr tid); ("status", PyStr st);
           ("reference", PyStr "REF-001"); ("amount", PyInt 1000);
           ("currency", PyStr "KES"); ("phoneNumber", PyStr "254712345678");
           ("createdAt", PyInt 1704067200); ("updatedAt", PyInt 1704067200) ].

Definition transaction (tid : string) (st : PaymentStatus) : PaymentResponse :=
  mkPaymentResponse tid st "REF-001" (mkDecimal false 1000 0) "KES" "254712345678"
    (mkDatetime 1704067200000000 None) (mkDatetime 1704067200000000 None) None None.

(** A server that answers every attempt with the same response. *)
Definition always (status_code : Z) (body : pyobj) : transport :=
  fun _ => Responds (mkResponse status_code (Some body) "{...}").

(** A network on which every attempt times out. *)
Definition timing_out : transport :=
  fun _ => Fails (PyError HttpxTimeoutException "timed out").

(** A configuration whose budget was put below zero after it was built
    ([PaymentConfig] is a plain, mutable dataclass). *)
Definition config_no_attempt : PaymentConfig :=
  mkPaymentConfig "test-api-key" SANDBOX KE None (30 # 1) (-1).

(** A transaction that is pending for [n] fetches and then succeeds. *)
Definition settles_after (n : nat) (k : nat) : PaymentResponse :=
  transaction "tx-123" (if (k <? n)%nat then PENDING else SUCCESS).

Definition settling_server (n : nat) (k : nat) : transport :=
  always 200 (transaction_body "tx-123" (if (k <? n)%nat then "pending" else "success")).

(** A transaction that stays pending. *)
Definition pending_server (k : nat) : transport :=
  always 200 (transaction_body "tx-123" "pending").

(** A clock that is read every six seconds. *)
Definition clock (k : nat) : Q := inject_Z (6 * Z.of_nat k).

Definition on_progress : progress := fun _ _ => Ret tt.

(** [PaymentRequest(amount=Decimal("1000.50"), currency="kes", ...)]. *)
Definition amount_1000_50 : Decimal := mkDecimal false 100050 (-2).

(** [Decimal("0.1")]. *)
Definition amount_0_1 : Decimal := mkDecimal false 1 (-1).

Definition webhook_payload : pyobj :=
  PyDict [ ("eventType", PyStr "payment.success");
           ("data", transaction_body "tx-123" "success");
           ("timestamp", PyInt 1704067200);
           ("signature", PyStr "abc123") ].

Definition webhook_event : WebhookEvent :=
  mkWebhookEvent "payment.success" (transaction "tx-123" SUCCESS)
    (mkDatetime 1704067200000000 None) "abc123".

Definition on_payment_success : handler := mkHandler 1 (fun _ => Returns) (fun _ => []).

Definition failing_handler : handler :=
  mkHandler 2 (fun _ => Throws (PyError ValueError "handler failed")) (fun _ => []).

Definition async_handler : handler :=
  mkHandler 3 (fun _ => ReturnsCoroutine (Raise (PyError OtherException "boom")))
            (fun _ => []).

(** A handler that serves one event: it unregisters itself when called. *)
Definition one_shot_handler : handler :=
  mkHandler 5 (fun _ => Returns) (fun _ => [Unregisters 5%nat]).

(** A handler that registers [on_payment_success] when called. *)
Definition registering_handler : handler :=
  mkHandler 6 (fun _ => Returns) (fun _ => [Registers on_payment_success]).

End Fixture.

(* ------------------------------------------------------------------ *)
(** ** exceptions.py: the text of an error *)

Module ErrorText.
Import Exceptions.

(** The text that an f-string gives for a [str].  [message] is declared
    [str] and [code] [Optional[str]]; other values are outside this
    function. *)
Definition text_of (v : pyobj) : option string :=
  match v with
  | PyStr s => Some s
  | _ => None
  end.

(** [AfricaPaymentsError.__str__]. *)
Definition AfricaPaymentsError_str (e : exn) : option string :=
  match e with
  | SdkError _ message code _ =>
      if truthy code then
        match text_of code, text_of message with
        | Some c, Some m => Some ("[" ++ c ++ "] " ++ m)%string
        | _, _ => None
        end
      else text_of message
  | PyError _ _ => None
  end.

End ErrorText.

(* ------------------------------------------------------------------ *)
(** ** models.py: the query, refund and provider models *)

Module Queries.
Import Exceptions Models.

(** What these models take from pydantic and [datetime]: the validators
    of [int] and [bool] fields, and [datetime.isoformat]. *)
Class Library : Type := {
  validate_int : pyobj -> option Z;
  validate_bool : pyobj -> option bool;
  isoformat : datetime -> string
}.

(** *** ProviderConfig *)

Definition PaymentProvider_eqb (a b : PaymentProvider) : bool :=
  match a, b with
  | MPESA, MPESA | MTN, MTN | VODAFONE, VODAFONE
  | AIRTEL, AIRTEL | BANK, BANK | CARD, CARD => true
  | _, _ => false
  end.

Record ProviderConfig : Type := mkProviderConfig {
  pc_provider : PaymentProvider;
  pc_enabled : bool;
  pc_config : option (list (string * pyobj))
}.

(** The [names] table of [display_name]. *)
Definition names : list (PaymentProvider * string) :=
  [ (MPESA, "M-Pesa"); (MTN, "MTN Mobile Money"); (VODAFONE, "Vodafone Cash");
    (AIRTEL, "Airtel Money"); (BANK, "Bank Transfer"); (CARD, "Card Payment") ].

Fixpoint names_get (table : list (PaymentProvider * string)) (p : PaymentProvider)
  : option string :=
  match table with
  | [] => None
  | (q, n) :: rest => if PaymentProvider_eqb q p then Some n else names_get rest p
  end.

(** [names.get(self.provider, self.provider.value)]. *)
Definition display_name (self : ProviderConfig) : string :=
  match names_get names (pc_provider self) with
  | Some n => n
  | None => PaymentProvider_value (pc_provider self)
  end.

(** *** RefundRequest *)

Record RefundRequest : Type := mkRefundRequest {
  refund_transaction_id : string;
  refund_amount : option Decimal;
  refund_reason : option string
}.

(** The constraint of the [amount] field: [Field(default=None, gt=0)]. *)
Definition RefundRequest_valid (self : RefundRequest) : bool :=
  match refund_amount self with
  | Some a => Float.Decimal_gt0 a
  | None => true
  end.

(** [if x:] on an optional field. *)
Definition when {A : Type} (x : option A) (test : A -> bool)
    (entry : A -> string * pyobj) : list (string * pyobj) :=
  match x with
  | Some a => if test a then [entry a] else []
  | None => []
  end.

(** [RefundRequest.to_api_payload]. *)
Definition RefundRequest_to_api_payload (self : RefundRequest) : list (string * pyobj) :=
  [("transactionId", PyStr (refund_transaction_id self))]
  ++ when (refund_amount self) (fun a => truthy (PyDecimal a))
          (fun a => ("amount", PyFloat (Float.float_of_Decimal a)))
  ++ when (refund_reason self) (fun r => truthy (PyStr r)) (fun r => ("reason", PyStr r)).

(** *** TransactionQuery *)

Record TransactionQuery : Type := mkTransactionQuery {
  q_transaction_id : option string;
  q_reference : option string;
  q_start_date : option datetime;
  q_end_date : option datetime;
  q_status : option PaymentStatus;
  q_limit : Z;
  q_offset : Z
}.

(** The constraints of [limit] ([ge=1, le=100]) and [offset] ([ge=0]). *)
Definition TransactionQuery_valid (self : TransactionQuery) : bool :=
  (1 <=? q_limit self) && (q_limit self <=? 100) && (0 <=? q_offset self).

(** [TransactionQuery()]. *)
Definition TransactionQuery_default : TransactionQuery :=
  mkTransactionQuery None None None None None 20 0.

(** [TransactionQuery.to_api_params].  A [datetime] is always true; a
    member of [PaymentStatus], a [str] enumeration, is true when its
    value is not empty. *)
Definition to_api_params {L : Library} (self : TransactionQuery) : list (string * pyobj) :=
  [("limit", PyInt (q_limit self)); ("offset", PyInt (q_offset self))]
  ++ when (q_transaction_id self) (fun s => truthy (PyStr s))
          (fun s => ("transactionId", PyStr s))
  ++ when (q_reference self) (fun s => truthy (PyStr s)) (fun s => ("reference", PyStr s))
  ++ when (q_start_date self) (fun _ => true) (fun d => ("startDate", PyStr (isoformat d)))
  ++ when (q_end_date self) (fun _ => true) (fun d => ("endDate", PyStr (isoformat d)))
  ++ when (q_status self) (fun st => truthy (PyStr (PaymentStatus_value st)))
          (fun st => ("status", PyStr (PaymentStatus_value st))).

(** *** TransactionHistory *)

Record TransactionHistory : Type := mkTransactionHistory {
  transactions : list PaymentResponse;
  total : Z;
  has_more : bool
}.

Fixpoint parse_transactions {R : Runtime} (l : list pyobj) : option (list PaymentResponse) :=
  match l with
  | [] => Some []
  | v :: rest =>
      match parse_PaymentResponse v, parse_transactions rest with
      | Some r, Some rs => Some (r :: rs)
      | _, _ => None
      end
  end.

Definition validate_transactions {R : Runtime} (v : pyobj) : option (list PaymentResponse) :=
  match v with
  | PyList l => parse_transactions l
  | _ => None
  end.

Definition parse_TransactionHistory {R : Runtime} {L : Library} (v : pyobj)
  : option TransactionHistory :=
  match v with
  | PyDict d =>
      match required d "transactions" "transactions" validate_transactions,
            required d "total" "total" validate_int,
            required d "hasMore" "has_more" validate_bool with
      | Some ts, Some n, Some more => Some (mkTransactionHistory ts n more)
      | _, _, _ => None
      end
  | _ => None
  end.

(** [TransactionHistory.model_validate(data)]. *)
Definition TransactionHistory_model_validate {R : Runtime} {L : Library} (data : pyobj)
  : outcome TransactionHistory :=
  match parse_TransactionHistory data with
  | Some h => Ret h
  | None => Raise (PyError PydanticValidationError "validation error for TransactionHistory")
  end.

End Queries.

(* ------------------------------------------------------------------ *)
(** ** config.py: the headers *)

Module Headers.
Import Models Config.

Definition PaymentRegion_value (r : PaymentRegion) : string :=
  match r with
  | KE => "ke"
  | NG => "ng"
  | GH => "gh"
  | ZA => "za"
  | TZ => "tz"
  | UG => "ug"
  end.

Definition PaymentEnvironment_value (e : PaymentEnvironment) : string :=
  match e with
  | SANDBOX => "sandbox"
  | PRODUCTION => "production"
  end.

Definition get_headers (self : PaymentConfig) : list (string * string) :=
  [ ("Authorization", ("Bearer " ++ api_key self)%string);
    ("Content-Type", "application/json");
    ("Accept", "application/json");
    ("X-Region", PaymentRegion_value (region self)) ].

End Headers.

(* ------------------------------------------------------------------ *)
(** ** client.py: construction, the other operations, the connection *)

Module Facade.
Import Exceptions Models Config Client Queries Headers.

(** [PaymentEnvironment(environment)]: the member with that value. *)
Definition PaymentEnvironment_of (s : string) : outcome PaymentEnvironment :=
  match find (fun e => String.eqb (PaymentEnvironment_value e) s) [SANDBOX; PRODUCTION] with
  | Some e => Ret e
  | None => Raise (PyError ValueError ("'" ++ s ++ "' is not a valid PaymentEnvironment")%string)
  end.

(** [PaymentRegion(region)]. *)
Definition PaymentRegion_of (s : string) : outcome PaymentRegion :=
  match find (fun r => String.eqb (PaymentRegion_value r) s) [KE; NG; GH; ZA; TZ; UG] with
  | Some r => Ret r
  | None => Raise (PyError ValueError ("'" ++ s ++ "' is not a valid PaymentRegion")%string)
  end.

(** [AfricaPaymentsClient.__init__]: the configuration the new client
    holds.  The two enumerations are looked up first, in this order;
    [PaymentConfig(...)] then runs [__post_init__]. *)
Definition AfricaPaymentsClient_init (api_key environment region : string)
    (base_url : option string) (timeout : Q) (max_retries : Z) : outcome PaymentConfig :=
  match PaymentEnvironment_of environment with
  | Raise e => Raise e
  | Ret env =>
      match PaymentRegion_of region with
      | Raise e => Raise e
      | Ret reg =>
          let config := mkPaymentConfig api_key env reg base_url timeout max_retries in
          match post_init config with
          | Raise e => Raise e
          | Ret _ => Ret config
          end
      end
  end.

Section Operations.
Context {R : Runtime} {L : Library}.
Variable config : PaymentConfig.

Definition get_transaction_history (http : transport) (query : option TransactionQuery)
  : outcome TransactionHistory * list effect :=
  let params :=
    match query with
    | Some q => to_api_params q
    | None => [("limit", PyInt 20); ("offset", PyInt 0)]
    end in
  let (r, tr) := _request config http "GET" "/payments" None (Some (PyDict params)) in
  (match r with
   | Ret d => TransactionHistory_model_validate d
   | Raise e => Raise e
   end, tr).

Definition refund (http : transport) (request : RefundRequest)
  : outcome PaymentResponse * list effect :=
  let (r, tr) := _request config http "POST" "/refunds"
                          (Some (PyDict (RefundRequest_to_api_payload request))) None in
  (match r with
   | Ret d => PaymentResponse_model_validate d
   | Raise e => Raise e
   end, tr).

Definition health_check (http : transport) : outcome pyobj * list effect :=
  _request config http "GET" "/health" None None.

End Operations.

(** *** The connection *)

(** The part of the client that holds the [httpx.AsyncClient]:
    [_client] is [None] or the connection in use, named by the number of
    connections built before it. *)
Record Connection : Type := mkConnection {
  _client : option nat;
  built : nat
}.

Inductive conn_effect : Type :=
| Built (n : nat)
| Aclosed (n : nat).

(** [from_config], and the end of [__init__]. *)
Definition fresh : Connection := mkConnection None O.

Definition _get_client (self : Connection) : Connection * list conn_effect :=
  match _client self with
  | None => (mkConnection (Some (built self)) (S (built self)), [Built (built self)])
  | Some _ => (self, [])
  end.

Definition close (self : Connection) : Connection * list conn_effect :=
  match _client self with
  | Some n => (mkConnection None (built self), [Aclosed n])
  | None => (self, [])
  end.

(** What a caller does with a client, as far as the connection goes:
    [_request] (every operation of the facade starts with it) asks for
    the connection; [__aenter__] does the same; [__aexit__] closes. *)
Inductive client_call : Type :=
| Request
| Close
| Aenter
| Aexit.

Definition step (self : Connection) (c : client_call) : Connection * list conn_effect :=
  match c with
  | Request | Aenter => _get_client self
  | Close | Aexit => close self
  end.

Fixpoint run_calls (self : Connection) (cs : list client_call) : Connection * list conn_effect :=
  match cs with
  | [] => (self, [])
  | c :: rest =>
      let (s1, e1) := step self c in
      let (s2, e2) := run_calls s1 rest in
      (s2, e1 ++ e2)
  end.

(** The connections built and not closed, after the effects [tr]. *)
Fixpoint still_open (tr : list conn_effect) (open : list nat) : list nat :=
  match tr with
  | [] => open
  | Built n :: rest => still_open rest (open ++ [n])
  | Aclosed n :: rest => still_open rest (filter (fun m => negb (Nat.eqb m n)) open)
  end.

End Facade.

(* ------------------------------------------------------------------ *)
(** ** More networks, requests and handlers for running the model *)

Module Scenarios.
Import Exceptions Models Config Client Queries Facade Fixture.

(** Integers and booleans as they are, and a timestamp written as its
    number of microseconds. *)
#[export] Instance library : Library := {
  validate_int v := match v with PyInt n => Some n | _ => None end;
  validate_bool v := match v with PyBool b => Some b | _ => None end;
  isoformat d := NilZero.string_of_int (Z.to_int (posix_microseconds d))
}.

(** A network that times out [n] times and then answers. *)
Definition flaky (n : nat) (body : pyobj) : transport :=
  fun j => if (j <? n)%nat then Fails (PyError HttpxTimeoutException "timed out")
           else Responds (mkResponse 200 (Some body) "{...}").

Definition refusal (j : nat) : string :=
  if (j <? 3)%nat then "connection refused" else "connection reset".

(** A network that is down, with another error at the last attempt. *)
Definition network_down : transport :=
  fun j => Fails (PyError HttpxNetworkError (refusal j)).

(** One timeout, then the task is cancelled. *)
Definition cancelled : transport :=
  fun j => if (j <? 1)%nat then Fails (PyError HttpxTimeoutException "timed out")
           else Fails (PyError CancelledError EmptyString).

(** A server that answers 204 with an empty body. *)
Definition no_content : transport :=
  fun _ => Responds (mkResponse 204 None EmptyString).

Definition forbidden_json : Response :=
  mkResponse 403 (Some (PyDict [("message", PyStr "Forbidden"); ("code", PyStr "NO_ACCESS")]))
    "{...}".

Definition forbidden_html : Response :=
  mkResponse 403 None "<html>Forbidden</html>".

(** A transaction body without its status. *)
Definition body_without_status : pyobj :=
  PyDict [ ("transactionId", PyStr "tx-123"); ("reference", PyStr "REF-001");
           ("amount", PyInt 1000); ("currency", PyStr "KES");
           ("phoneNumber", PyStr "254712345678");
           ("createdAt", PyInt 1704067200); ("updatedAt", PyInt 1704067200) ].

Definition request_1000 : PaymentRequest :=
  mkPaymentRequest (mkDecimal false 100000 (-2)) "KES" "254712345678" "REF-001"
    (Some "Test payment") None None (Some MPESA).

Definition query_success : TransactionQuery :=
  mkTransactionQuery (Some EmptyString) (Some "REF-001") None None (Some SUCCESS) 50 10.

Definition partial_refund : RefundRequest :=
  mkRefundRequest "tx-123" (Some (mkDecimal false 50000 (-2))) (Some EmptyString).

(** A handler that stops the process. *)
Definition exiting_handler : handler :=
  mkHandler 4 (fun _ => Throws (PyError SystemExit "exit")) (fun _ => []).

(** A fetch that is answered twice with a pending transaction, then
    with a 403. *)
Definition forbidden_after (n : nat) (k : nat) : transport :=
  if (k <? n)%nat then always 200 (transaction_body "tx-123" "pending")
  else fun _ => Responds forbidden_json.

End Scenarios.

(* ================================================================== *)
(** * Properties *)

Import Exceptions Models Config Client.

(* ------------------------------------------------------------------ *)
(** ** The error taxonomy *)

Section ErrorMapping.

(** Every subclass constructor, called the way [raise_for_status] calls
    it, passes [code] twice to the base class. *)
Lemma construct_subclass_repeats_code cls c message code details :
  class_code cls = Some c ->
  construct cls message [("code", code); ("details", details)] = Raise duplicate_code.
Proof.
  intros Hc. unfold construct. rewrite Hc. reflexivity.
Qed.

(** The base class takes [code] and [details] as they come. *)
Lemma construct_base message code details :
  construct AfricaPaymentsError message [("code", code); ("details", details)]
  = Ret (SdkError AfricaPaymentsError message code (py_or details (PyDict []))).
Proof. reflexivity. Qed.

(** With no keyword, a subclass carries its own code and no details. *)
Lemma construct_plain cls message :
  construct cls message []
  = Ret (SdkError cls message
           (match class_code cls with Some c => PyStr c | None => PyNone end)
           (PyDict [])).
Proof. destruct cls; reflexivity. Qed.

(** On the statuses of the table, what leaves [raise_for_status] is the
    [TypeError] of the constructor call, whatever the body holds. *)
Lemma raise_for_status_classified status_code d :
  classified status_code = true ->
  raise_for_status status_code (PyDict d) = Raise duplicate_code.
Proof.
  unfold classified, raise_for_status. intros H.
  destruct (status_code =? 400); [reflexivity|].
  destruct (status_code =? 401); [reflexivity|].
  destruct (status_code =? 404); [reflexivity|].
  destruct (status_code =? 409); [reflexivity|].
  destruct (status_code =? 429); [reflexivity|].
  simpl in H. rewrite H. reflexivity.
Qed.

(** On any other status from 400 up, it raises the base error with the
    message, code and details of the body. *)
Lemma raise_for_status_generic status_code d :
  400 <= status_code ->
  classified status_code = false ->
  raise_for_status status_code (PyDict d)
  = Raise (SdkError AfricaPaymentsError
             (get_default d "message" (PyStr "Unknown error"))
             (get_default d "code" PyNone)
             (py_or (get_default d "details" (PyDict [])) (PyDict []))).
Proof.
  unfold classified, raise_for_status. intros Hge H.
  repeat (apply orb_false_iff in H; destruct H as [H ?]).
  repeat match goal with Hx : _ = false |- _ => rewrite Hx; clear Hx end.
  replace (status_code >=? 400) with true by (symmetry; apply Z.geb_le; lia).
  reflexivity.
Qed.

(** The body of a response is not always a [dict]. *)
Lemma raise_for_status_not_dict status_code v :
  (forall d, v <> PyDict d) ->
  raise_for_status status_code v = Raise (PyError AttributeError "object has no attribute 'get'").
Proof.
  intros H. destruct v; try reflexivity. exfalso. apply (H d). reflexivity.
Qed.

(** C1, at the response of [test_validation_error]: status 400 with a
    message and a code.  The claim asks for a [ValidationError] carrying
    them; [raise_for_status] raises the [TypeError] of
    [ValidationError.__init__], which hands [code] to the base
    constructor twice. *)
Theorem raise_for_status_400_raises_type_error :
  let body := PyDict [("message", PyStr "Invalid phone number");
                      ("code", PyStr "INVALID_PHONE")] in
  raise_for_status 400 body = Raise duplicate_code
  /\ raise_for_status 400 body
     <> Raise (SdkError ValidationError (PyStr "Invalid phone number")
                 (PyStr "INVALID_PHONE") (PyDict [])).
Proof.
  split; [reflexivity | discriminate].
Qed.

End ErrorMapping.

(* ------------------------------------------------------------------ *)
(** ** The request pipeline *)

Section RequestPipeline.
Context {R : Runtime}.
Variable config : PaymentConfig.

Lemma try_body_classified response :
  classified (status_code response) = true ->
  (forall j, json_body response = Some j -> exists d, j = PyDict d) ->
  try_body (Responds response) = Raise duplicate_code.
Proof.
  intros Hc Hd. unfold try_body.
  assert (Hge : (status_code response >=? 400) = true).
  { unfold classified in Hc. apply Z.geb_le.
    repeat (apply orb_true_iff in Hc; destruct Hc as [Hc|Hc]);
      try (apply Z.eqb_eq in Hc; lia). apply Z.geb_le in Hc. lia. }
  rewrite Hge. unfold Response_json.
  destruct (json_body response) as [j|] eqn:Hj.
  - destruct (Hd j eq_refl) as [d ->].
    rewrite raise_for_status_classified by assumption. reflexivity.
  - rewrite raise_for_status_classified by assumption. reflexivity.
Qed.

(** A response of a classified status is not surfaced: the [TypeError]
    falls into [except Exception] and the attempt counts as a failure to
    retry. *)
Lemma attempt_once_classified response :
  classified (status_code response) = true ->
  (forall j, json_body response = Some j -> exists d, j = PyDict d) ->
  attempt_once config (Responds response)
  = Recorded (SdkError AfricaPaymentsError
                (PyStr "Request failed: __init__() got multiple values for keyword argument 'code'")
                PyNone (PyDict [])).
Proof.
  intros Hc Hd. unfold attempt_once. rewrite try_body_classified by assumption.
  reflexivity.
Qed.

(** A response of another status from 400 up is surfaced at once. *)
Lemma attempt_once_generic response d :
  400 <= status_code response ->
  classified (status_code response) = false ->
  json_body response = Some (PyDict d) ->
  attempt_once config (Responds response)
  = Propagated (SdkError AfricaPaymentsError
                  (get_default d "message" (PyStr "Unknown error"))
                  (get_default d "code" PyNone)
                  (py_or (get_default d "details" (PyDict [])) (PyDict []))).
Proof.
  intros Hge Hc Hd. unfold attempt_once, try_body, Response_json.
  replace (status_code response >=? 400) with true by (symmetry; apply Z.geb_le; lia).
  rewrite Hd. rewrite raise_for_status_generic by assumption. reflexivity.
Qed.

Lemma attempt_once_timeout t :
  attempt_once config (Fails (PyError HttpxTimeoutException t))
  = Recorded (SdkError TimeoutError
                (PyStr ("Request timed out after " ++ float_repr (timeout config) ++ "s")%string)
                (PyStr "TIMEOUT") (PyDict [])).
Proof. reflexivity. Qed.

(** When every attempt from [k] to [max_retries] records a failure, the
    loop makes all of them, sleeps [2^attempt] seconds after each but the
    last, and ends with the failure recorded last. *)
Lemma attempts_all_recorded (http : transport) (err : nat -> exn)
      method url json_data params :
  forall (n : nat) (k : Z) (last_error : option exn),
    0 <= k ->
    k + Z.of_nat n = max_retries config ->
    (forall j, (Z.to_nat k <= j <= Z.to_nat (max_retries config))%nat ->
               attempt_once config (http j) = Recorded (err j)) ->
    attempts config http method url json_data params (S n) k last_error
    = (Exhausted (Some (err (Z.to_nat (max_retries config)))),
       retry_trace (EvRequest method url json_data params) n k).
Proof.
  induction n as [|n IH]; intros k last_error Hk Hsum Hall.
  - simpl. rewrite Hall by lia.
    replace (k <? max_retries config) with false by (symmetry; apply Z.ltb_ge; lia).
    replace k with (max_retries config) by lia. reflexivity.
  - cbn [attempts]. rewrite Hall by lia.
    replace (k <? max_retries config) with true by (symmetry; apply Z.ltb_lt; lia).
    specialize (IH (k + 1) (Some (err (Z.to_nat k)))).
    cbn [attempts] in IH. rewrite IH; [reflexivity | lia | lia |].
    intros j Hj. apply Hall. lia.
Qed.

Lemma request_count_retry_trace method url json_data params n k :
  request_count (retry_trace (EvRequest method url json_data params) n k) = S n.
Proof.
  revert k. induction n as [|n IH]; intros k; simpl; [reflexivity|].
  rewrite IH. reflexivity.
Qed.

Lemma sleeps_retry_trace method url json_data params n k :
  sleeps (retry_trace (EvRequest method url json_data params) n k) = backoff n k.
Proof.
  revert k. induction n as [|n IH]; intros k; simpl; [reflexivity|].
  rewrite IH. reflexivity.
Qed.

(** The whole of [_request] when every attempt records a failure. *)
Lemma request_all_recorded (http : transport) (err : nat -> exn)
      method path json_data params :
  0 <= max_retries config ->
  (forall j, (j <= Z.to_nat (max_retries config))%nat ->
             attempt_once config (http j) = Recorded (err j)) ->
  _request config http method path json_data params
  = (Raise (err (Z.to_nat (max_retries config))),
     retry_trace (EvRequest method ("/v1" ++ path)%string json_data params)
                 (Z.to_nat (max_retries config)) 0).
Proof.
  intros Hn Hall. unfold _request, request_loop.
  replace (Z.to_nat (max_retries config + 1)) with (S (Z.to_nat (max_retries config))) by lia.
  rewrite (attempts_all_recorded http err); try lia; [reflexivity|].
  intros j Hj. apply Hall. lia.
Qed.

(** A recorded failure stays recorded: the loop cannot end with none. *)
Lemma attempts_keep_error (http : transport) method url json_data params :
  forall (n : nat) (k : Z) (e : exn),
    fst (attempts config http method url json_data params n k (Some e)) <> Exhausted None.
Proof.
  induction n as [|n IH]; intros k e; cbn [attempts].
  - simpl. discriminate.
  - destruct (attempt_once config (http (Z.to_nat k))) as [j|e'|e']; try (simpl; discriminate).
    specialize (IH (k + 1) e').
    destruct (attempts config http method url json_data params n (k + 1) (Some e')) as [r tr].
    exact IH.
Qed.

(** The loop ends with no failure recorded only when it makes no attempt. *)
Lemma request_loop_none_recorded (http : transport) method path json_data params :
  fst (request_loop config http method path json_data params) = Exhausted None ->
  max_retries config < 0.
Proof.
  unfold request_loop. intros H.
  destruct (Z.to_nat (max_retries config + 1)) as [|n] eqn:Hn; [lia|].
  exfalso. cbn [attempts] in H.
  destruct (attempt_once config (http (Z.to_nat 0))) as [j|e'|e']; try discriminate.
  pose proof (attempts_keep_error http method ("/v1" ++ path)%string json_data params n (0 + 1) e') as Hk.
  destruct (attempts config http method ("/v1" ++ path)%string json_data params n (0 + 1) (Some e'))
    as [r tr].
  apply Hk. exact H.
Qed.

(** Responses of a classified status are retried like network failures. *)
Lemma request_classified_is_retried (http : transport) method path json_data params :
  0 <= max_retries config ->
  (forall j, (j <= Z.to_nat (max_retries config))%nat ->
     exists response, http j = Responds response
       /\ classified (status_code response) = true
       /\ (forall v, json_body response = Some v -> exists d, v = PyDict d)) ->
  _request config http method path json_data params
  = (Raise (SdkError AfricaPaymentsError
              (PyStr "Request failed: __init__() got multiple values for keyword argument 'code'")
              PyNone (PyDict [])),
     retry_trace (EvRequest method ("/v1" ++ path)%string json_data params)
                 (Z.to_nat (max_retries config)) 0).
Proof.
  intros Hn Hall.
  apply (request_all_recorded http
           (fun _ => SdkError AfricaPaymentsError
              (PyStr "Request failed: __init__() got multiple values for keyword argument 'code'")
              PyNone (PyDict []))); [assumption|].
  intros j Hj. destruct (Hall j Hj) as (response & -> & Hc & Hd).
  apply attempt_once_classified; assumption.
Qed.

(** A response of an unclassified status from 400 up ends [_request] at
    the first attempt, with no sleep. *)
Lemma request_generic_is_immediate (http : transport) method path json_data params response d :
  0 <= max_retries config ->
  http O = Responds response ->
  400 <= status_code response ->
  classified (status_code response) = false ->
  json_body response = Some (PyDict d) ->
  _request config http method path json_data params
  = (Raise (SdkError AfricaPaymentsError
              (get_default d "message" (PyStr "Unknown error"))
              (get_default d "code" PyNone)
              (py_or (get_default d "details" (PyDict [])) (PyDict []))),
     [EvRequest method ("/v1" ++ path)%string json_data params]).
Proof.
  intros Hn Hh Hge Hc Hd. unfold _request, request_loop.
  replace (Z.to_nat (max_retries config + 1)) with (S (Z.to_nat (max_retries config))) by lia.
  cbn [attempts]. change (Z.to_nat 0) with O. rewrite Hh.
  rewrite (attempt_once_generic response d) by assumption. reflexivity.
Qed.

(** C3: with [max_retries = N >= 0] and a timeout at every attempt,
    [_request] makes [N + 1] attempts, sleeps [2^attempt] seconds after
    each attempt but the last (1, 2, 4, ..., [2^(N-1)]), and raises the
    [TimeoutError] recorded last; and whenever the loop ends with no
    failure recorded, it raises the generic "Request failed after
    retries" error. *)
Theorem request_timeouts_exhaust_retries (http : transport) method path json_data params :
  (0 <= max_retries config ->
   (forall j, (j <= Z.to_nat (max_retries config))%nat ->
      exists t, http j = Fails (PyError HttpxTimeoutException t)) ->
   let run := _request config http method path json_data params in
   fst run = Raise (SdkError TimeoutError
                      (PyStr ("Request timed out after " ++ float_repr (timeout config) ++ "s")%string)
                      (PyStr "TIMEOUT") (PyDict []))
   /\ snd run = retry_trace (EvRequest method ("/v1" ++ path)%string json_data params)
                            (Z.to_nat (max_retries config)) 0
   /\ request_count (snd run) = S (Z.to_nat (max_retries config))
   /\ sleeps (snd run) = backoff (Z.to_nat (max_retries config)) 0)
  /\
  (forall tr,
     request_loop config http method path json_data params = (Exhausted None, tr) ->
     _request config http method path json_data params
     = (Raise (SdkError AfricaPaymentsError (PyStr "Request failed after retries")
                 PyNone (PyDict [])), tr)).
Proof.
  split.
  - intros Hn Hall run.
    assert (Hrun : run = (Raise (SdkError TimeoutError
                      (PyStr ("Request timed out after " ++ float_repr (timeout config) ++ "s")%string)
                      (PyStr "TIMEOUT") (PyDict [])),
                    retry_trace (EvRequest method ("/v1" ++ path)%string json_data params)
                                (Z.to_nat (max_retries config)) 0)).
    { unfold run.
      apply (request_all_recorded http
               (fun _ => SdkError TimeoutError
                  (PyStr ("Request timed out after " ++ float_repr (timeout config) ++ "s")%string)
                  (PyStr "TIMEOUT") (PyDict []))); [assumption|].
      intros j Hj. destruct (Hall j Hj) as [t ->]. apply attempt_once_timeout. }
    rewrite Hrun. cbn [fst snd].
    rewrite request_count_retry_trace, sleeps_retry_trace. auto.
  - intros tr Hloop. unfold _request. rewrite Hloop. reflexivity.
Qed.

End RequestPipeline.

Section RequestExamples.
Context {R : Runtime}.

(** C2, at the response of [test_transaction_not_found] and the default
    budget of three retries: the claim asks for one attempt and a
    [NotFoundError]; [_request] makes four attempts, sleeps 1, 2 and 4
    seconds between them, and raises a plain [AfricaPaymentsError] that
    wraps the [TypeError] of [raise_for_status]. *)
Theorem request_404_is_retried :
  _request Fixture.config
           (fun _ => Responds (mkResponse 404
                                 (Some (PyDict [("message", PyStr "Transaction not found")]))
                                 "{...}"))
           "GET" "/payments/tx-999" None None
  = (Raise (SdkError AfricaPaymentsError
              (PyStr "Request failed: __init__() got multiple values for keyword argument 'code'")
              PyNone (PyDict [])),
     [ EvRequest "GET" "/v1/payments/tx-999" None None; EvSleep 1;
       EvRequest "GET" "/v1/payments/tx-999" None None; EvSleep 2;
       EvRequest "GET" "/v1/payments/tx-999" None None; EvSleep 4;
       EvRequest "GET" "/v1/payments/tx-999" None None ]).
Proof.
  rewrite request_classified_is_retried.
  - reflexivity.
  - discriminate.
  - intros j _. eexists. split; [reflexivity|]. split; [reflexivity|].
    intros v Hv. injection Hv as <-. eexists. reflexivity.
Qed.

End RequestExamples.

(* ------------------------------------------------------------------ *)
(** ** Polling *)

Lemma PaymentStatus_eqb_eq a b : PaymentStatus_eqb a b = true <-> a = b.
Proof. destruct a, b; simpl; split; intros H; try reflexivity; discriminate. Qed.

Lemma Qle_bool_false a b : (b < a)%Q -> Qle_bool a b = false.
Proof.
  intros H. destruct (Qle_bool a b) eqn:E; [|reflexivity].
  apply Qle_bool_iff in E. exfalso. exact (Qlt_not_le _ _ H E).
Qed.

Section Polling.
Context {R : Runtime}.
Variable config : PaymentConfig.
Variables (http : nat -> transport) (clock : nat -> Q).
Variables (transaction_id : string) (interval timeout_ : Q).
Variable callback : option progress.
Variable tx : nat -> PaymentResponse.

(** One round whose fetch returns [tx i] and whose callback, if any,
    returns. *)
Lemma poll_loop_step fuel start i :
  fst (get_transaction config (http i) transaction_id) = Ret (tx i)
  /\ fst (run_callback callback i (tx i)) = Ret tt ->
  poll_loop config (S fuel) http clock transaction_id interval timeout_ callback start i
  = if negb (PaymentStatus_eqb (status (tx i)) PENDING)
    then (Some (Ret (tx i)), round_effects config http transaction_id callback i (tx i))
    else if Qle_bool timeout_ (clock (S i) - start)
         then (Some (raise_new TimeoutError
                       (PyStr ("Polling timed out after " ++ float_repr timeout_ ++ "s")%string) []),
               round_effects config http transaction_id callback i (tx i) ++ [EvClock])
         else (fst (poll_loop config fuel http clock transaction_id interval timeout_
                              callback start (S i)),
               round_effects config http transaction_id callback i (tx i)
               ++ [EvClock; EvSleep interval]
               ++ snd (poll_loop config fuel http clock transaction_id interval timeout_
                                 callback start (S i))).
Proof.
  intros [Hf Hc]. cbn [poll_loop]. unfold round_effects.
  destruct (get_transaction config (http i) transaction_id) as [o tr].
  cbn [fst snd] in *. subst o.
  destruct (run_callback callback i (tx i)) as [oc ev].
  cbn [fst snd] in *. subst oc.
  destruct (negb (PaymentStatus_eqb (status (tx i)) PENDING)); [reflexivity|].
  unfold Qminus.
  destruct (Qle_bool timeout_ (clock (S i) + - start)).
  - rewrite app_assoc. reflexivity.
  - destruct (poll_loop config fuel http clock transaction_id interval timeout_ callback
                        start (S i)) as [r rest].
    cbn [fst snd]. rewrite app_assoc. reflexivity.
Qed.

(** [n] rounds that find the transaction pending before the bound: the
    loop goes through them, sleeping [interval] after each, and carries
    on from round [i + n]. *)
Lemma poll_loop_pending start :
  forall (n i fuel : nat),
    (forall k, (i <= k < i + n)%nat ->
       (fst (get_transaction config (http k) transaction_id) = Ret (tx k)
        /\ fst (run_callback callback k (tx k)) = Ret tt)
       /\ status (tx k) = PENDING /\ (clock (S k) - start < timeout_)%Q) ->
    poll_loop config (n + fuel) http clock transaction_id interval timeout_ callback start i
    = (fst (poll_loop config fuel http clock transaction_id interval timeout_ callback
                      start (i + n)),
       pending_rounds config http transaction_id interval callback tx n i
       ++ snd (poll_loop config fuel http clock transaction_id interval timeout_ callback
                         start (i + n))).
Proof.
  induction n as [|n IH]; intros i fuel Hall.
  - rewrite Nat.add_0_r. simpl.
    destruct (poll_loop config fuel http clock transaction_id interval timeout_ callback start i).
    reflexivity.
  - destruct (Hall i ltac:(lia)) as (Hf & Hp & Ht).
    change (S n + fuel)%nat with (S (n + fuel)).
    rewrite (poll_loop_step _ _ _ Hf).
    rewrite Hp. cbn [PaymentStatus_eqb negb].
    rewrite (Qle_bool_false _ _ Ht).
    rewrite IH by (intros k Hk; apply Hall; lia).
    replace (S i + n)%nat with (i + S n)%nat by lia.
    cbn [fst snd pending_rounds]. rewrite <- !app_assoc. reflexivity.
Qed.

(** C4: while the fetches return a pending transaction before the bound,
    [poll_transaction_status] reads the clock once at the start, and in
    each round fetches, calls the callback when there is one, reads the
    clock and sleeps [interval] seconds.  At the first round [n] whose
    fetch is not pending it returns that transaction, right after the
    callback; at the first round [n] at which the time elapsed since the
    start has reached [timeout_], the transaction still pending, it raises
    the SDK's [TimeoutError].  [fuel] bounds the rounds the model may
    take; any bound above [n] gives the result. *)
Theorem poll_transaction_status_spec (n fuel : nat) :
  (n < fuel)%nat ->
  (forall k, (k <= n)%nat ->
     fst (get_transaction config (http k) transaction_id) = Ret (tx k)
     /\ fst (run_callback callback k (tx k)) = Ret tt) ->
  (forall k, (k < n)%nat ->
     status (tx k) = PENDING /\ (clock (S k) - clock O < timeout_)%Q) ->
  let before :=
    EvClock :: pending_rounds config http transaction_id interval callback tx n O in
  let last := round_effects config http transaction_id callback n (tx n) in
  (status (tx n) <> PENDING ->
   poll_transaction_status config fuel http clock transaction_id interval timeout_ callback
   = (Some (Ret (tx n)), before ++ last))
  /\
  (status (tx n) = PENDING -> (timeout_ <= clock (S n) - clock O)%Q ->
   poll_transaction_status config fuel http clock transaction_id interval timeout_ callback
   = (Some (Raise (SdkError TimeoutError
                     (PyStr ("Polling timed out after " ++ float_repr timeout_ ++ "s")%string)
                     (PyStr "TIMEOUT") (PyDict []))),
      before ++ last ++ [EvClock]))
  /\
  (forall f k t, callback = Some f ->
     round_effects config http transaction_id callback k t
     = snd (get_transaction config (http k) transaction_id) ++ [EvCallback t]).
Proof.
  intros Hfuel Hfetch Hpend before last.
  assert (Hloop : forall f,
    poll_loop config (n + S f) http clock transaction_id interval timeout_ callback (clock O) O
    = (fst (poll_loop config (S f) http clock transaction_id interval timeout_ callback
                      (clock O) n),
       pending_rounds config http transaction_id interval callback tx n O
       ++ snd (poll_loop config (S f) http clock transaction_id interval timeout_ callback
                         (clock O) n))).
  { intros f. apply (poll_loop_pending (clock O) n O (S f)).
    intros k Hk. split; [apply Hfetch; lia | apply Hpend; lia]. }
  replace fuel with (n + S (fuel - S n))%nat by lia.
  unfold poll_transaction_status. rewrite Hloop.
  rewrite (poll_loop_step _ _ _ (Hfetch n (Nat.le_refl n))).
  split; [|split].
  - intros Hnp.
    assert (Hb : PaymentStatus_eqb (status (tx n)) PENDING = false).
    { destruct (PaymentStatus_eqb (status (tx n)) PENDING) eqn:E; [|reflexivity].
      apply PaymentStatus_eqb_eq in E. contradiction. }
    rewrite Hb. reflexivity.
  - intros Hp Ht. rewrite Hp. cbn [PaymentStatus_eqb negb].
    replace (Qle_bool timeout_ (clock (S n) - clock O)) with true
      by (symmetry; apply Qle_bool_iff; exact Ht).
    reflexivity.
  - intros f k t ->. reflexivity.
Qed.

End Polling.

(* ------------------------------------------------------------------ *)
(** ** verify_payment *)

Section VerifyPayment.
Context {R : Runtime}.
Variable config : PaymentConfig.

(** C7: whenever the fetch returns or fails with an error,
    [verify_payment] returns a boolean; it is [true] exactly when the
    fetch returned a transaction whose status is [SUCCESS], and [false]
    whenever the fetch failed.  It performs the effects of the fetch and
    no other. *)
Theorem verify_payment_spec (http : transport) (transaction_id : string) :
  fetched_or_errs (fst (get_transaction config http transaction_id)) = true ->
  exists b : bool,
    fst (verify_payment config http transaction_id) = Ret b
    /\ (b = true <->
        exists t, fst (get_transaction config http transaction_id) = Ret t
                  /\ status t = SUCCESS)
    /\ (forall e, fst (get_transaction config http transaction_id) = Raise e -> b = false)
    /\ snd (verify_payment config http transaction_id)
       = snd (get_transaction config http transaction_id).
Proof.
  unfold verify_payment, fetched_or_errs.
  destruct (get_transaction config http transaction_id) as [[t|e] tr]; cbn [fst snd]; intros H.
  - exists (is_success t). repeat split.
    + intros Hs. exists t. split; [reflexivity|]. apply PaymentStatus_eqb_eq. exact Hs.
    + intros (t' & Ht' & Hs). injection Ht' as <-. apply PaymentStatus_eqb_eq. exact Hs.
    + intros e He. discriminate.
  - rewrite H. exists false. repeat split.
    + intros Hf. discriminate.
    + intros (t' & Ht' & _). discriminate.
Qed.

(** What falls through [except Exception]: a [BaseException] that is not
    an [Exception], such as the cancellation of the task. *)
Lemma verify_payment_base_exception (http : transport) (transaction_id : string) e :
  fst (get_transaction config http transaction_id) = Raise e ->
  is_Exception e = false ->
  fst (verify_payment config http transaction_id) = Raise e.
Proof.
  unfold verify_payment.
  destruct (get_transaction config http transaction_id) as [[t|e'] tr]; cbn [fst];
    intros H He; [discriminate|].
  injection H as ->. rewrite He. reflexivity.
Qed.

End VerifyPayment.

(* ------------------------------------------------------------------ *)
(** ** Webhook signatures *)

Section Signatures.
Import Hashlib.

Lemma hex_digit_is_ascii n : (nat_of_ascii (hex_digit n) <? 128)%nat = true.
Proof.
  unfold hex_digit. generalize (Z.to_nat n) as k. intros k.
  do 16 (destruct k as [|k]; [reflexivity|]).
  destruct k; reflexivity.
Qed.

Lemma hexdigest_is_ascii bs : is_ascii (hexdigest bs) = true.
Proof.
  unfold is_ascii. induction bs as [|b bs IH]; [reflexivity|].
  cbn [hexdigest list_ascii_of_string forallb].
  rewrite !hex_digit_is_ascii. exact IH.
Qed.

(** Two hexadecimal digits per byte: 64 characters for a SHA-256 digest. *)
Lemma hexdigest_length bs : String.length (hexdigest bs) = (2 * List.length bs)%nat.
Proof.
  induction bs as [|b bs IH]; [reflexivity|].
  cbn [hexdigest String.length List.length]. rewrite IH. lia.
Qed.

(** On an ASCII signature the result is the comparison with the
    hexadecimal HMAC-SHA-256 of the payload under the encoded secret. *)
Lemma verify_webhook_signature_ascii payload signature secret :
  is_ascii signature = true ->
  verify_webhook_signature payload signature secret
  = Ret (String.eqb signature (hexdigest (hmac_sha256 (str_encode secret) payload))).
Proof.
  intros Ha. unfold verify_webhook_signature, compare_digest.
  rewrite Ha, hexdigest_is_ascii. reflexivity.
Qed.

Lemma verify_webhook_signature_ascii_iff payload signature secret :
  is_ascii signature = true ->
  (verify_webhook_signature payload signature secret = Ret true
   <-> signature = hexdigest (hmac_sha256 (str_encode secret) payload))
  /\ (verify_webhook_signature payload signature secret = Ret false
      <-> signature <> hexdigest (hmac_sha256 (str_encode secret) payload)).
Proof.
  intros Ha. rewrite (verify_webhook_signature_ascii _ _ _ Ha).
  destruct (String.eqb_spec signature (hexdigest (hmac_sha256 (str_encode secret) payload)))
    as [E|E]; split; split; intros H; try reflexivity; try assumption;
    try discriminate; contradiction.
Qed.

(** On a signature with a character past code point 127 there is no
    result: [hmac.compare_digest] raises. *)
Lemma verify_webhook_signature_non_ascii payload signature secret :
  is_ascii signature = false ->
  verify_webhook_signature payload signature secret
  = Raise (PyError TypeError "comparing strings with non-ASCII characters is not supported").
Proof.
  intros Ha. unfold verify_webhook_signature, compare_digest.
  rewrite Ha. reflexivity.
Qed.

(** The digests of the model agree with [hashlib] and [hmac] on their
    usual test vectors. *)
Example sha256_abc :
  hexdigest (sha256 (bytes_of "abc"))
  = "ba7816bf8f01cfea414140de5dae2223b00361a396177a9cb410ff61f20015ad".
Proof. vm_compute. reflexivity. Qed.

Example sha256_two_blocks :
  hexdigest (sha256 (bytes_of "abcdbcdecdefdefgefghfghighijhijkijkljklmklmnlmnomnopnopq"))
  = "248d6a61d20638b8e5c026930c3e6039a33ce45964ff2167f6ecedd419db06c1".
Proof. vm_compute. reflexivity. Qed.

Example hmac_sha256_fox :
  hexdigest (hmac_sha256 (bytes_of "key")
                         (bytes_of "The quick brown fox jumps over the lazy dog"))
  = "f7bc83f430538424b13298e6aa6fb143ef4d59a14946175997479dbc2d1a3cd8".
Proof. vm_compute. reflexivity. Qed.

(** [test_verify_webhook_signature], with the payload [{'test': 'data'}]. *)
Example verify_webhook_signature_valid :
  verify_webhook_signature (bytes_of "{'test': 'data'}")
    "bd4b9fc06d04a0ced1c1699808454e2062d61c42df59b8f0c4b244335b46d85b" "webhook-secret"
  = Ret true.
Proof. vm_compute. reflexivity. Qed.

Example verify_webhook_signature_invalid :
  verify_webhook_signature (bytes_of "{'test': 'data'}") "invalid" "webhook-secret"
  = Ret false.
Proof. vm_compute. reflexivity. Qed.

(** C5, at a signature header that holds the one character U+00E9: the
    claim asks for [False], as for any signature that differs from the
    digest; [verify_webhook_signature] raises the [TypeError] of
    [hmac.compare_digest] and returns nothing. *)
Theorem verify_webhook_signature_non_ascii_raises :
  let signature := String "233"%char EmptyString in
  verify_webhook_signature (bytes_of "{'test': 'data'}") signature "webhook-secret"
  = Raise (PyError TypeError "comparing strings with non-ASCII characters is not supported")
  /\ signature
     <> hexdigest (hmac_sha256 (str_encode "webhook-secret") (bytes_of "{'test': 'data'}"))
  /\ verify_webhook_signature (bytes_of "{'test': 'data'}") signature "webhook-secret"
     <> Ret false.
Proof.
  cbv zeta. split; [|split].
  - apply verify_webhook_signature_non_ascii. reflexivity.
  - vm_compute. discriminate.
  - rewrite verify_webhook_signature_non_ascii by reflexivity. discriminate.
Qed.

End Signatures.

(* ------------------------------------------------------------------ *)
(** ** The handler registry and the dispatch of webhooks *)

Section Webhooks.
Context {R : Runtime}.

Lemma handler_calls_app tr1 tr2 :
  handler_calls (tr1 ++ tr2) = handler_calls tr1 ++ handler_calls tr2.
Proof.
  induction tr1 as [|ev tr1 IH]; [reflexivity|].
  destruct ev; simpl; rewrite IH; reflexivity.
Qed.

Lemma handler_calls_delivered event h : handler_calls (delivered event h) = [hid h].
Proof. unfold delivered. destruct (run h event); reflexivity. Qed.

Lemma handler_calls_deliveries event l :
  handler_calls (flat_map (delivered event) l) = map hid l.
Proof.
  induction l as [|h l IH]; [reflexivity|].
  cbn [flat_map map]. rewrite handler_calls_app, handler_calls_delivered, IH. reflexivity.
Qed.

(** One round of the loop at a handler whose failure, if any, is an
    error: the loop goes on, at the next position of the registry as the
    handler left it. *)
Lemma dispatch_round event fuel handlers i h :
  nth_error handlers i = Some h ->
  returns_or_errs (run h event) = true ->
  dispatch (S fuel) handlers i event
  = (fst (dispatch fuel (registry_after handlers (registry_calls h event)) (S i) event),
     delivered event h
     ++ snd (dispatch fuel (registry_after handlers (registry_calls h event)) (S i) event)).
Proof.
  intros Hnth Hok. cbn [dispatch]. rewrite Hnth.
  unfold invoke, delivered, returns_or_errs in *.
  destruct (dispatch fuel (registry_after handlers (registry_calls h event)) (S i) event)
    as [[r l] tr].
  destruct (run h event) as [|[u|e]|e]; try rewrite Hok; reflexivity.
Qed.

(** The rounds over a stretch [mid] of the registry whose handlers return
    or fail with errors, and leave the registry as it is: each of them
    is reached, in order, and the loop goes on behind the stretch. *)
Lemma dispatch_stretch event handlers :
  forall mid done rest fuel,
    handlers = done ++ mid ++ rest ->
    (forall h, In h mid -> returns_or_errs (run h event) = true) ->
    (forall h, In h mid -> registry_after handlers (registry_calls h event) = handlers) ->
    dispatch (List.length mid + fuel) handlers (List.length done) event
    = (fst (dispatch fuel handlers (List.length done + List.length mid) event),
       flat_map (delivered event) mid
       ++ snd (dispatch fuel handlers (List.length done + List.length mid) event)).
Proof.
  induction mid as [|h mid IH]; intros done rest fuel Heq Hok Hsame.
  - cbn [List.length flat_map app Nat.add]. rewrite Nat.add_0_r.
    destruct (dispatch fuel handlers (List.length done) event). reflexivity.
  - cbn [List.length Nat.add].
    rewrite (dispatch_round event _ handlers (List.length done) h).
    + rewrite (Hsame h) by (left; reflexivity).
      replace (S (List.length done)) with (List.length (done ++ [h]))
        by (rewrite length_app; cbn; lia).
      rewrite (IH (done ++ [h]) rest fuel).
      * replace (List.length (done ++ [h]) + List.length mid)%nat
          with (List.length done + S (List.length mid))%nat
          by (rewrite length_app; cbn; lia).
        cbn [fst snd flat_map]. rewrite <- app_assoc. reflexivity.
      * rewrite Heq, <- app_assoc. reflexivity.
      * intros x Hin. apply Hok. right. exact Hin.
      * intros x Hin. apply Hsame. right. exact Hin.
    + rewrite Heq, nth_error_app2 by lia. rewrite Nat.sub_diag. reflexivity.
    + apply Hok. left. reflexivity.
Qed.

(** C6 as stated fails when a handler changes the registry: the loop
    walks the live list, so that a handler that unregisters itself moves
    the handler registered after it to the position the loop has just
    left.  With a one-shot handler registered before
    [on_payment_success], the delivery returns and has called the
    one-shot handler alone. *)
Lemma handle_webhook_skips_after_unregister :
  let handlers := [Fixture.one_shot_handler; Fixture.on_payment_success] in
  let handle_webhook := @handle_webhook Fixture.runtime in
  @WebhookEvent_model_validate Fixture.runtime Fixture.webhook_payload
  = Ret Fixture.webhook_event
  /\ (forall h, In h handlers -> returns_or_errs (run h Fixture.webhook_event) = true)
  /\ handle_webhook 3%nat handlers Fixture.webhook_payload
     = (Some (Ret tt), [Fixture.on_payment_success], [EvHandler 5])
  /\ handler_calls (snd (handle_webhook 3%nat handlers Fixture.webhook_payload))
     <> map hid handlers.
Proof.
  cbv zeta. split; [reflexivity|]. split; [|split].
  - intros h [<-|[<-|[]]]; reflexivity.
  - reflexivity.
  - discriminate.
Qed.

(** The other way round, a handler registered during a delivery is at
    the end of the live list, and the same delivery reaches it. *)
Lemma dispatch_reaches_new_handler :
  dispatch 3 [Fixture.registering_handler] O Fixture.webhook_event
  = (Some (Ret tt), [Fixture.registering_handler; Fixture.on_payment_success],
     [EvHandler 6; EvHandler 1]).
Proof. reflexivity. Qed.

(** C6, amended: for a payload that validates as a [WebhookEvent] and
    handlers that return or fail with errors and leave the registry as
    it is, [handle_webhook] returns normally and has called every
    registered handler once, in registration order, whichever of them
    failed, awaiting what a handler returned whenever that is a
    coroutine; the registry is what it was. *)
Theorem handle_webhook_calls_every_handler fuel handlers payload event :
  WebhookEvent_model_validate payload = Ret event ->
  (forall h, In h handlers -> returns_or_errs (run h event) = true) ->
  (forall h, In h handlers ->
     registry_after handlers (registry_calls h event) = handlers) ->
  (List.length handlers < fuel)%nat ->
  handle_webhook fuel handlers payload
  = (Some (Ret tt), handlers, flat_map (delivered event) handlers)
  /\ handler_calls (snd (handle_webhook fuel handlers payload)) = map hid handlers.
Proof.
  intros Hv Hok Hsame Hfuel.
  assert (Hrun : handle_webhook fuel handlers payload
                 = (Some (Ret tt), handlers, flat_map (delivered event) handlers)).
  { unfold handle_webhook. rewrite Hv.
    replace fuel with (List.length handlers + S (fuel - S (List.length handlers)))%nat by lia.
    rewrite (dispatch_stretch event handlers handlers [] []);
      [| rewrite app_nil_r; reflexivity | exact Hok | exact Hsame].
    cbn [List.length Nat.add dispatch].
    replace (nth_error handlers (List.length handlers)) with (@None handler)
      by (symmetry; apply nth_error_None; lia).
    cbn [fst snd]. rewrite app_nil_r. reflexivity. }
  split; [exact Hrun|]. rewrite Hrun. cbn [snd]. apply handler_calls_deliveries.
Qed.

(** A payload without one of the four required fields does not
    validate. *)
Lemma WebhookEvent_missing_field d :
  field d "eventType" "event_type" = None
  \/ field d "data" "data" = None
  \/ field d "timestamp" "timestamp" = None
  \/ field d "signature" "signature" = None ->
  WebhookEvent_model_validate (PyDict d) = Raise webhook_invalid.
Proof.
  intros Hmiss. unfold WebhookEvent_model_validate, parse_WebhookEvent.
  repeat match goal with
         | |- context [opt_bind (required ?dd ?a ?n ?v) _] =>
             let E := fresh "E" in
             destruct (required dd a n v) eqn:E; cbn [opt_bind]
         end; try reflexivity.
  exfalso. unfold required in *.
  destruct Hmiss as [H|[H|[H|H]]]; rewrite H in *; discriminate.
Qed.

(** C10: when the payload does not validate as a [WebhookEvent],
    [handle_webhook] raises the validation error and calls no handler:
    it performs no effect at all. *)
Theorem handle_webhook_invalid_payload fuel handlers payload e :
  WebhookEvent_model_validate payload = Raise e ->
  handle_webhook fuel handlers payload = (Some (Raise e), handlers, [])
  /\ handler_calls (snd (handle_webhook fuel handlers payload)) = [].
Proof.
  intros Hv. unfold handle_webhook. rewrite Hv. split; reflexivity.
Qed.

(** The validation error is pydantic's, and an error that
    [except Exception] would catch; it is raised before the [try]. *)
Lemma WebhookEvent_model_validate_error payload e :
  WebhookEvent_model_validate payload = Raise e ->
  e = webhook_invalid /\ is_Exception e = true.
Proof.
  unfold WebhookEvent_model_validate.
  destruct (parse_WebhookEvent payload); intros H; [discriminate|].
  injection H as <-. split; reflexivity.
Qed.

End Webhooks.

Section Registry.

Lemma list_remove_absent handlers h :
  (forall x, In x handlers -> hid x <> hid h) ->
  list_remove handlers h = None.
Proof.
  induction handlers as [|y rest IH]; intros Hall; [reflexivity|].
  cbn [list_remove].
  destruct (Nat.eqb_spec (hid y) (hid h)) as [E|E].
  - exfalso. apply (Hall y); [left; reflexivity | exact E].
  - rewrite IH; [reflexivity|]. intros x Hin. apply Hall. right. exact Hin.
Qed.

Lemma list_remove_first before x after h :
  hid x = hid h ->
  (forall y, In y before -> hid y <> hid h) ->
  list_remove (before ++ x :: after) h = Some (before ++ after).
Proof.
  intros Hx. induction before as [|y before IH]; intros Hall; cbn [app list_remove].
  - rewrite Hx, Nat.eqb_refl. reflexivity.
  - destruct (Nat.eqb_spec (hid y) (hid h)) as [E|E].
    + exfalso. apply (Hall y); [left; reflexivity | exact E].
    + rewrite IH; [reflexivity|]. intros z Hin. apply Hall. right. exact Hin.
Qed.

(** C9 as stated fails on the empty registry: adding a handler twice
    registers it twice, and removing an absent handler raises. *)
Lemma registry_operations_not_idempotent :
  let h := Fixture.on_payment_success in
  add_event_handler (add_event_handler [] h) h <> add_event_handler [] h
  /\ remove_event_handler [] h <> Ret [].
Proof.
  split; discriminate.
Qed.

(** C9, amended: [add_event_handler] appends, so that adding [h] twice
    leaves two entries for [h] at the end of the registry;
    [remove_event_handler] raises [ValueError] when [h] is not
    registered, and otherwise takes out the first entry for [h] and
    keeps the others in order. *)
Theorem registry_operations_spec handlers h :
  add_event_handler (add_event_handler handlers h) h = handlers ++ [h; h]
  /\ List.length (add_event_handler (add_event_handler handlers h) h)
     = S (List.length (add_event_handler handlers h))
  /\ ((forall x, In x handlers -> hid x <> hid h) ->
      remove_event_handler handlers h
      = Raise (PyError ValueError "list.remove(x): x not in list"))
  /\ (forall before x after,
        handlers = before ++ x :: after ->
        hid x = hid h ->
        (forall y, In y before -> hid y <> hid h) ->
        remove_event_handler handlers h = Ret (before ++ after)).
Proof.
  unfold add_event_handler, remove_event_handler. repeat split.
  - rewrite <- app_assoc. reflexivity.
  - rewrite !length_app. simpl. lia.
  - intros Habs. rewrite list_remove_absent by exact Habs. reflexivity.
  - intros before x after -> Hx Hb. rewrite list_remove_first by assumption. reflexivity.
Qed.

End Registry.

(* ------------------------------------------------------------------ *)
(** ** float(Decimal) and the payload of a payment request *)

Section FloatFacts.
Import Float.

Lemma two_pow_pos e : 0 < 2 ^ Z.max e 0.
Proof. apply Z.pow_pos_nonneg; lia. Qed.

(** Both sides of a comparison with [2^e] can be scaled by the same
    power of two. *)
Lemma pow2_split e K : 0 <= K -> 0 <= K + e ->
  2 ^ (K + e) * 2 ^ Z.max (- e) 0 = 2 ^ K * 2 ^ Z.max e 0.
Proof.
  intros HK HKe. rewrite <- !Z.pow_add_r by lia. f_equal. lia.
Qed.

Lemma pow2_le_shift e n d K : 0 <= K -> 0 <= K + e ->
  pow2_le e n d <-> d * 2 ^ (K + e) <= n * 2 ^ K.
Proof.
  intros HK HKe. unfold pow2_le.
  pose proof (pow2_split e K HK HKe) as Hs.
  pose proof (two_pow_pos e) as H1. pose proof (two_pow_pos (- e)) as H2.
  assert (H3 : 0 < 2 ^ K) by (apply Z.pow_pos_nonneg; lia).
  assert (H4 : 0 < 2 ^ (K + e)) by (apply Z.pow_pos_nonneg; lia).
  split; intros H.
  - apply (Z.mul_le_mono_pos_r _ _ (2 ^ Z.max (- e) 0)); [assumption|].
    replace (d * 2 ^ (K + e) * 2 ^ Z.max (- e) 0) with (d * 2 ^ Z.max e 0 * 2 ^ K) by (rewrite <- !Z.mul_assoc, Hs; ring).
    replace (n * 2 ^ K * 2 ^ Z.max (- e) 0) with (n * 2 ^ Z.max (- e) 0 * 2 ^ K) by ring.
    apply Z.mul_le_mono_pos_r; assumption.
  - apply (Z.mul_le_mono_pos_r _ _ (2 ^ K)); [assumption|].
    replace (d * 2 ^ Z.max e 0 * 2 ^ K) with (d * 2 ^ (K + e) * 2 ^ Z.max (- e) 0) by (rewrite <- !Z.mul_assoc, Hs; ring).
    replace (n * 2 ^ Z.max (- e) 0 * 2 ^ K) with (n * 2 ^ K * 2 ^ Z.max (- e) 0) by ring.
    apply Z.mul_le_mono_pos_r; assumption.
Qed.

Lemma pow2_gt_not_le e n d : pow2_gt e n d <-> ~ pow2_le e n d.
Proof. unfold pow2_gt, pow2_le. lia. Qed.

Lemma pow2_le_mono e e' n d : 0 < d -> e' <= e -> pow2_le e n d -> pow2_le e' n d.
Proof.
  intros Hd Hee H.
  set (K := Z.abs e + Z.abs e').
  apply (pow2_le_shift e n d K) in H; try (unfold K; lia).
  apply (pow2_le_shift e' n d K); try (unfold K; lia).
  eapply Z.le_trans; [|exact H].
  apply Z.mul_le_mono_nonneg_l; [lia|].
  apply Z.pow_le_mono_r; unfold K; lia.
Qed.

Lemma pow2_order e e' n d : 0 < d -> pow2_le e n d -> pow2_gt e' n d -> e < e'.
Proof.
  intros Hd Hle Hgt. destruct (Z_lt_le_dec e e') as [|Hge]; [assumption|].
  exfalso. apply pow2_gt_not_le in Hgt. apply Hgt.
  exact (pow2_le_mono e e' n d Hd Hge Hle).
Qed.

Lemma ilog2_test n d k :
  (if 0 <=? k then d * 2 ^ k <=? n else d <=? n * 2 ^ (- k)) = true <-> pow2_le k n d.
Proof.
  unfold pow2_le. destruct (Z.leb_spec 0 k) as [Hk|Hk].
  - rewrite Z.max_l, Z.max_r by lia. rewrite Z.pow_0_r, Z.mul_1_r. apply Z.leb_le.
  - rewrite Z.max_r, Z.max_l by lia. rewrite Z.pow_0_r, Z.mul_1_r. apply Z.leb_le.
Qed.

Lemma ilog2_bounds n d : 0 < n -> 0 < d ->
  pow2_le (ilog2 n d) n d /\ pow2_gt (ilog2 n d + 1) n d.
Proof.
  intros Hn Hd. unfold ilog2.
  pose proof (Z.log2_spec n Hn) as [Ha1 Ha2].
  pose proof (Z.log2_spec d Hd) as [Hb1 Hb2].
  pose proof (Z.log2_nonneg n) as Ha0. pose proof (Z.log2_nonneg d) as Hb0.
  set (a := Z.log2 n) in *. set (b := Z.log2 d) in *.
  rewrite Z.pow_succ_r in Ha2, Hb2 by assumption.
  assert (HA : 0 < 2 ^ a) by (apply Z.pow_pos_nonneg; lia).
  assert (HB : 0 < 2 ^ b) by (apply Z.pow_pos_nonneg; lia).
  assert (Hup : pow2_gt (a - b + 1) n d).
  { apply pow2_gt_not_le. intros H.
    apply (pow2_le_shift _ n d (b + 1)) in H; try lia.
    replace (b + 1 + (a - b + 1)) with (Z.succ (Z.succ a)) in H by lia.
    replace (b + 1) with (Z.succ b) in H by lia.
    rewrite !Z.pow_succ_r in H by lia. nia. }
  assert (Hlow : pow2_le (a - b - 1) n d).
  { apply (pow2_le_shift _ n d (b + 1)); try lia.
    replace (b + 1 + (a - b - 1)) with a by lia.
    replace (b + 1) with (Z.succ b) by lia.
    rewrite Z.pow_succ_r by lia. nia. }
  destruct (if 0 <=? a - b then d * 2 ^ (a - b) <=? n else d <=? n * 2 ^ (- (a - b))) eqn:E.
  - split; [apply ilog2_test; exact E | exact Hup].
  - split; [exact Hlow|].
    replace (a - b - 1 + 1) with (a - b) by lia.
    apply pow2_gt_not_le. intros H. apply ilog2_test in H. congruence.
Qed.

Lemma ilog2_unique n d e : 0 < n -> 0 < d ->
  pow2_le e n d -> pow2_gt (e + 1) n d -> ilog2 n d = e.
Proof.
  intros Hn Hd Hle Hgt. destruct (ilog2_bounds n d Hn Hd) as [Hle' Hgt'].
  pose proof (pow2_order _ _ n d Hd Hle Hgt').
  pose proof (pow2_order _ _ n d Hd Hle' Hgt). lia.
Qed.

Lemma scaled_eq_shift n d m s K : 0 <= K -> 0 <= K + s ->
  scaled_eq n d m s <-> n * 2 ^ K = d * m * 2 ^ (K + s).
Proof.
  intros HK HKs. unfold scaled_eq.
  pose proof (pow2_split s K HK HKs) as Hs.
  pose proof (two_pow_pos s) as H1. pose proof (two_pow_pos (- s)) as H2.
  assert (H3 : 0 < 2 ^ K) by (apply Z.pow_pos_nonneg; lia).
  split; intros H.
  - apply (Z.mul_cancel_r _ _ (2 ^ Z.max (- s) 0)); [lia|].
    replace (d * m * 2 ^ (K + s) * 2 ^ Z.max (- s) 0) with (d * m * 2 ^ Z.max s 0 * 2 ^ K)
      by (rewrite <- !Z.mul_assoc, Hs; ring).
    rewrite <- H. ring.
  - apply (Z.mul_cancel_r _ _ (2 ^ K)); [lia|].
    replace (d * m * 2 ^ Z.max s 0 * 2 ^ K) with (d * m * 2 ^ (K + s) * 2 ^ Z.max (- s) 0)
      by (rewrite <- !Z.mul_assoc, Hs; ring).
    rewrite <- H. ring.
Qed.

(** The exponent of [m * 2^s]. *)
Lemma ilog2_scaled n d m s : 0 < n -> 0 < d -> 0 < m ->
  scaled_eq n d m s -> ilog2 n d = Z.log2 m + s.
Proof.
  intros Hn Hd Hm Heq.
  pose proof (Z.log2_spec m Hm) as [Hl1 Hl2]. pose proof (Z.log2_nonneg m) as Hl0.
  set (L := Z.log2 m) in *. rewrite Z.pow_succ_r in Hl2 by assumption.
  set (K := Z.abs s).
  apply (scaled_eq_shift n d m s K) in Heq; try (unfold K; lia).
  assert (HKs : 0 < 2 ^ (K + s)) by (apply Z.pow_pos_nonneg; unfold K; lia).
  assert (HL : 0 < 2 ^ L) by (apply Z.pow_pos_nonneg; lia).
  apply ilog2_unique; try assumption.
  - apply (pow2_le_shift _ n d K); try (unfold K; lia).
    rewrite Heq. replace (K + (L + s)) with (L + (K + s)) by lia.
    rewrite Z.pow_add_r by (unfold K; lia). nia.
  - apply pow2_gt_not_le. intros H.
    apply (pow2_le_shift _ n d K) in H; try (unfold K; lia).
    rewrite Heq in H. replace (K + (L + s + 1)) with (Z.succ L + (K + s)) in H by lia.
    rewrite Z.pow_add_r, Z.pow_succ_r in H by (unfold K; lia). nia.
Qed.

Lemma div_half_even_exact q d : 0 < d -> div_half_even (q * d) d = q.
Proof.
  intros Hd. unfold div_half_even.
  rewrite Z.div_mul, Z.mod_mul by lia.
  replace (2 * 0 <? d) with true by (symmetry; apply Z.ltb_lt; lia). reflexivity.
Qed.

Lemma ldexp_scale m s t : 0 <= t -> Qeq (ldexp (m * 2 ^ t) (s - t)) (ldexp m s).
Proof.
  intros Ht. unfold ldexp.
  destruct (Z.leb_spec 0 (s - t)) as [H1|H1]; destruct (Z.leb_spec 0 s) as [H2|H2]; try lia.
  - rewrite <- Z.mul_assoc, <- Z.pow_add_r by lia.
    replace (t + (s - t)) with s by lia. reflexivity.
  - unfold Qeq. cbn [Qnum Qden inject_Z].
    rewrite Z2Pos.id by (apply Z.pow_pos_nonneg; lia).
    rewrite <- !Z.mul_assoc, <- Z.pow_add_r by lia.
    replace (s + - (s - t)) with t by lia. ring.
  - unfold Qeq. cbn [Qnum Qden].
    rewrite !Z2Pos.id by (apply Z.pow_pos_nonneg; lia).
    rewrite <- !Z.mul_assoc, <- Z.pow_add_r by lia.
    replace (t + - s) with (- (s - t)) by lia. reflexivity.
Qed.

Lemma pow2_gt_shift e n d K : 0 <= K -> 0 <= K + e ->
  pow2_gt e n d <-> n * 2 ^ K < d * 2 ^ (K + e).
Proof.
  intros HK HKe. rewrite pow2_gt_not_le, (pow2_le_shift e n d K HK HKe). lia.
Qed.

Lemma pow2_gt_mono e e' n d : 0 < d -> e <= e' -> pow2_gt e n d -> pow2_gt e' n d.
Proof.
  intros Hd Hee H. apply pow2_gt_not_le. intros Hle.
  apply pow2_gt_not_le in H. apply H.
  exact (pow2_le_mono e' e n d Hd Hee Hle).
Qed.

Lemma div_half_even_bounds N D B : 0 <= N -> 0 < D -> N < D * B ->
  0 <= div_half_even N D <= B.
Proof.
  intros HN HD HB. unfold div_half_even.
  assert (H0 : 0 <= N / D) by (apply Z.div_pos; lia).
  assert (H1 : N / D < B) by (apply Z.div_lt_upper_bound; lia).
  destruct (2 * (N mod D) <? D); [lia|].
  destruct (D <? 2 * (N mod D)); [lia|].
  destruct (Z.even (N / D)); lia.
Qed.

(** A decimal that a double holds exactly is converted without error. *)
Lemma round_pos_exact n d m s :
  0 < n -> 0 < d -> 0 < m < 2 ^ 53 -> -1074 <= s <= 971 ->
  scaled_eq n d m s ->
  exists x, round_pos n d = Finite x /\ Qeq x (ldexp m s).
Proof.
  intros Hn Hd Hm Hs Heq. unfold round_pos.
  rewrite (ilog2_scaled n d m s) by (try assumption; lia).
  assert (HL : 0 <= Z.log2 m < 53).
  { split; [apply Z.log2_nonneg|]. apply Z.log2_lt_pow2; lia. }
  set (L := Z.log2 m) in *.
  set (e := Z.max (L + s) (-1022)).
  set (t := s - (e - 52)).
  assert (Ht : 0 <= t) by (unfold t, e; lia).
  assert (Hround : scaled_round n d (e - 52) = m * 2 ^ t).
  { unfold scaled_round. destruct (Z.leb_spec 0 (e - 52)) as [Hs'|Hs'].
    - unfold scaled_eq in Heq. rewrite Z.max_r, Z.max_l in Heq by lia.
      rewrite Z.pow_0_r, Z.mul_1_r in Heq.
      replace n with (m * 2 ^ t * (d * 2 ^ (e - 52))).
      + apply div_half_even_exact. apply Z.mul_pos_pos; [lia|]. apply Z.pow_pos_nonneg; lia.
      + assert (Hp : 2 ^ s = 2 ^ t * 2 ^ (e - 52)).
        { rewrite <- Z.pow_add_r by lia. f_equal. unfold t. lia. }
        rewrite Heq, Hp. ring.
    - apply (scaled_eq_shift n d m s (- (e - 52))) in Heq; try lia.
      replace (- (e - 52) + s) with t in Heq by (unfold t; lia).
      rewrite Heq. replace (d * m * 2 ^ t) with (m * 2 ^ t * d) by ring.
      apply div_half_even_exact. assumption. }
  rewrite Hround.
  replace (1024 <=? e) with false by (symmetry; apply Z.leb_gt; unfold e; lia).
  assert (Hno : (e =? 1023) && (m * 2 ^ t =? 2 ^ 53) = false).
  { destruct (Z.eqb_spec e 1023) as [He|He]; [|reflexivity].
    assert (t = 0) by (unfold t; unfold e in He; lia).
    subst t. replace (s - (e - 52)) with 0 by lia.
    rewrite Z.pow_0_r, Z.mul_1_r. cbn [andb]. apply Z.eqb_neq. lia. }
  rewrite Hno. cbn [orb].
  exists (ldexp (m * 2 ^ t) (e - 52)). split; [reflexivity|].
  replace (e - 52) with (s - t) by (unfold t; lia).
  apply ldexp_scale. assumption.
Qed.

(** Whatever the conversion returns that is finite, a double holds. *)
Lemma round_pos_representable n d x :
  0 < n -> 0 < d -> round_pos n d = Finite x -> representable x.
Proof.
  intros Hn Hd. unfold round_pos.
  destruct (ilog2_bounds n d Hn Hd) as [_ Hgt].
  set (e := Z.max (ilog2 n d) (-1022)).
  assert (Hgt' : pow2_gt (e - 52 + 53) n d).
  { apply (pow2_gt_mono (ilog2 n d + 1)); [assumption | unfold e; lia | assumption]. }
  assert (HM : 0 <= scaled_round n d (e - 52) <= 2 ^ 53).
  { unfold scaled_round. destruct (Z.leb_spec 0 (e - 52)) as [Hs'|Hs'].
    - apply div_half_even_bounds; [lia | apply Z.mul_pos_pos; [lia|apply Z.pow_pos_nonneg; lia] |].
      apply (pow2_gt_shift _ n d 0) in Hgt'; try lia.
      rewrite Z.pow_0_r, Z.mul_1_r, Z.add_0_l, Z.pow_add_r in Hgt' by lia. lia.
    - apply div_half_even_bounds; [apply Z.mul_nonneg_nonneg; [lia|apply Z.pow_nonneg; lia] | lia |].
      apply (pow2_gt_shift _ n d (- (e - 52))) in Hgt'; try lia.
      replace (- (e - 52) + (e - 52 + 53)) with 53 in Hgt' by lia. exact Hgt'. }
  set (M := scaled_round n d (e - 52)) in *.
  destruct (Z.leb_spec 1024 e) as [He|He]; cbn [orb]; [discriminate|].
  destruct (Z.eqb_spec e 1023) as [He'|He']; cbn [andb].
  - destruct (Z.eqb_spec M (2 ^ 53)) as [HM'|HM']; [discriminate|].
    intros H. injection H as <-. exists M, (e - 52).
    split; [lia|]. split; [unfold e; lia | reflexivity].
  - intros H. injection H as <-.
    destruct (Z.eq_dec M (2 ^ 53)) as [HM'|HM'].
    + exists (2 ^ 52), (e - 52 + 1). split; [lia|]. split; [unfold e in *; lia|].
      rewrite HM'. change (2 ^ 53) with (2 ^ 52 * 2 ^ 1).
      replace (e - 52) with (e - 52 + 1 - 1) at 1 by lia.
      apply ldexp_scale. lia.
    + exists M, (e - 52). split; [lia|]. split; [unfold e; lia | reflexivity].
Qed.

Lemma Qeq_ldexp_scaled N D m s : Qeq (N # D) (ldexp m s) <-> scaled_eq N (Zpos D) m s.
Proof.
  unfold ldexp, scaled_eq, Qeq. destruct (Z.leb_spec 0 s) as [Hs|Hs]; cbn [Qnum Qden inject_Z].
  - rewrite Z.max_r, Z.max_l by lia. rewrite Z.pow_0_r. split; intros H; lia.
  - rewrite Z.max_l, Z.max_r by lia. rewrite Z.pow_0_r.
    rewrite Z2Pos.id by (apply Z.pow_pos_nonneg; lia). split; intros H; lia.
Qed.

Lemma representable_Qeq x y : Qeq x y -> representable x -> representable y.
Proof.
  intros Hxy (m & s & Hm & Hs & Hx). exists m, s. split; [assumption|]. split; [assumption|].
  rewrite <- Hxy. exact Hx.
Qed.

(** [float(a)] for a positive [Decimal]: the conversion is exact when
    the value of [a] is one that a double holds, and only then. *)
Lemma float_of_Decimal_exact_iff a :
  Decimal_gt0 a = true ->
  (exists x, float_of_Decimal a = Finite x /\ Qeq x (Decimal_value a))
  <-> representable (Decimal_value a).
Proof.
  unfold Decimal_gt0, float_of_Decimal, Decimal_value. intros Hpos.
  apply andb_true_iff in Hpos. destruct Hpos as [Hsign Hc].
  apply negb_true_iff in Hsign. apply Z.ltb_lt in Hc. rewrite Hsign.
  replace (dec_coefficient a <=? 0) with false by (symmetry; apply Z.leb_gt; lia).
  set (c := dec_coefficient a) in *. set (ex := dec_exponent a).
  assert (Hnd : exists N D,
             (if 0 <=? ex then round_pos (c * 10 ^ ex) 1 else round_pos c (10 ^ (- ex)))
             = round_pos N (Zpos D)
             /\ (if 0 <=? ex then inject_Z (c * 10 ^ ex) else c # Z.to_pos (10 ^ (- ex)))
                = N # D
             /\ 0 < N).
  { destruct (Z.leb_spec 0 ex) as [Hex|Hex].
    - exists (c * 10 ^ ex), 1%positive. repeat split.
      apply Z.mul_pos_pos; [lia | apply Z.pow_pos_nonneg; lia].
    - exists c, (Z.to_pos (10 ^ (- ex))). rewrite Z2Pos.id by (apply Z.pow_pos_nonneg; lia).
      repeat split. lia. }
  destruct Hnd as (N & D & -> & -> & HN).
  split.
  - intros (x & Hx & Heq). apply (representable_Qeq x); [exact Heq|].
    apply (round_pos_representable N (Zpos D)); [lia | lia | exact Hx].
  - intros (m & s & Hm & Hs & Heq).
    apply Qeq_ldexp_scaled in Heq.
    assert (Hm0 : 0 < m).
    { unfold scaled_eq in Heq. pose proof (two_pow_pos s). pose proof (two_pow_pos (- s)).
      destruct (Z.eq_dec m 0) as [->|]; [|lia]. nia. }
    destruct (round_pos_exact N (Zpos D) m s) as (x & Hx & Hxe); try lia; try assumption.
    exists x. split; [exact Hx|].
    rewrite Hxe. symmetry. apply Qeq_ldexp_scaled. exact Heq.
Qed.
End FloatFacts.

Section Serialization.

Lemma PaymentRequest_new_inv a cur phone ref desc cb meta prov req :
  PaymentRequest_new a cur phone ref desc cb meta prov = Ret req ->
  Float.Decimal_gt0 a = true /\ amount req = a /\ currency req = str_upper cur.
Proof.
  unfold PaymentRequest_new, validate_currency.
  destruct (Float.Decimal_gt0 a); cbn [negb]; [|discriminate].
  destruct (negb (len cur =? 3)); [discriminate|].
  destruct (len ref <? 1); [discriminate|].
  destruct (validate_phone_number phone); [|discriminate].
  intros H. injection H as <-. repeat split.
Qed.

(** C8 as stated fails at the amount [Decimal("0.1")]: the request is
    valid, and the [amount] of its payload is the double
    [0x1.999999999999ap-4], which is not one tenth. *)
Lemma payload_amount_one_tenth_inexact :
  exists req,
    PaymentRequest_new Fixture.amount_0_1 "kes" "254712345678" "REF-001" None None None None
    = Ret req
    /\ dict_get (to_api_payload req) "amount"
       = Some (PyFloat (Finite (7205759403792794 # 72057594037927936)))
    /\ ~ Qeq (7205759403792794 # 72057594037927936) (Float.Decimal_value Fixture.amount_0_1).
Proof.
  eexists. split; [reflexivity|]. split; [vm_compute; reflexivity|].
  vm_compute. discriminate.
Qed.

(** C8, amended: for a valid request the [amount] of the payload is
    [float(a)], the value of [a] rounded to binary64, and it equals [a]
    exactly when a binary64 number can hold [a]; the [currency] of the
    payload is the upper-cased input. *)
Theorem to_api_payload_amount_currency a cur phone ref desc cb meta prov req :
  PaymentRequest_new a cur phone ref desc cb meta prov = Ret req ->
  dict_get (to_api_payload req) "amount" = Some (PyFloat (Float.float_of_Decimal a))
  /\ ((exists x, Float.float_of_Decimal a = Finite x /\ Qeq x (Float.Decimal_value a))
      <-> Float.representable (Float.Decimal_value a))
  /\ dict_get (to_api_payload req) "currency" = Some (PyStr (str_upper cur)).
Proof.
  intros Hnew. destruct (PaymentRequest_new_inv _ _ _ _ _ _ _ _ _ Hnew) as (Hpos & Ha & Hc).
  split; [|split].
  - unfold to_api_payload. rewrite Ha. reflexivity.
  - apply float_of_Decimal_exact_iff. exact Hpos.
  - unfold to_api_payload. rewrite <- Hc. reflexivity.
Qed.

End Serialization.

(* ------------------------------------------------------------------ *)
(** ** The theorems at work on the fixtures *)

Section Witnesses.
Import Fixture.

(** Three retries, every attempt timing out: four attempts, sleeps of 1, 2
    and 4 seconds, then the [TimeoutError]; and with no attempt at all,
    the generic error. *)
Lemma request_timeouts_exhaust_retries_witness :
  fst (_request config timing_out "GET" "/health" None None)
  = Raise (SdkError TimeoutError (PyStr "Request timed out after 30.0s")
             (PyStr "TIMEOUT") (PyDict []))
  /\ request_count (snd (_request config timing_out "GET" "/health" None None)) = 4%nat
  /\ sleeps (snd (_request config timing_out "GET" "/health" None None))
     = [inject_Z 1; inject_Z 2; inject_Z 4]
  /\ _request config_no_attempt timing_out "GET" "/health" None None
     = (Raise (SdkError AfricaPaymentsError (PyStr "Request failed after retries")
                 PyNone (PyDict [])), []).
Proof.
  destruct (request_timeouts_exhaust_retries config timing_out "GET" "/health" None None)
    as [H _].
  destruct (H ltac:(simpl; lia) (fun j _ => ex_intro _ "timed out" eq_refl))
    as (H1 & _ & H3 & H4).
  split; [exact H1|]. split; [exact H3|]. split; [exact H4|].
  apply (proj2 (request_timeouts_exhaust_retries config_no_attempt timing_out
                  "GET" "/health" None None)).
  reflexivity.
Defined.

(** A transaction that settles at the third fetch, and one that is still
    pending twelve seconds after the start, with a bound of twelve
    seconds. *)
Lemma poll_transaction_status_spec_witness :
  fst (poll_transaction_status config 10 (settling_server 2) clock "tx-123" (5 # 1) (300 # 1)
         (Some on_progress))
  = Some (Ret (transaction "tx-123" SUCCESS))
  /\ sleeps (snd (poll_transaction_status config 10 (settling_server 2) clock "tx-123"
                    (5 # 1) (300 # 1) (Some on_progress)))
     = [5 # 1; 5 # 1]
  /\ fst (poll_transaction_status config 10 pending_server clock "tx-123" (5 # 1) (12 # 1) None)
     = Some (Raise (SdkError TimeoutError (PyStr "Polling timed out after 12.0s")
                      (PyStr "TIMEOUT") (PyDict []))).
Proof.
  assert (Hsettle :
    forall k, (k <= 2)%nat ->
      fst (get_transaction config (settling_server 2 k) "tx-123") = Ret (settles_after 2 k)
      /\ fst (run_callback (Some on_progress) k (settles_after 2 k)) = Ret tt).
  { intros k Hk. destruct k as [|[|[|k]]]; [split; reflexivity ..|lia]. }
  assert (Hpending :
    forall k, (k < 2)%nat ->
      status (settles_after 2 k) = PENDING /\ (clock (S k) - clock O < 300 # 1)%Q).
  { intros k Hk. destruct k as [|[|k]]; [split; reflexivity ..|lia]. }
  destruct (poll_transaction_status_spec config (settling_server 2) clock "tx-123"
              (5 # 1) (300 # 1) (Some on_progress) (settles_after 2) 2 10
              ltac:(lia) Hsettle Hpending) as (Hret & _ & _).
  specialize (Hret ltac:(discriminate)).
  assert (Hstuck :
    forall k, (k <= 1)%nat ->
      fst (get_transaction config (pending_server k) "tx-123") = Ret (transaction "tx-123" PENDING)
      /\ fst (run_callback None k (transaction "tx-123" PENDING)) = Ret tt).
  { intros k Hk. split; reflexivity. }
  assert (Hearly :
    forall k, (k < 1)%nat ->
      status (transaction "tx-123" PENDING) = PENDING /\ (clock (S k) - clock O < 12 # 1)%Q).
  { intros k Hk. destruct k as [|k]; [split; reflexivity|lia]. }
  destruct (poll_transaction_status_spec config pending_server clock "tx-123"
              (5 # 1) (12 # 1) None (fun _ => transaction "tx-123" PENDING) 1 10
              ltac:(lia) Hstuck Hearly) as (_ & Hout & _).
  specialize (Hout eq_refl ltac:(discriminate)).
  split; [rewrite Hret; reflexivity|].
  split; [rewrite Hret; reflexivity|].
  rewrite Hout. reflexivity.
Defined.

(** A fetch that finds a successful transaction. *)
Lemma verify_payment_spec_witness :
  fetched_or_errs
    (fst (get_transaction config (always 200 (transaction_body "tx-123" "success")) "tx-123"))
  = true
  /\ exists b : bool,
       fst (verify_payment config (always 200 (transaction_body "tx-123" "success")) "tx-123")
       = Ret b
       /\ (b = true <->
           exists t,
             fst (get_transaction config (always 200 (transaction_body "tx-123" "success"))
                    "tx-123") = Ret t
             /\ status t = SUCCESS)
       /\ (forall e,
             fst (get_transaction config (always 200 (transaction_body "tx-123" "success"))
                    "tx-123") = Raise e -> b = false)
       /\ snd (verify_payment config (always 200 (transaction_body "tx-123" "success")) "tx-123")
          = snd (get_transaction config (always 200 (transaction_body "tx-123" "success"))
                   "tx-123").
Proof.
  split; [reflexivity|].
  apply (verify_payment_spec config (always 200 (transaction_body "tx-123" "success")) "tx-123").
  reflexivity.
Defined.

(** Three handlers, the second raising and the third failing when
    awaited. *)
Lemma handle_webhook_calls_every_handler_witness :
  WebhookEvent_model_validate webhook_payload = Ret webhook_event
  /\ handle_webhook 4 [on_payment_success; failing_handler; async_handler] webhook_payload
     = (Some (Ret tt), [on_payment_success; failing_handler; async_handler],
        [EvHandler 1; EvHandler 2; EvHandler 3; EvAwait 3])
  /\ handler_calls
       (snd (handle_webhook 4 [on_payment_success; failing_handler; async_handler]
               webhook_payload))
     = [1; 2; 3]%nat.
Proof.
  split; [reflexivity|].
  apply (handle_webhook_calls_every_handler 4
           [on_payment_success; failing_handler; async_handler] webhook_payload webhook_event).
  - reflexivity.
  - intros h [<-|[<-|[<-|[]]]]; reflexivity.
  - intros h [<-|[<-|[<-|[]]]]; reflexivity.
  - cbn. lia.
Defined.

(** A payload with its event type and nothing else. *)
Lemma handle_webhook_invalid_payload_witness :
  WebhookEvent_model_validate (PyDict [("eventType", PyStr "payment.success")])
  = Raise webhook_invalid
  /\ handle_webhook 3 [on_payment_success; failing_handler]
       (PyDict [("eventType", PyStr "payment.success")])
     = (Some (Raise webhook_invalid), [on_payment_success; failing_handler], [])
  /\ handler_calls
       (snd (handle_webhook 3 [on_payment_success; failing_handler]
               (PyDict [("eventType", PyStr "payment.success")])))
     = [].
Proof.
  split; [reflexivity|].
  apply (handle_webhook_invalid_payload 3 [on_payment_success; failing_handler]
           (PyDict [("eventType", PyStr "payment.success")]) webhook_invalid).
  reflexivity.
Defined.

(** Removing a handler that was never added, and one that was. *)
Lemma registry_operations_spec_witness :
  remove_event_handler [on_payment_success; failing_handler] async_handler
  = Raise (PyError ValueError "list.remove(x): x not in list")
  /\ remove_event_handler [on_payment_success; failing_handler; on_payment_success]
       on_payment_success
     = Ret [failing_handler; on_payment_success].
Proof.
  split.
  - apply (proj1 (proj2 (proj2
             (registry_operations_spec [on_payment_success; failing_handler] async_handler)))).
    intros x [<-|[<-|[]]]; discriminate.
  - apply (proj2 (proj2 (proj2
             (registry_operations_spec
                [on_payment_success; failing_handler; on_payment_success]
                on_payment_success)))
             [] on_payment_success [failing_handler; on_payment_success]).
    + reflexivity.
    + reflexivity.
    + intros y [].
Defined.

(** The amount of [test_to_api_payload]: [1000.50] is held exactly. *)
Lemma to_api_payload_amount_currency_witness :
  PaymentRequest_new amount_1000_50 "kes" "254712345678" "REF-001" (Some "Test payment")
    None None None
  = Ret (mkPaymentRequest amount_1000_50 "KES" "254712345678" "REF-001" (Some "Test payment")
           None None None)
  /\ dict_get
       (to_api_payload
          (mkPaymentRequest amount_1000_50 "KES" "254712345678" "REF-001"
             (Some "Test payment") None None None)) "amount"
     = Some (PyFloat (Float.float_of_Decimal amount_1000_50))
  /\ dict_get
       (to_api_payload
          (mkPaymentRequest amount_1000_50 "KES" "254712345678" "REF-001"
             (Some "Test payment") None None None)) "currency"
     = Some (PyStr "KES").
Proof.
  split; [reflexivity|].
  destruct (to_api_payload_amount_currency amount_1000_50 "kes" "254712345678" "REF-001"
              (Some "Test payment") None None None
              (mkPaymentRequest amount_1000_50 "KES" "254712345678" "REF-001"
                 (Some "Test payment") None None None) eq_refl) as (Ha & _ & Hc).
  split; [exact Ha | exact Hc].
Defined.

End Witnesses.

(* ================================================================== *)
(** * Further properties of the SDK *)

Import ErrorText Queries Headers Facade.

(* ------------------------------------------------------------------ *)
(** ** The retry loop, whatever the network does *)

Section RetryLoop.
Context {R : Runtime}.
Variable config : PaymentConfig.

(** The effects of the loop from attempt [k] on have the shape of
    [retry_trace], with no more retries than the budget leaves. *)
Lemma attempts_shape (http : transport) method url json_data params :
  forall (rem : nat) (k : Z) (last_error : option exn),
    0 <= k ->
    k + Z.of_nat rem = max_retries config + 1 ->
    (0 < rem)%nat ->
    exists n : nat,
      k + Z.of_nat n <= max_retries config
      /\ snd (attempts config http method url json_data params rem k last_error)
         = retry_trace (EvRequest method url json_data params) n k.
Proof.
  induction rem as [|rem IH]; intros k last_error Hk Hsum Hpos; [lia|].
  cbn [attempts].
  destruct (attempt_once config (http (Z.to_nat k))) as [j|e|e].
  - exists O. split; [lia | reflexivity].
  - exists O. split; [lia | reflexivity].
  - destruct rem as [|rem'].
    + exists O. split; [lia|].
      replace (k <? max_retries config) with false by (symmetry; apply Z.ltb_ge; lia).
      reflexivity.
    + replace (k <? max_retries config) with true by (symmetry; apply Z.ltb_lt; lia).
      destruct (IH (k + 1) (Some e)) as (n & Hn & Htr); try lia.
      exists (S n). split; [lia|].
      destruct (attempts config http method url json_data params (S rem') (k + 1) (Some e))
        as [r tr].
      cbn [snd] in *. rewrite Htr. reflexivity.
Qed.

Lemma attempts_succ (http : transport) method url json_data params rem k last_error :
  attempts config http method url json_data params (S rem) k last_error
  = match attempt_once config (http (Z.to_nat k)) with
    | Returned j => (LoopReturn j, [EvRequest method url json_data params])
    | Propagated e => (LoopRaise e, [EvRequest method url json_data params])
    | Recorded e =>
        (fst (attempts config http method url json_data params rem (k + 1) (Some e)),
         EvRequest method url json_data params
         :: (if k <? max_retries config then [EvSleep (inject_Z (2 ^ k))] else [])
            ++ snd (attempts config http method url json_data params rem (k + 1) (Some e)))
    end.
Proof.
  cbn [attempts]. destruct (attempt_once config (http (Z.to_nat k))) as [j|e|e];
    try reflexivity.
  destruct (attempts config http method url json_data params rem (k + 1) (Some e)).
  reflexivity.
Qed.

(** Attempts [k], ..., [k + n - 1] record a failure and attempt [k + n]
    returns or raises for good: the loop stops there. *)
Lemma attempts_until (http : transport) method url json_data params (r : loop_end) :
  forall (n : nat) (k : Z) (rem : nat) (last_error : option exn),
    0 <= k ->
    k + Z.of_nat n <= max_retries config ->
    (forall j, (Z.to_nat k <= j < Z.to_nat k + n)%nat ->
               exists e, attempt_once config (http j) = Recorded e) ->
    match attempt_once config (http (Z.to_nat k + n)%nat) with
    | Returned v => r = LoopReturn v
    | Propagated e => r = LoopRaise e
    | Recorded _ => False
    end ->
    attempts config http method url json_data params (S (n + rem)) k last_error
    = (r, retry_trace (EvRequest method url json_data params) n k).
Proof.
  induction n as [|n IH]; intros k rem last_error Hk Hle Hrec Hend.
  - rewrite Nat.add_0_r in Hend. rewrite attempts_succ.
    destruct (attempt_once config (http (Z.to_nat k))) as [v|e|e];
      [subst r; reflexivity | subst r; reflexivity | contradiction].
  - change (S (S n + rem)) with (S (S (n + rem))). rewrite attempts_succ.
    destruct (Hrec (Z.to_nat k) ltac:(lia)) as [e He]. rewrite He.
    replace (k <? max_retries config) with true by (symmetry; apply Z.ltb_lt; lia).
    rewrite (IH (k + 1) rem (Some e)); [reflexivity | lia | lia | |].
    + intros j Hj. apply Hrec. lia.
    + replace (Z.to_nat (k + 1) + n)%nat with (Z.to_nat k + S n)%nat by lia. exact Hend.
Qed.

Lemma backoff_total n : forall k, 0 <= k ->
  Qeq (fold_right Qplus 0%Q (backoff n k)) (inject_Z (2 ^ k * (2 ^ Z.of_nat n - 1))).
Proof.
  induction n as [|n IH]; intros k Hk.
  - simpl. rewrite Z.mul_0_r. reflexivity.
  - cbn [backoff fold_right]. rewrite IH by lia.
    rewrite <- inject_Z_plus. apply inject_Z_injective.
    rewrite Nat2Z.inj_succ, Z.pow_succ_r by lia.
    rewrite Z.pow_add_r by lia. ring.
Qed.

(** The effects of [_request], whatever the attempts do. *)
Lemma request_shape (http : transport) method path json_data params :
  0 <= max_retries config ->
  exists n : nat,
    Z.of_nat n <= max_retries config
    /\ snd (_request config http method path json_data params)
       = retry_trace (EvRequest method ("/v1" ++ path)%string json_data params) n 0.
Proof.
  intros Hn.
  destruct (attempts_shape http method ("/v1" ++ path)%string json_data params
              (Z.to_nat (max_retries config + 1)) 0 None) as (n & Hle & Htr); try lia.
  exists n. split; [lia|].
  unfold _request, request_loop.
  destruct (attempts config http method ("/v1" ++ path)%string json_data params
              (Z.to_nat (max_retries config + 1)) 0 None) as [r tr].
  cbn [snd] in Htr. subst tr. destruct r as [j|e|[e|]]; reflexivity.
Qed.

(** X1: bounded retry.  With a budget [max_retries >= 0], whatever each
    attempt does, [_request] makes [n + 1] attempts for some
    [n <= max_retries], sleeps [2^i] seconds between attempt [i] and the
    next and at no other time, and so sleeps [2^n - 1] seconds in all;
    every attempt sends the same method, URL, body and parameters. *)
Theorem request_bounded_retry (http : transport) method path json_data params :
  0 <= max_retries config ->
  exists n : nat,
    Z.of_nat n <= max_retries config
    /\ snd (_request config http method path json_data params)
       = retry_trace (EvRequest method ("/v1" ++ path)%string json_data params) n 0
    /\ request_count (snd (_request config http method path json_data params)) = S n
    /\ sleeps (snd (_request config http method path json_data params)) = backoff n 0
    /\ Qeq (fold_right Qplus 0%Q
              (sleeps (snd (_request config http method path json_data params))))
           (inject_Z (2 ^ Z.of_nat n - 1)).
Proof.
  intros Hn.
  destruct (request_shape http method path json_data params Hn) as (n & Hle & Hsnd).
  exists n. split; [lia|].
  rewrite Hsnd, request_count_retry_trace, sleeps_retry_trace.
  repeat split.
  rewrite backoff_total by lia. rewrite Z.pow_0_r, Z.mul_1_l. reflexivity.
Qed.

(** The whole of [_request] when the attempt of index [n] is the first
    that does not record a failure. *)
Lemma request_until (http : transport) method path json_data params (n : nat) :
  Z.of_nat n <= max_retries config ->
  (forall j, (j < n)%nat -> exists e, attempt_once config (http j) = Recorded e) ->
  (forall v, attempt_once config (http n) = Returned v ->
     _request config http method path json_data params
     = (Ret v, retry_trace (EvRequest method ("/v1" ++ path)%string json_data params) n 0))
  /\ (forall e, attempt_once config (http n) = Propagated e ->
        _request config http method path json_data params
        = (Raise e, retry_trace (EvRequest method ("/v1" ++ path)%string json_data params) n 0)).
Proof.
  intros Hle Hrec.
  assert (Hfuel : Z.to_nat (max_retries config + 1)
                  = S (n + (Z.to_nat (max_retries config) - n))) by lia.
  split; intros x Hx; unfold _request, request_loop; rewrite Hfuel.
  - rewrite (attempts_until http method ("/v1" ++ path)%string json_data params (LoopReturn x));
      [reflexivity | lia | lia | |].
    + intros j Hj. apply Hrec. change (Z.to_nat 0) with O in Hj. lia.
    + change (Z.to_nat 0 + n)%nat with n. rewrite Hx. reflexivity.
  - rewrite (attempts_until http method ("/v1" ++ path)%string json_data params (LoopRaise x));
      [reflexivity | lia | lia | |].
    + intros j Hj. apply Hrec. change (Z.to_nat 0) with O in Hj. lia.
    + change (Z.to_nat 0 + n)%nat with n. rewrite Hx. reflexivity.
Qed.

Lemma attempt_once_recovers_network t :
  exists e, attempt_once config (Fails (PyError HttpxNetworkError t)) = Recorded e.
Proof. eexists. reflexivity. Qed.

Lemma attempt_once_transient (s : sent) :
  (exists t, s = Fails (PyError HttpxTimeoutException t))
  \/ (exists t, s = Fails (PyError HttpxNetworkError t)) ->
  exists e, attempt_once config s = Recorded e.
Proof.
  intros [[t ->]|[t ->]]; eexists; reflexivity.
Qed.

Lemma attempt_once_success response v :
  status_code response < 400 ->
  json_body response = Some v ->
  attempt_once config (Responds response) = Returned v.
Proof.
  intros Hs Hb. unfold attempt_once, try_body, Response_json.
  replace (status_code response >=? 400) with false
    by (symmetry; rewrite Z.geb_leb; apply Z.leb_gt; lia).
  rewrite Hb. reflexivity.
Qed.

(** X2: retry, then success.  When the first [n <= max_retries] attempts
    fail with timeouts or network errors and the next one is answered
    with a status below 400 and a JSON body, [_request] returns that body
    after [n + 1] attempts and the sleeps 1, 2, ..., [2^(n-1)]; with
    [n = 0] it returns at once, without sleeping. *)
Theorem request_returns_first_success (http : transport) method path json_data params
        (n : nat) response v :
  Z.of_nat n <= max_retries config ->
  (forall j, (j < n)%nat ->
     (exists t, http j = Fails (PyError HttpxTimeoutException t))
     \/ (exists t, http j = Fails (PyError HttpxNetworkError t))) ->
  http n = Responds response ->
  status_code response < 400 ->
  json_body response = Some v ->
  _request config http method path json_data params
  = (Ret v, retry_trace (EvRequest method ("/v1" ++ path)%string json_data params) n 0)
  /\ sleeps (retry_trace (EvRequest method ("/v1" ++ path)%string json_data params) n 0)
     = backoff n 0.
Proof.
  intros Hle Hfail Hn Hs Hb. split; [|apply sleeps_retry_trace].
  apply (request_until http method path json_data params n Hle).
  - intros j Hj. apply attempt_once_transient. apply Hfail. exact Hj.
  - rewrite Hn. apply attempt_once_success; assumption.
Qed.

(** X3: with a network error at every attempt, [_request] uses the whole
    budget and raises a plain [AfricaPaymentsError] whose message wraps
    the text of the error of the last attempt, with no code and no
    details. *)
Theorem request_network_errors_exhaust_retries (http : transport) method path json_data params
        (text_at : nat -> string) :
  0 <= max_retries config ->
  (forall j, (j <= Z.to_nat (max_retries config))%nat ->
     http j = Fails (PyError HttpxNetworkError (text_at j))) ->
  _request config http method path json_data params
  = (Raise (SdkError AfricaPaymentsError
              (PyStr ("Network error: " ++ text_at (Z.to_nat (max_retries config)))%string)
              PyNone (PyDict [])),
     retry_trace (EvRequest method ("/v1" ++ path)%string json_data params)
                 (Z.to_nat (max_retries config)) 0).
Proof.
  intros Hn Hall.
  apply (request_all_recorded config http
           (fun j => SdkError AfricaPaymentsError
                       (PyStr ("Network error: " ++ text_at j)%string) PyNone (PyDict [])));
    [assumption|].
  intros j Hj. rewrite (Hall j Hj). reflexivity.
Qed.

(** X4: what is not an [Exception] is not retried and not wrapped.  When
    an attempt is interrupted by a [BaseException] that is no
    [Exception] (the cancellation of the task, for one), after [n]
    attempts that failed with timeouts or network errors, [_request]
    raises it as it is and makes no further attempt. *)
Theorem request_propagates_base_exception (http : transport) method path json_data params
        (n : nat) cls t :
  Z.of_nat n <= max_retries config ->
  (forall j, (j < n)%nat ->
     (exists t', http j = Fails (PyError HttpxTimeoutException t'))
     \/ (exists t', http j = Fails (PyError HttpxNetworkError t'))) ->
  http n = Fails (PyError cls t) ->
  is_Exception (PyError cls t) = false ->
  _request config http method path json_data params
  = (Raise (PyError cls t),
     retry_trace (EvRequest method ("/v1" ++ path)%string json_data params) n 0).
Proof.
  intros Hle Hfail Hn Hbase.
  apply (request_until http method path json_data params n Hle).
  - intros j Hj. apply attempt_once_transient. apply Hfail. exact Hj.
  - rewrite Hn. destruct cls; try discriminate; reflexivity.
Qed.

(** X5: an answer of status below 400 whose body is not JSON is treated
    like a failure of the network: it is retried, and when every attempt
    is answered so, the whole budget is used and a plain
    [AfricaPaymentsError] is raised. *)
Theorem request_retries_undecodable_success (http : transport) method path json_data params :
  0 <= max_retries config ->
  (forall j, (j <= Z.to_nat (max_retries config))%nat ->
     exists response, http j = Responds response
                      /\ status_code response < 400 /\ json_body response = None) ->
  exists message,
    _request config http method path json_data params
    = (Raise (SdkError AfricaPaymentsError message PyNone (PyDict [])),
       retry_trace (EvRequest method ("/v1" ++ path)%string json_data params)
                   (Z.to_nat (max_retries config)) 0).
Proof.
  intros Hn Hall. eexists.
  apply (request_all_recorded config http
           (fun _ => SdkError AfricaPaymentsError (PyStr "Request failed: Expecting value")
                       PyNone (PyDict []))); [assumption|].
  intros j Hj. destruct (Hall j Hj) as (response & -> & Hs & Hb).
  unfold attempt_once, try_body, Response_json.
  replace (status_code response >=? 400) with false
    by (symmetry; rewrite Z.geb_leb; apply Z.leb_gt; lia).
  rewrite Hb. reflexivity.
Qed.

Lemma post_init_accepts (c : PaymentConfig) :
  post_init c = Ret tt <->
  api_key c <> EmptyString /\ (0 < timeout c)%Q /\ 0 <= max_retries c.
Proof.
  unfold post_init.
  destruct (String.eqb_spec (api_key c) EmptyString) as [Hk|Hk].
  { split; [discriminate | intros [H _]; contradiction]. }
  destruct (Qle_bool (timeout c) 0) eqn:Ht.
  { apply Qle_bool_iff in Ht. split; [discriminate|].
    intros (_ & H & _). exfalso. exact (Qlt_not_le _ _ H Ht). }
  destruct (Z.ltb_spec (max_retries c) 0) as [Hm|Hm].
  { split; [discriminate | intros (_ & _ & H); lia]. }
  split; [|reflexivity]. intros _. split; [exact Hk|]. split; [|exact Hm].
  apply Qnot_le_lt. intros H. apply Qle_bool_iff in H. congruence.
Qed.

(** X6: with a configuration that [__post_init__] accepts, [_request]
    always makes a first attempt, and its loop never ends without a
    recorded failure: the fallback error of the last line is out of
    reach. *)
Theorem request_with_checked_config (http : transport) method path json_data params :
  post_init config = Ret tt ->
  (1 <= request_count (snd (_request config http method path json_data params)))%nat
  /\ fst (request_loop config http method path json_data params) <> Exhausted None.
Proof.
  intros Hok. apply post_init_accepts in Hok. destruct Hok as (_ & _ & Hn).
  split.
  - destruct (request_shape http method path json_data params Hn) as (n & _ & Hsnd).
    rewrite Hsnd, request_count_retry_trace. lia.
  - intros H. apply request_loop_none_recorded in H. lia.
Qed.

End RetryLoop.

(* ------------------------------------------------------------------ *)
(** ** Error responses outside the table, and the text of errors *)

Section ErrorBodies.
Context {R : Runtime}.
Variable config : PaymentConfig.

Lemma raise_new_raises {A : Type} cls message kw :
  exists e, @raise_new A cls message kw = Raise e.
Proof. unfold raise_new. destruct (construct cls message kw); eexists; reflexivity. Qed.

Lemma raise_for_status_raises_from_400 status d :
  400 <= status -> exists e, raise_for_status status (PyDict d) = Raise e.
Proof.
  intros Hge. unfold raise_for_status.
  replace (status >=? 400) with true by (symmetry; rewrite Z.geb_leb; apply Z.leb_le; lia).
  repeat match goal with
         | |- context [if ?c then _ else _] => destruct c
         end; apply raise_new_raises.
Qed.

(** X7: [raise_for_status] returns without raising exactly when the
    status is below 400 and the body is a [dict]; a body of another type
    makes it raise [AttributeError] whatever the status. *)
Theorem raise_for_status_returns_iff status v :
  (raise_for_status status v = Ret tt <-> status < 400 /\ exists d, v = PyDict d)
  /\ ((forall d, v <> PyDict d) ->
      exists t, raise_for_status status v = Raise (PyError AttributeError t)).
Proof.
  split.
  - destruct v; try (split; [discriminate | intros [_ [d' H]]; discriminate]).
    split.
    + intros H. split; [|eexists; reflexivity].
      destruct (Z_lt_le_dec status 400) as [Hlt|Hge]; [exact Hlt|].
      destruct (raise_for_status_raises_from_400 status d Hge) as [e He].
      rewrite He in H. discriminate.
    + intros [Hlt _]. unfold raise_for_status.
      repeat match goal with
             | |- context [?a =? ?b] =>
                 replace (a =? b) with false by (symmetry; apply Z.eqb_neq; lia)
             end.
      replace (status >=? 500) with false by (symmetry; rewrite Z.geb_leb; apply Z.leb_gt; lia).
      replace (status >=? 400) with false by (symmetry; rewrite Z.geb_leb; apply Z.leb_gt; lia).
      reflexivity.
  - intros H. eexists. apply raise_for_status_not_dict. exact H.
Qed.

(** X8: a response of a status from 400 up that is not in the table
    (402, 403, 405, ...) ends [_request] at the first attempt, with no
    sleep, in a plain [AfricaPaymentsError].  With a [dict] body the
    error carries the body's [message] (or "Unknown error"), [code] (or
    [None]) and [details] (or the empty [dict], also when [details] is
    false); with a body that is not JSON it carries the raw text of the
    response as its message. *)
Theorem request_unlisted_status (http : transport) method path json_data params response :
  0 <= max_retries config ->
  http O = Responds response ->
  400 <= status_code response ->
  classified (status_code response) = false ->
  (forall d, json_body response = Some (PyDict d) ->
     _request config http method path json_data params
     = (Raise (SdkError AfricaPaymentsError
                 (get_default d "message" (PyStr "Unknown error"))
                 (get_default d "code" PyNone)
                 (if truthy (get_default d "details" (PyDict []))
                  then get_default d "details" (PyDict []) else PyDict [])),
        [EvRequest method ("/v1" ++ path)%string json_data params]))
  /\ (json_body response = None ->
      _request config http method path json_data params
      = (Raise (SdkError AfricaPaymentsError (PyStr (text response)) PyNone (PyDict [])),
         [EvRequest method ("/v1" ++ path)%string json_data params])).
Proof.
  intros Hn Hh Hge Hc. split.
  - intros d Hd.
    apply (proj2 (request_until config http method path json_data params O ltac:(lia)
                    ltac:(intros j Hj; lia))).
    rewrite Hh. apply attempt_once_generic; assumption.
  - intros Hd.
    apply (proj2 (request_until config http method path json_data params O ltac:(lia)
                    ltac:(intros j Hj; lia))).
    rewrite Hh. unfold attempt_once, try_body, Response_json.
    replace (status_code response >=? 400) with true
      by (symmetry; rewrite Z.geb_leb; apply Z.leb_le; lia).
    rewrite Hd. rewrite raise_for_status_generic by assumption. reflexivity.
Qed.

End ErrorBodies.

Section ErrorTexts.
Context {R : Runtime}.
Variable config : PaymentConfig.

(** X9: the text of an error.  An error built from a message alone
    prints as "[CODE] message" with the code of its class, and a plain
    [AfricaPaymentsError] as the message alone; so the error of
    exhausted timeouts prints as "[TIMEOUT] Request timed out after
    ...s".  The error of an unlisted status prints the body's message,
    behind the body's code in brackets when that code is a string that is
    not empty. *)
Theorem error_text :
  (forall cls m,
     exists e, construct cls (PyStr m) [] = Ret e
       /\ AfricaPaymentsError_str e
          = Some (match class_code cls with
                  | Some c => ("[" ++ c ++ "] " ++ m)%string
                  | None => m
                  end))
  /\ (forall t,
        exists e, attempt_once config (Fails (PyError HttpxTimeoutException t)) = Recorded e
          /\ AfricaPaymentsError_str e
             = Some ("[TIMEOUT] Request timed out after "
                       ++ float_repr (timeout config) ++ "s")%string)
  /\ (forall status d m e,
        400 <= status -> classified status = false ->
        dict_get d "message" = Some (PyStr m) ->
        raise_for_status status (PyDict d) = Raise e ->
        (forall a c, dict_get d "code" = Some (PyStr (String a c)) ->
           AfricaPaymentsError_str e = Some ("[" ++ String a c ++ "] " ++ m)%string)
        /\ (dict_get d "code" = None \/ dict_get d "code" = Some PyNone
            \/ dict_get d "code" = Some (PyStr EmptyString) ->
            AfricaPaymentsError_str e = Some m)).
Proof.
  split; [|split].
  - intros cls m. eexists. split; [apply construct_plain|].
    destruct cls; reflexivity.
  - intros t. eexists. split; [apply attempt_once_timeout|]. reflexivity.
  - intros status d m e Hge Hc Hm He.
    rewrite raise_for_status_generic in He by assumption. injection He as <-.
    unfold get_default. rewrite Hm. split.
    + intros a c Hcode. rewrite Hcode. reflexivity.
    + intros [Hcode|[Hcode|Hcode]]; rewrite Hcode; reflexivity.
Qed.

End ErrorTexts.

(* ------------------------------------------------------------------ *)
(** ** Configuration and construction *)

Section Configuration.


(** X11: the effective base URL is never empty.  An override that is
    not empty is returned as it is, whatever the environment; an empty
    override counts as none; with no override the URL is the one of the
    environment, and the two environments have different URLs. *)
Theorem effective_base_url_spec (c : PaymentConfig) :
  effective_base_url c <> EmptyString
  /\ (forall u, base_url c = Some u -> u <> EmptyString -> effective_base_url c = u)
  /\ (base_url c = Some EmptyString \/ base_url c = None ->
      effective_base_url c
      = match environment c with
        | PRODUCTION => "https://api.africapayments.com"
        | SANDBOX => "https://api.sandbox.africapayments.com"
        end)
  /\ "https://api.africapayments.com" <> "https://api.sandbox.africapayments.com".
Proof.
  unfold effective_base_url. split; [|split; [|split]].
  - destruct (base_url c) as [u|].
    + destruct (String.eqb_spec u EmptyString) as [->|Hu];
        [destruct (environment c); discriminate | exact Hu].
    + destruct (environment c); discriminate.
  - intros u -> Hu. apply String.eqb_neq in Hu. rewrite Hu. reflexivity.
  - intros [->| ->]; reflexivity.
  - discriminate.
Qed.

Lemma PaymentEnvironment_of_value e : PaymentEnvironment_of (PaymentEnvironment_value e) = Ret e.
Proof. destruct e; reflexivity. Qed.

Lemma PaymentRegion_of_value r : PaymentRegion_of (PaymentRegion_value r) = Ret r.
Proof. destruct r; reflexivity. Qed.

Lemma PaymentEnvironment_of_inv s e :
  PaymentEnvironment_of s = Ret e -> PaymentEnvironment_value e = s.
Proof.
  unfold PaymentEnvironment_of.
  destruct (find _ _) as [e'|] eqn:Hf; [|discriminate].
  intros H. injection H as <-. apply find_some in Hf. destruct Hf as [_ Hf].
  apply String.eqb_eq. exact Hf.
Qed.

Lemma PaymentRegion_of_inv s r :
  PaymentRegion_of s = Ret r -> PaymentRegion_value r = s.
Proof.
  unfold PaymentRegion_of.
  destruct (find _ _) as [r'|] eqn:Hf; [|discriminate].
  intros H. injection H as <-. apply find_some in Hf. destruct Hf as [_ Hf].
  apply String.eqb_eq. exact Hf.
Qed.

(** X12: [AfricaPaymentsClient(...)] succeeds exactly when the
    environment and the region are values of their enumerations and
    [__post_init__] accepts the configuration; the client then holds the
    arguments it was given, and its headers carry the region code and
    the key as they were passed. *)
Theorem client_init_spec key env_name region_name url t retries (c : PaymentConfig) :
  (AfricaPaymentsClient_init key env_name region_name url t retries = Ret c <->
   c = mkPaymentConfig key (environment c) (region c) url t retries
   /\ PaymentEnvironment_value (environment c) = env_name
   /\ PaymentRegion_value (region c) = region_name
   /\ post_init c = Ret tt)
  /\ (AfricaPaymentsClient_init key env_name region_name url t retries = Ret c ->
      In ("X-Region", region_name) (get_headers c)
      /\ In ("Authorization", ("Bearer " ++ key)%string) (get_headers c)
      /\ key <> EmptyString).
Proof.
  assert (Hfwd : AfricaPaymentsClient_init key env_name region_name url t retries = Ret c ->
                 c = mkPaymentConfig key (environment c) (region c) url t retries
                 /\ PaymentEnvironment_value (environment c) = env_name
                 /\ PaymentRegion_value (region c) = region_name
                 /\ post_init c = Ret tt).
  { unfold AfricaPaymentsClient_init.
    destruct (PaymentEnvironment_of env_name) as [e|] eqn:He; [|discriminate].
    destruct (PaymentRegion_of region_name) as [r|] eqn:Hr; [|discriminate].
    destruct (post_init (mkPaymentConfig key e r url t retries)) as [[]|] eqn:Hp;
      [|discriminate].
    intros H. injection H as <-. cbn [environment region].
    split; [reflexivity|]. split; [apply PaymentEnvironment_of_inv; exact He|].
    split; [apply PaymentRegion_of_inv; exact Hr | exact Hp]. }
  split; [split; [exact Hfwd|]|].
  - intros (Hc & He & Hr & Hp). unfold AfricaPaymentsClient_init.
    rewrite <- He, <- Hr, PaymentEnvironment_of_value, PaymentRegion_of_value.
    rewrite <- Hc, Hp. reflexivity.
  - intros H. destruct (Hfwd H) as (Hc & He & Hr & Hp).
    apply post_init_accepts in Hp. destruct Hp as (Hk & _).
    assert (Hkey : api_key c = key) by (rewrite Hc; reflexivity).
    unfold get_headers. rewrite Hr, Hkey in *.
    split; [right; right; right; left; reflexivity|].
    split; [left; reflexivity | exact Hk].
Qed.

End Configuration.

(* ------------------------------------------------------------------ *)
(** ** Validation and serialization of requests *)

Section RequestModels.

Lemma str_filter_app f a b :
  str_filter f (a ++ b)%string = (str_filter f a ++ str_filter f b)%string.
Proof.
  induction a as [|c a IH]; [reflexivity|].
  cbn [String.append str_filter]. destruct (f c); cbn [String.append]; rewrite IH; reflexivity.
Qed.

Lemma str_filter_all f s :
  forallb f (list_ascii_of_string (str_filter f s)) = true.
Proof.
  induction s as [|c s IH]; [reflexivity|].
  cbn [str_filter]. destruct (f c) eqn:E; [|exact IH].
  cbn [list_ascii_of_string forallb]. rewrite E, IH. reflexivity.
Qed.

Lemma str_filter_fixed f s :
  forallb f (list_ascii_of_string s) = true -> str_filter f s = s.
Proof.
  induction s as [|c s IH]; [reflexivity|].
  cbn [list_ascii_of_string forallb str_filter]. intros H.
  apply andb_true_iff in H. destruct H as [Hc Hs]. rewrite Hc, IH by exact Hs. reflexivity.
Qed.

Lemma validate_phone_number_inv v cleaned :
  validate_phone_number v = Ret cleaned ->
  cleaned = str_filter isdigit v /\ 9 <= len cleaned <= 15.
Proof.
  unfold validate_phone_number.
  destruct (Z.ltb_spec (len (str_filter isdigit v)) 9) as [H1|H1]; cbn [orb]; [discriminate|].
  destruct (Z.ltb_spec 15 (len (str_filter isdigit v))) as [H2|H2]; [discriminate|].
  intros H. injection H as <-. split; [reflexivity | lia].
Qed.

(** X13: a phone number that passes validation is stored as its digits
    alone, between 9 and 15 of them; validating the stored number again
    changes nothing; and characters that are not digits, wherever they
    are put in the input, do not change the result. *)
Theorem validate_phone_number_spec v :
  (forall cleaned, validate_phone_number v = Ret cleaned ->
     forallb isdigit (list_ascii_of_string cleaned) = true
     /\ 9 <= len cleaned <= 15
     /\ validate_phone_number cleaned = Ret cleaned)
  /\ (forall a b separators,
        v = (a ++ separators ++ b)%string ->
        str_filter isdigit separators = EmptyString ->
        validate_phone_number v = validate_phone_number (a ++ b)%string)
  /\ (len (str_filter isdigit v) < 9 \/ 15 < len (str_filter isdigit v) ->
      validate_phone_number v = Raise (PyError ValueError "Invalid phone number length")).
Proof.
  split; [|split].
  - intros cleaned H. destruct (validate_phone_number_inv v cleaned H) as [Hc Hl].
    split; [subst cleaned; apply str_filter_all|]. split; [exact Hl|].
    unfold validate_phone_number.
    rewrite (str_filter_fixed isdigit cleaned) by (subst cleaned; apply str_filter_all).
    replace (len cleaned <? 9) with false by (symmetry; apply Z.ltb_ge; lia).
    replace (15 <? len cleaned) with false by (symmetry; apply Z.ltb_ge; lia).
    reflexivity.
  - intros a b separators -> Hsep. unfold validate_phone_number.
    rewrite !str_filter_app, Hsep. reflexivity.
  - intros H. unfold validate_phone_number.
    destruct H as [H|H].
    + replace (len (str_filter isdigit v) <? 9) with true by (symmetry; apply Z.ltb_lt; lia).
      reflexivity.
    + replace (15 <? len (str_filter isdigit v)) with true by (symmetry; apply Z.ltb_lt; lia).
      rewrite orb_true_r. reflexivity.
Qed.

(** X14: [PaymentRequest(...)] succeeds exactly when the amount is
    positive, the currency has three characters, the reference is not
    empty and the phone number has 9 to 15 digits; the request then holds
    the upper-cased currency and the digits of the phone number.  Every
    failure is pydantic's [ValidationError]: the [ValueError] of the phone
    validator does not come out as such. *)
Theorem PaymentRequest_new_spec a cur phone ref desc cb meta prov :
  (forall req,
     PaymentRequest_new a cur phone ref desc cb meta prov = Ret req <->
     Float.Decimal_gt0 a = true /\ len cur = 3 /\ 1 <= len ref
     /\ 9 <= len (str_filter isdigit phone) <= 15
     /\ req = mkPaymentRequest a (str_upper cur) (str_filter isdigit phone) ref
                desc cb meta prov)
  /\ (forall e, PaymentRequest_new a cur phone ref desc cb meta prov = Raise e ->
        e = request_invalid).
Proof.
  unfold PaymentRequest_new, validate_currency, validate_phone_number. split.
  - intros req.
    destruct (Float.Decimal_gt0 a); cbn [negb];
      [|split; [discriminate | intros (H & _); discriminate]].
    destruct (Z.eqb_spec (len cur) 3) as [Hc|Hc]; cbn [negb];
      [|split; [discriminate | intros (_ & H & _); contradiction]].
    destruct (Z.ltb_spec (len ref) 1) as [Hr|Hr];
      [split; [discriminate | intros (_ & _ & H & _); lia]|].
    destruct (Z.ltb_spec (len (str_filter isdigit phone)) 9) as [H1|H1]; cbn [orb];
      [split; [discriminate | intros (_ & _ & _ & H & _); lia]|].
    destruct (Z.ltb_spec 15 (len (str_filter isdigit phone))) as [H2|H2];
      [split; [discriminate | intros (_ & _ & _ & H & _); lia]|].
    split.
    + intros H. injection H as <-. repeat split; try lia.
    + intros (_ & _ & _ & _ & ->). reflexivity.
  - intros e.
    destruct (negb (Float.Decimal_gt0 a)); [intros H; injection H as <-; reflexivity|].
    destruct (negb (len cur =? 3)); [intros H; injection H as <-; reflexivity|].
    destruct (len ref <? 1); [intros H; injection H as <-; reflexivity|].
    destruct ((len (str_filter isdigit phone) <? 9) || (15 <? len (str_filter isdigit phone)));
      [intros H; injection H as <-; reflexivity | discriminate].
Qed.

Lemma dump_opt_keys {A : Type} k (f : A -> pyobj) (v : option A) :
  map fst (dump_opt k f v) = match v with Some _ => [k] | None => [] end.
Proof. destruct v; reflexivity. Qed.

(** X15: the wire payload of a request.  Its keys are [amount],
    [currency], [phoneNumber], [reference], in this order, then the
    aliases of the optional fields that are set, in the order
    [description], [callbackUrl], [metadata], [provider]; a field that is
    not set has no key, no value of the payload is [None], and the
    field names [phone_number] and [callback_url] are not keys. *)
Theorem to_api_payload_shape (self : PaymentRequest) :
  map fst (to_api_payload self)
  = ["amount"; "currency"; "phoneNumber"; "reference"]
    ++ (match description self with Some _ => ["description"] | None => [] end)
    ++ (match callback_url self with Some _ => ["callbackUrl"] | None => [] end)
    ++ (match metadata self with Some _ => ["metadata"] | None => [] end)
    ++ (match provider self with Some _ => ["provider"] | None => [] end)
  /\ (forall k, dict_get (to_api_payload self) k <> Some PyNone)
  /\ dict_get (to_api_payload self) "phoneNumber" = Some (PyStr (phone_number self))
  /\ dict_get (to_api_payload self) "reference" = Some (PyStr (reference self))
  /\ dict_get (to_api_payload self) "phone_number" = None
  /\ dict_get (to_api_payload self) "callback_url" = None
  /\ dict_get (to_api_payload self) "callbackUrl" = option_map PyStr (callback_url self)
  /\ dict_get (to_api_payload self) "provider"
     = option_map (fun p => PyStr (PaymentProvider_value p)) (provider self).
Proof.
  destruct self as [a cur phone ref desc cb meta prov].
  unfold to_api_payload, PaymentRequest_model_dump.
  cbn [amount currency phone_number reference description callback_url metadata provider].
  split; [destruct desc, cb, meta, prov; reflexivity|].
  split.
  - intros k. destruct desc, cb, meta, prov; cbn [dump_opt app dict_set dict_get String.eqb Ascii.eqb Bool.eqb];
      repeat match goal with
             | |- context [if ?c then _ else _] => destruct c
             end; discriminate.
  - repeat split; destruct desc, cb, meta, prov; reflexivity.
Qed.

End RequestModels.

(* ------------------------------------------------------------------ *)
(** ** Responses, events and providers *)

Section ResponseModels.
Context {R : Runtime}.

(** X16: of [is_success], [is_pending] and [is_failed] at most one
    holds, and none of them holds exactly for a cancelled transaction. *)
Theorem status_predicates_exclusive (t : PaymentResponse) :
  (is_success t = true -> is_pending t = false /\ is_failed t = false)
  /\ (is_pending t = true -> is_success t = false /\ is_failed t = false)
  /\ (is_failed t = true -> is_success t = false /\ is_pending t = false)
  /\ (is_success t = false /\ is_pending t = false /\ is_failed t = false
      <-> status t = CANCELLED).
Proof.
  unfold is_success, is_pending, is_failed.
  destruct (status t); cbn; repeat split; intros; try discriminate; try tauto;
    repeat match goal with H : _ /\ _ |- _ => destruct H end; discriminate.
Qed.

(** X17: the status of a response is read back from its value: a value
    validates as a status exactly when it is the string of that status,
    and different statuses have different strings. *)
Theorem validate_PaymentStatus_round_trip :
  (forall st, validate_PaymentStatus (PyStr (PaymentStatus_value st)) = Some st)
  /\ (forall v st, validate_PaymentStatus v = Some st -> v = PyStr (PaymentStatus_value st))
  /\ (forall a b, PaymentStatus_value a = PaymentStatus_value b -> a = b).
Proof.
  split; [|split].
  - intros st. destruct st; reflexivity.
  - intros v st. destruct v; try discriminate. unfold validate_PaymentStatus.
    intros H. apply find_some in H. destruct H as [_ H].
    apply String.eqb_eq in H. rewrite H. reflexivity.
  - intros a b. destruct a, b; try reflexivity; discriminate.
Qed.

(** A body without one of the eight required fields does not validate
    as a [PaymentResponse]. *)
Lemma PaymentResponse_missing_field d :
  field d "transactionId" "transaction_id" = None
  \/ field d "status" "status" = None
  \/ field d "reference" "reference" = None
  \/ field d "amount" "amount" = None
  \/ field d "currency" "currency" = None
  \/ field d "phoneNumber" "phone_number" = None
  \/ field d "createdAt" "created_at" = None
  \/ field d "updatedAt" "updated_at" = None ->
  parse_PaymentResponse (PyDict d) = None.
Proof.
  intros Hmiss. unfold parse_PaymentResponse.
  repeat match goal with
         | |- context [opt_bind (required ?dd ?a ?n ?v) _] =>
             let E := fresh "E" in
             destruct (required dd a n v) eqn:E; cbn [opt_bind]
         end; try reflexivity.
  exfalso. unfold required in *.
  destruct Hmiss as [H|[H|[H|[H|[H|[H|[H|H]]]]]]]; rewrite H in *; discriminate.
Qed.

Variable config : PaymentConfig.

(** X18: an answer of status below 400 whose JSON body lacks a required
    field of [PaymentResponse], or is no [dict], makes [get_transaction]
    raise pydantic's [ValidationError], not an error of the SDK, after a
    single attempt: the validation is outside the retry loop. *)
Theorem get_transaction_invalid_body (http : transport) transaction_id response v :
  0 <= max_retries config ->
  http O = Responds response ->
  status_code response < 400 ->
  json_body response = Some v ->
  ((forall d, v <> PyDict d)
   \/ exists d, v = PyDict d
        /\ (field d "transactionId" "transaction_id" = None
            \/ field d "status" "status" = None
            \/ field d "reference" "reference" = None
            \/ field d "amount" "amount" = None
            \/ field d "currency" "currency" = None
            \/ field d "phoneNumber" "phone_number" = None
            \/ field d "createdAt" "created_at" = None
            \/ field d "updatedAt" "updated_at" = None)) ->
  get_transaction config http transaction_id
  = (Raise (PyError PydanticValidationError "validation error for PaymentResponse"),
     [EvRequest "GET" ("/v1/payments/" ++ transaction_id)%string None None])
  /\ is_AfricaPaymentsError
       (PyError PydanticValidationError "validation error for PaymentResponse") = false.
Proof.
  intros Hn Hh Hs Hb Hbad. split; [|reflexivity].
  unfold get_transaction.
  rewrite (proj1 (request_until config http "GET" ("/payments/" ++ transaction_id)%string
                    None None O ltac:(lia) ltac:(intros j Hj; lia)) v).
  - unfold PaymentResponse_model_validate.
    assert (Hp : parse_PaymentResponse v = None).
    { destruct Hbad as [Hnd|(d & -> & Hmiss)].
      - destruct v; try reflexivity. exfalso. apply (Hnd d). reflexivity.
      - apply PaymentResponse_missing_field. exact Hmiss. }
    rewrite Hp. reflexivity.
  - rewrite Hh. apply attempt_once_success; assumption.
Qed.

End ResponseModels.

Section EventsAndProviders.

Lemma append_colon_injective :
  forall t1 t2 i1 i2 : string,
    (forall c, In c (list_ascii_of_string t1) -> c <> ":"%char) ->
    (forall c, In c (list_ascii_of_string t2) -> c <> ":"%char) ->
    (t1 ++ ":" ++ i1)%string = (t2 ++ ":" ++ i2)%string ->
    t1 = t2 /\ i1 = i2.
Proof.
  induction t1 as [|a t1 IH]; intros t2 i1 i2 H1 H2 Heq.
  - destruct t2 as [|b t2].
    + cbn in Heq. injection Heq as ->. split; reflexivity.
    + cbn in Heq. injection Heq as Hb _. exfalso.
      apply (H2 b); [left; reflexivity | symmetry; exact Hb].
  - destruct t2 as [|b t2].
    + cbn in Heq. injection Heq as Ha _. exfalso.
      apply (H1 a); [left; reflexivity | exact Ha].
    + cbn in Heq. injection Heq as -> Hrest.
      destruct (IH t2 i1 i2) as [-> ->].
      * intros c Hc. apply H1. right. exact Hc.
      * intros c Hc. apply H2. right. exact Hc.
      * exact Hrest.
      * split; reflexivity.
Qed.

(** X19: among events whose type holds no colon, [event_id] tells apart
    any two events that differ in their type or in the id of their
    transaction. *)
Theorem event_id_injective (e1 e2 : WebhookEvent) :
  (forall c, In c (list_ascii_of_string (event_type e1)) -> c <> ":"%char) ->
  (forall c, In c (list_ascii_of_string (event_type e2)) -> c <> ":"%char) ->
  event_id e1 = event_id e2 ->
  event_type e1 = event_type e2 /\ transaction_id (data e1) = transaction_id (data e2).
Proof.
  unfold event_id. intros H1 H2 Heq.
  exact (append_colon_injective _ _ _ _ H1 H2 Heq).
Qed.

(** X20: the table of display names has an entry for every provider, so
    that [display_name] never falls back on the raw value of the
    provider; and no two providers share a display name. *)
Theorem display_name_spec (a b : ProviderConfig) :
  names_get names (pc_provider a) = Some (display_name a)
  /\ display_name a <> PaymentProvider_value (pc_provider a)
  /\ (display_name a = display_name b -> pc_provider a = pc_provider b).
Proof.
  unfold display_name.
  destruct a as [pa ea ca], b as [pb eb cb]. cbn [pc_provider].
  split; [destruct pa; reflexivity|].
  split; [destruct pa; discriminate|].
  destruct pa, pb; cbn; intros H; try reflexivity; discriminate.
Qed.

End EventsAndProviders.

(* ------------------------------------------------------------------ *)
(** ** Queries, refunds and the operations of the facade *)

Section QueriesAndRefunds.
Context {R : Runtime} {L : Library}.
Variable config : PaymentConfig.

(** X22: the parameters of a query.  [limit] and [offset] are always
    sent, and lie in [1, 100] and from 0 up for a valid query; a filter
    is sent exactly when it is set and not the empty string; the status,
    when set, is always sent, as its value. *)
Theorem to_api_params_spec (q : TransactionQuery) :
  dict_get (to_api_params q) "limit" = Some (PyInt (q_limit q))
  /\ dict_get (to_api_params q) "offset" = Some (PyInt (q_offset q))
  /\ (TransactionQuery_valid q = true -> 1 <= q_limit q <= 100 /\ 0 <= q_offset q)
  /\ dict_get (to_api_params q) "transactionId"
     = match q_transaction_id q with
       | Some (String a s) => Some (PyStr (String a s))
       | _ => None
       end
  /\ dict_get (to_api_params q) "reference"
     = match q_reference q with
       | Some (String a s) => Some (PyStr (String a s))
       | _ => None
       end
  /\ dict_get (to_api_params q) "startDate"
     = option_map (fun d => PyStr (isoformat d)) (q_start_date q)
  /\ dict_get (to_api_params q) "endDate"
     = option_map (fun d => PyStr (isoformat d)) (q_end_date q)
  /\ dict_get (to_api_params q) "status"
     = option_map (fun st => PyStr (PaymentStatus_value st)) (q_status q).
Proof.
  destruct q as [tid ref sd ed st lim off]. unfold to_api_params, TransactionQuery_valid.
  cbn [q_transaction_id q_reference q_start_date q_end_date q_status q_limit q_offset].
  split; [reflexivity|]. split; [reflexivity|]. split; [intros H; lia|].
  destruct tid as [[|a1 s1]|], ref as [[|a2 s2]|], sd, ed, st as [[]|];
    repeat split; reflexivity.
Qed.

(** X23: the payload of a refund.  [transactionId] is always there; for
    a valid request [amount] is there exactly for a partial refund, as
    [float(amount)]; [reason] is there when it is set and not empty. *)
Theorem refund_payload_spec (r : RefundRequest) :
  dict_get (RefundRequest_to_api_payload r) "transactionId"
  = Some (PyStr (refund_transaction_id r))
  /\ (RefundRequest_valid r = true ->
      dict_get (RefundRequest_to_api_payload r) "amount"
      = option_map (fun a => PyFloat (Float.float_of_Decimal a)) (refund_amount r))
  /\ dict_get (RefundRequest_to_api_payload r) "reason"
     = match refund_reason r with
       | Some (String a s) => Some (PyStr (String a s))
       | _ => None
       end.
Proof.
  destruct r as [tid amt reason]. unfold RefundRequest_to_api_payload, RefundRequest_valid.
  cbn [refund_transaction_id refund_amount refund_reason].
  split; [reflexivity|]. split.
  - destruct amt as [a|]; [|intros _; destruct reason as [[|c s]|]; reflexivity].
    unfold Float.Decimal_gt0. intros H. apply andb_true_iff in H. destruct H as [_ H].
    apply Z.ltb_lt in H. cbn [when truthy].
    replace (dec_coefficient a =? 0) with false by (symmetry; apply Z.eqb_neq; lia).
    destruct reason as [[|c s]|]; reflexivity.
  - destruct amt as [a|]; cbn [when truthy];
      [destruct (negb (dec_coefficient a =? 0))|];
      destruct reason as [[|c s]|]; reflexivity.
Qed.

(** X24: what each operation of the facade sends.  Whatever the network
    does, with a budget that is not negative, every effect of an
    operation is an attempt of one and the same request, or a sleep of
    the backoff between two attempts: [POST /v1/payments] with the
    payload of the request, [GET /v1/payments/<id>], [GET /v1/payments]
    with the parameters of the query, [POST /v1/refunds] with the payload
    of the refund, [GET /v1/health]. *)
Theorem facade_requests (http : transport) :
  0 <= max_retries config ->
  (forall request, exists n, Z.of_nat n <= max_retries config
     /\ snd (initiate_payment config http request)
        = retry_trace (EvRequest "POST" "/v1/payments"
                         (Some (PyDict (to_api_payload request))) None) n 0)
  /\ (forall id, exists n, Z.of_nat n <= max_retries config
        /\ snd (get_transaction config http id)
           = retry_trace (EvRequest "GET" ("/v1/payments/" ++ id)%string None None) n 0)
  /\ (forall q, exists n, Z.of_nat n <= max_retries config
        /\ snd (get_transaction_history config http (Some q))
           = retry_trace (EvRequest "GET" "/v1/payments" None
                            (Some (PyDict (to_api_params q)))) n 0)
  /\ (exists n, Z.of_nat n <= max_retries config
        /\ snd (get_transaction_history config http None)
           = retry_trace (EvRequest "GET" "/v1/payments" None
                            (Some (PyDict [("limit", PyInt 20); ("offset", PyInt 0)]))) n 0)
  /\ (forall r, exists n, Z.of_nat n <= max_retries config
        /\ snd (refund config http r)
           = retry_trace (EvRequest "POST" "/v1/refunds"
                            (Some (PyDict (RefundRequest_to_api_payload r))) None) n 0)
  /\ (exists n, Z.of_nat n <= max_retries config
        /\ snd (health_check config http)
           = retry_trace (EvRequest "GET" "/v1/health" None None) n 0).
Proof.
  intros Hn. repeat split.
  - intros request. unfold initiate_payment.
    destruct (request_shape config http "POST" "/payments"
                (Some (PyDict (to_api_payload request))) None Hn) as (n & Hle & Htr).
    exists n. split; [exact Hle|].
    destruct (_request config http "POST" "/payments" _ None) as [r tr]. exact Htr.
  - intros id. unfold get_transaction.
    destruct (request_shape config http "GET" ("/payments/" ++ id)%string None None Hn)
      as (n & Hle & Htr).
    exists n. split; [exact Hle|].
    destruct (_request config http "GET" _ None None) as [r tr]. exact Htr.
  - intros q. unfold get_transaction_history.
    destruct (request_shape config http "GET" "/payments" None
                (Some (PyDict (to_api_params q))) Hn) as (n & Hle & Htr).
    exists n. split; [exact Hle|].
    destruct (_request config http "GET" "/payments" None _) as [r tr]. exact Htr.
  - unfold get_transaction_history.
    destruct (request_shape config http "GET" "/payments" None
                (Some (PyDict [("limit", PyInt 20); ("offset", PyInt 0)])) Hn)
      as (n & Hle & Htr).
    exists n. split; [exact Hle|].
    destruct (_request config http "GET" "/payments" None _) as [r tr]. exact Htr.
  - intros r. unfold refund.
    destruct (request_shape config http "POST" "/refunds"
                (Some (PyDict (RefundRequest_to_api_payload r))) None Hn) as (n & Hle & Htr).
    exists n. split; [exact Hle|].
    destruct (_request config http "POST" "/refunds" _ None) as [r' tr]. exact Htr.
  - unfold health_check. apply request_shape. exact Hn.
Qed.

End QueriesAndRefunds.

(* ------------------------------------------------------------------ *)
(** ** Dispatch, registry and polling: the failures that pass through *)

Section DispatchFailures.

(** X25: a handler that fails with a [BaseException] that is no
    [Exception], raised by the call or by the coroutine once awaited,
    ends the delivery.  When the handlers registered before it return or
    fail with errors and leave the registry as it is, the loop of
    [handle_webhook] raises that exception, these handlers were called,
    in order, then the failing one, and none of those registered after
    it is called; the registry is as the failing handler left it. *)
Theorem dispatch_stops_at_base_exception fuel event before h after e :
  (forall x, In x before -> returns_or_errs (run x event) = true) ->
  (forall x, In x before ->
     registry_after (before ++ h :: after) (registry_calls x event) = before ++ h :: after) ->
  run h event = Throws e \/ run h event = ReturnsCoroutine (Raise e) ->
  is_Exception e = false ->
  (List.length before < fuel)%nat ->
  dispatch fuel (before ++ h :: after) O event
  = (Some (Raise e),
     registry_after (before ++ h :: after) (registry_calls h event),
     flat_map (delivered event) before ++ delivered event h)
  /\ handler_calls (snd (dispatch fuel (before ++ h :: after) O event))
     = map hid before ++ [hid h].
Proof.
  intros Hok Hsame Hrun Hbase Hfuel.
  assert (Hd : dispatch fuel (before ++ h :: after) O event
               = (Some (Raise e),
                  registry_after (before ++ h :: after) (registry_calls h event),
                  flat_map (delivered event) before ++ delivered event h)).
  { replace fuel with (List.length before + S (fuel - S (List.length before)))%nat by lia.
    rewrite (dispatch_stretch event (before ++ h :: after) before [] (h :: after));
      [| reflexivity | exact Hok | exact Hsame].
    cbn [List.length Nat.add dispatch].
    rewrite nth_error_app2 by lia. rewrite Nat.sub_diag. cbn [nth_error].
    unfold invoke, delivered.
    destruct Hrun as [-> | ->]; rewrite Hbase; reflexivity. }
  split; [exact Hd|]. rewrite Hd. cbn [snd].
  rewrite handler_calls_app, handler_calls_deliveries, handler_calls_delivered. reflexivity.
Qed.

Lemma list_remove_app_absent before h :
  (forall x, In x before -> hid x <> hid h) ->
  forall rest, list_remove (before ++ rest) h = option_map (app before) (list_remove rest h).
Proof.
  intros Habs rest. induction before as [|y before IH]; cbn [app list_remove].
  - destruct (list_remove rest h); reflexivity.
  - destruct (Nat.eqb_spec (hid y) (hid h)) as [E|E].
    + exfalso. apply (Habs y); [left; reflexivity | exact E].
    + rewrite IH by (intros x Hin; apply Habs; right; exact Hin).
      destruct (list_remove rest h); reflexivity.
Qed.

Lemma list_remove_length l h l' :
  list_remove l h = Some l' -> List.length l = S (List.length l').
Proof.
  revert l'. induction l as [|y l IH]; intros l'; cbn [list_remove]; [discriminate|].
  destruct (Nat.eqb (hid y) (hid h)).
  - intros H. injection H as <-. reflexivity.
  - destruct (list_remove l h) as [r|]; [|discriminate].
    intros H. injection H as <-. cbn [List.length]. rewrite (IH r eq_refl). reflexivity.
Qed.

(** X26: removing a handler right after adding it never fails and
    leaves as many handlers as before the two calls; when the handler was
    not registered already, the registry is back to what it was. *)
Theorem add_then_remove handlers h :
  (exists l, remove_event_handler (add_event_handler handlers h) h = Ret l
             /\ List.length l = List.length handlers)
  /\ ((forall x, In x handlers -> hid x <> hid h) ->
      remove_event_handler (add_event_handler handlers h) h = Ret handlers).
Proof.
  unfold remove_event_handler, add_event_handler. split.
  - destruct (list_remove (handlers ++ [h]) h) as [l|] eqn:Hl.
    + exists l. split; [reflexivity|].
      apply list_remove_length in Hl. rewrite length_app in Hl. cbn in Hl. lia.
    + exfalso. clear -Hl. induction handlers as [|y handlers IH]; cbn [app list_remove] in Hl.
      * rewrite Nat.eqb_refl in Hl. discriminate.
      * destruct (Nat.eqb (hid y) (hid h)); [discriminate|].
        destruct (list_remove (handlers ++ [h]) h); [discriminate|]. apply IH. reflexivity.
  - intros Habs. rewrite list_remove_app_absent by exact Habs.
    cbn [list_remove]. rewrite Nat.eqb_refl. cbn [option_map]. rewrite app_nil_r. reflexivity.
Qed.

End DispatchFailures.

Section PollingFailures.
Context {R : Runtime}.
Variable config : PaymentConfig.
Variables (http : nat -> transport) (clock : nat -> Q).
Variables (transaction_id : string) (interval timeout_ : Q).
Variable callback : option progress.
Variable tx : nat -> PaymentResponse.

(** X27: a failure inside a poll passes through.  After rounds that
    found the transaction pending before the bound, when the fetch of
    round [n] raises, or returns and the callback then raises,
    [poll_transaction_status] raises that same exception at once: it
    reads the clock no more, does not sleep and does not fetch again. *)
Theorem poll_propagates_failure (n fuel : nat) e :
  (n < fuel)%nat ->
  (forall k, (k < n)%nat ->
     (fst (get_transaction config (http k) transaction_id) = Ret (tx k)
      /\ fst (run_callback callback k (tx k)) = Ret tt)
     /\ status (tx k) = PENDING /\ (clock (S k) - clock O < timeout_)%Q) ->
  (fst (get_transaction config (http n) transaction_id) = Raise e ->
   poll_transaction_status config fuel http clock transaction_id interval timeout_ callback
   = (Some (Raise e),
      EvClock :: pending_rounds config http transaction_id interval callback tx n O
      ++ snd (get_transaction config (http n) transaction_id)))
  /\ (fst (get_transaction config (http n) transaction_id) = Ret (tx n) ->
      fst (run_callback callback n (tx n)) = Raise e ->
      poll_transaction_status config fuel http clock transaction_id interval timeout_ callback
      = (Some (Raise e),
         EvClock :: pending_rounds config http transaction_id interval callback tx n O
         ++ round_effects config http transaction_id callback n (tx n))).
Proof.
  intros Hfuel Hpend.
  replace fuel with (n + S (fuel - S n))%nat by lia.
  unfold poll_transaction_status.
  rewrite (poll_loop_pending config http clock transaction_id interval timeout_ callback tx
             (clock O) n O (S (fuel - S n)))
    by (intros k Hk; apply Hpend; lia).
  cbn [Nat.add poll_loop]. unfold round_effects. split.
  - intros Hf. destruct (get_transaction config (http n) transaction_id) as [o tr].
    cbn [fst snd] in *. subst o. reflexivity.
  - intros Hf Hc. destruct (get_transaction config (http n) transaction_id) as [o tr].
    cbn [fst snd] in *. subst o.
    destruct (run_callback callback n (tx n)) as [oc ev]. cbn [fst snd] in *. subst oc.
    reflexivity.
Qed.

End PollingFailures.

(* ------------------------------------------------------------------ *)
(** ** The connection of a client *)

Section Connections.

Lemma still_open_app tr1 : forall tr2 open,
  still_open (tr1 ++ tr2) open = still_open tr2 (still_open tr1 open).
Proof.
  induction tr1 as [|ev tr1 IH]; intros tr2 open; [reflexivity|].
  destruct ev; cbn [app still_open]; apply IH.
Qed.

Lemma step_open self c :
  still_open (snd (step self c))
             (match _client self with Some n => [n] | None => [] end)
  = match _client (fst (step self c)) with Some n => [n] | None => [] end.
Proof.
  destruct self as [[n|] b]; destruct c; cbn; rewrite ?Nat.eqb_refl; reflexivity.
Qed.

Lemma run_calls_open : forall cs self,
  still_open (snd (run_calls self cs))
             (match _client self with Some n => [n] | None => [] end)
  = match _client (fst (run_calls self cs)) with Some n => [n] | None => [] end.
Proof.
  induction cs as [|c cs IH]; intros self; [reflexivity|].
  cbn [run_calls]. pose proof (step_open self c) as Hstep.
  destruct (step self c) as [s1 e1].
  specialize (IH s1). destruct (run_calls s1 cs) as [s2 e2]. cbn [fst snd] in *.
  rewrite still_open_app, Hstep. exact IH.
Qed.

(** X28: one connection at a time.  Whatever sequence of operations,
    [close()], [__aenter__] and [__aexit__] a new client goes through,
    the connections built and not yet closed are the one the client
    holds, or none when it holds none; after [close()] or [__aexit__]
    none is open, so that an [async with] block leaves none open
    whatever is done inside; and a closed client builds a new connection
    at its next use. *)
Theorem connection_lifecycle (cs : list client_call) :
  still_open (snd (run_calls fresh cs)) []
  = match _client (fst (run_calls fresh cs)) with Some n => [n] | None => [] end
  /\ (forall c, c = Close \/ c = Aexit ->
        _client (fst (run_calls fresh (cs ++ [c]))) = None
        /\ still_open (snd (run_calls fresh (cs ++ [c]))) [] = [])
  /\ still_open (snd (run_calls fresh (Aenter :: cs ++ [Aexit]))) [] = []
  /\ (forall c, c = Request \/ c = Aenter ->
        exists n, _client (fst (run_calls fresh (cs ++ [Close; c]))) = Some n).
Proof.
  assert (Hlast : forall s c, c = Close \/ c = Aexit -> _client (fst (step s c)) = None).
  { intros s c [-> | ->]; destruct s as [[n|] b]; reflexivity. }
  assert (Hrun : forall cs1 cs2 s,
            fst (run_calls s (cs1 ++ cs2)) = fst (run_calls (fst (run_calls s cs1)) cs2)).
  { induction cs1 as [|c cs1 IH]; intros cs2 s; [reflexivity|].
    cbn [app run_calls]. destruct (step s c) as [s1 e1]. specialize (IH cs2 s1).
    destruct (run_calls s1 (cs1 ++ cs2)), (run_calls s1 cs1). cbn [fst] in *. exact IH. }
  assert (Hone : forall s c, fst (run_calls s [c]) = fst (step s c)).
  { intros s c. cbn [run_calls]. destruct (step s c). reflexivity. }
  split; [exact (run_calls_open cs fresh)|].
  split; [|split].
  - intros c Hc.
    assert (Hnone : _client (fst (run_calls fresh (cs ++ [c]))) = None).
    { rewrite Hrun, Hone. apply Hlast. exact Hc. }
    split; [exact Hnone|].
    pose proof (run_calls_open (cs ++ [c]) fresh) as H. cbn [_client fresh] in H.
    rewrite H, Hnone. reflexivity.
  - pose proof (run_calls_open (Aenter :: cs ++ [Aexit]) fresh) as H. cbn [_client fresh] in H.
    rewrite H. change (Aenter :: cs ++ [Aexit]) with ((Aenter :: cs) ++ [Aexit]).
    rewrite Hrun, Hone, Hlast by (right; reflexivity). reflexivity.
  - intros c Hc. change [Close; c] with ([Close] ++ [c]).
    rewrite app_assoc, Hrun, Hone.
    assert (Hnone : _client (fst (run_calls fresh (cs ++ [Close]))) = None).
    { rewrite Hrun, Hone. apply Hlast. left. reflexivity. }
    destruct Hc as [-> | ->]; cbn [step]; unfold _get_client; rewrite Hnone;
      eexists; reflexivity.
Qed.

End Connections.

(* ------------------------------------------------------------------ *)
(** ** The digest and the signatures that are accepted *)

Section Digests.
Import Hashlib.

Lemma round_length st kw : List.length (round st kw) = List.length st.
Proof.
  unfold round.
  destruct st as [|a [|b [|c [|d [|e [|f [|g [|h [|i st]]]]]]]]]; reflexivity.
Qed.

Lemma fold_round_length l : forall st,
  List.length (fold_left round l st) = List.length st.
Proof.
  induction l as [|kw l IH]; intros st; [reflexivity|].
  cbn [fold_left]. rewrite IH. apply round_length.
Qed.

Lemma compress_length st block : List.length (compress st block) = List.length st.
Proof.
  unfold compress. rewrite length_map, length_combine, fold_round_length. lia.
Qed.

Lemma blocks_length n : forall st bs, List.length (blocks n st bs) = List.length st.
Proof.
  induction n as [|n IH]; intros st bs; [reflexivity|].
  cbn [blocks]. rewrite IH. apply compress_length.
Qed.

Lemma be_bytes_flat_length l :
  List.length (flat_map (be_bytes 4) l) = (4 * List.length l)%nat.
Proof.
  induction l as [|x l IH]; [reflexivity|].
  cbn [flat_map]. rewrite length_app, IH. cbn [be_bytes List.length]. lia.
Qed.

Lemma sha256_z_length msg : List.length (sha256_z msg) = 32%nat.
Proof.
  unfold sha256_z. rewrite be_bytes_flat_length, blocks_length.
  vm_compute. reflexivity.
Qed.

Lemma hmac_sha256_length key msg : List.length (hmac_sha256 key msg) = 32%nat.
Proof. unfold hmac_sha256. rewrite length_map. apply sha256_z_length. Qed.

Lemma hex_digit_lower n :
  existsb (Ascii.eqb (hex_digit n)) (list_ascii_of_string "0123456789abcdef") = true.
Proof.
  unfold hex_digit. generalize (Z.to_nat n) as k. intros k.
  do 16 (destruct k as [|k]; [reflexivity|]).
  destruct k; reflexivity.
Qed.

Lemma hexdigest_lower bs :
  forallb (fun c => existsb (Ascii.eqb c) (list_ascii_of_string "0123456789abcdef"))
          (list_ascii_of_string (hexdigest bs)) = true.
Proof.
  induction bs as [|b bs IH]; [reflexivity|].
  cbn [hexdigest list_ascii_of_string forallb].
  rewrite !hex_digit_lower. exact IH.
Qed.

(** X29: [verify_webhook_signature] accepts nothing but the digest: a
    signature for which it returns [True] is the hexadecimal
    HMAC-SHA-256 of the payload, and so has exactly 64 characters, all
    of them digits or lower-case letters from a to f. *)
Theorem accepted_signature payload signature secret :
  verify_webhook_signature payload signature secret = Ret true ->
  signature = hexdigest (hmac_sha256 (str_encode secret) payload)
  /\ String.length signature = 64%nat
  /\ forallb (fun c => existsb (Ascii.eqb c) (list_ascii_of_string "0123456789abcdef"))
             (list_ascii_of_string signature) = true.
Proof.
  unfold verify_webhook_signature, compare_digest.
  destruct (is_ascii signature && is_ascii _); [|discriminate].
  intros H. injection H as H. apply String.eqb_eq in H. subst signature.
  split; [reflexivity|]. split; [|apply hexdigest_lower].
  rewrite hexdigest_length, hmac_sha256_length. reflexivity.
Qed.

(** X21: on a signature made of ASCII characters,
    [verify_webhook_signature] returns [True] when the signature is the
    hexadecimal HMAC-SHA-256 of the payload under the secret and [False]
    when it is anything else; in particular a signature that has not 64
    characters is refused. *)
Theorem ascii_signature_verdict payload signature secret :
  is_ascii signature = true ->
  (verify_webhook_signature payload signature secret = Ret true
   <-> signature = hexdigest (hmac_sha256 (str_encode secret) payload))
  /\ (verify_webhook_signature payload signature secret = Ret false
      <-> signature <> hexdigest (hmac_sha256 (str_encode secret) payload))
  /\ (String.length signature <> 64%nat ->
      verify_webhook_signature payload signature secret = Ret false).
Proof.
  intros Ha. rewrite (verify_webhook_signature_ascii _ _ _ Ha).
  destruct (String.eqb_spec signature (hexdigest (hmac_sha256 (str_encode secret) payload)))
    as [E|E].
  - split; [split; intros H; [exact E | reflexivity]|].
    split; [split; intros H; [discriminate | contradiction]|].
    intros Hlen. exfalso. apply Hlen. rewrite E, hexdigest_length, hmac_sha256_length.
    reflexivity.
  - split; [split; intros H; [discriminate | contradiction]|].
    split; [split; intros H; [exact E | reflexivity] | reflexivity].
Qed.

End Digests.

(* ------------------------------------------------------------------ *)
(** ** Amounts that the payload carries exactly *)

Section ExactAmounts.
Import Float.

Lemma div_half_even_error N D : 0 <= N -> 0 < D ->
  - D <= 2 * (div_half_even N D * D - N) <= D.
Proof.
  intros HN HD. unfold div_half_even.
  pose proof (Z.div_mod N D ltac:(lia)) as Hdm.
  pose proof (Z.mod_pos_bound N D HD) as Hr.
  destruct (Z.ltb_spec (2 * (N mod D)) D) as [H1|H1]; [nia|].
  destruct (Z.ltb_spec D (2 * (N mod D))) as [H2|H2]; [nia|].
  destruct (Z.even (N / D)); nia.
Qed.

(** In the normal range the conversion is off by at most one part in
    [2^53] of the value. *)
Lemma round_pos_error n (dp : positive) x :
  0 < n -> pow2_le (-1022) n (Zpos dp) ->
  round_pos n (Zpos dp) = Finite x ->
  ((x - (n # dp)) * inject_Z (2 ^ 53) <= n # dp)%Q
  /\ (((n # dp) - x) * inject_Z (2 ^ 53) <= n # dp)%Q.
Proof.
  intros Hn Hnormal. unfold round_pos.
  destruct (ilog2_bounds n (Zpos dp) Hn ltac:(lia)) as [Hle Hgt].
  pose proof (pow2_order _ _ n (Zpos dp) ltac:(lia) Hnormal Hgt) as He.
  rewrite Z.max_l by lia.
  set (e := ilog2 n (Zpos dp)) in *.
  destruct ((1024 <=? e) || ((e =? 1023) && (scaled_round n (Zpos dp) (e - 52) =? 2 ^ 53)));
    [discriminate|].
  intros H. injection H as <-.
  unfold scaled_round, ldexp.
  destruct (Z.leb_spec 0 (e - 52)) as [Hs|Hs].
  - assert (HD : 0 < Zpos dp * 2 ^ (e - 52))
      by (apply Z.mul_pos_pos; [lia | apply Z.pow_pos_nonneg; lia]).
    pose proof (div_half_even_error n (Zpos dp * 2 ^ (e - 52)) ltac:(lia) HD) as Herr.
    set (M := div_half_even n (Zpos dp * 2 ^ (e - 52))) in *.
    apply (pow2_le_shift e n (Zpos dp) 0) in Hle; try lia.
    rewrite Z.pow_0_r, Z.mul_1_r, Z.add_0_l in Hle.
    replace e with (e - 52 + 52) in Hle by lia.
    rewrite Z.pow_add_r in Hle by lia.
    assert (H53 : 2 ^ 53 = 2 * 2 ^ 52) by reflexivity.
    set (P := 2 ^ (e - 52)) in *. set (T := 2 ^ 52) in *.
    assert (HT : 0 < T) by (unfold T; lia).
    unfold Qle, Qminus, Qplus, Qopp, Qmult, inject_Z. cbn [Qnum Qden].
    rewrite !Pos2Z.inj_mul. rewrite H53. fold T.
    split; nia.
  - pose proof (div_half_even_error (n * 2 ^ (- (e - 52))) (Zpos dp)
                  ltac:(apply Z.mul_nonneg_nonneg; [lia | apply Z.pow_nonneg; lia])
                  ltac:(lia)) as Herr.
    set (M := div_half_even (n * 2 ^ (- (e - 52))) (Zpos dp)) in *.
    apply (pow2_le_shift e n (Zpos dp) (- (e - 52))) in Hle; try lia.
    replace (- (e - 52) + e) with 52 in Hle by lia.
    assert (HP : 0 < 2 ^ (- (e - 52))) by (apply Z.pow_pos_nonneg; lia).
    assert (H53 : 2 ^ 53 = 2 * 2 ^ 52) by reflexivity.
    set (P := 2 ^ (- (e - 52))) in *. set (T := 2 ^ 52) in *.
    assert (HT : 0 < T) by (unfold T; lia).
    unfold Qle, Qminus, Qplus, Qopp, Qmult, inject_Z. cbn [Qnum Qden].
    rewrite !Pos2Z.inj_mul. rewrite !Z2Pos.id by exact HP. rewrite H53. fold T.
    split; nia.
Qed.

(** A positive [Decimal] as the fraction that [float] rounds. *)
Lemma Decimal_as_fraction a :
  Decimal_gt0 a = true ->
  exists N D, float_of_Decimal a = round_pos N (Zpos D)
              /\ Decimal_value a = N # D /\ 0 < N.
Proof.
  unfold Decimal_gt0, float_of_Decimal, Decimal_value. intros Hpos.
  apply andb_true_iff in Hpos. destruct Hpos as [Hsign Hc].
  apply negb_true_iff in Hsign. apply Z.ltb_lt in Hc. rewrite Hsign.
  replace (dec_coefficient a <=? 0) with false by (symmetry; apply Z.leb_gt; lia).
  destruct (Z.leb_spec 0 (dec_exponent a)) as [Hex|Hex].
  - exists (dec_coefficient a * 10 ^ dec_exponent a), 1%positive. repeat split.
    apply Z.mul_pos_pos; [lia | apply Z.pow_pos_nonneg; lia].
  - exists (dec_coefficient a), (Z.to_pos (10 ^ (- dec_exponent a))).
    rewrite Z2Pos.id by (apply Z.pow_pos_nonneg; lia). repeat split. lia.
Qed.

Lemma normal_range N D :
  (ldexp 1 (-1022) <= N # D)%Q -> pow2_le (-1022) N (Zpos D).
Proof.
  unfold ldexp, pow2_le, Qle.
  change (0 <=? -1022) with false. cbn [Qnum Qden].
  change (Z.max (-1022) 0) with 0. change (Z.max (- -1022) 0) with 1022.
  change (- -1022) with 1022.
  rewrite Z2Pos.id by (apply Z.pow_pos_nonneg; lia).
  rewrite Z.pow_0_r. lia.
Qed.

(** X30: how close the [amount] of the payload is to the amount of the
    request.  An amount that is a whole number below [2^53], however the
    [Decimal] writes it (1000, 1000.00 or 1E+3), is sent as the float of
    exactly that value.  Any amount from [2^-1022] up that is sent as a
    finite float is sent within one part in [2^53] of its value. *)
Theorem amount_float_accuracy a cur phone ref desc cb meta prov req :
  PaymentRequest_new a cur phone ref desc cb meta prov = Ret req ->
  (forall n : Z, 0 < n < 2 ^ 53 -> Qeq (Decimal_value a) (inject_Z n) ->
     exists x, dict_get (to_api_payload req) "amount" = Some (PyFloat (Finite x))
               /\ Qeq x (inject_Z n))
  /\ (forall x, dict_get (to_api_payload req) "amount" = Some (PyFloat (Finite x)) ->
        (ldexp 1 (-1022) <= Decimal_value a)%Q ->
        ((x - Decimal_value a) * inject_Z (2 ^ 53) <= Decimal_value a)%Q
        /\ ((Decimal_value a - x) * inject_Z (2 ^ 53) <= Decimal_value a)%Q).
Proof.
  intros Hnew.
  destruct (PaymentRequest_new_inv _ _ _ _ _ _ _ _ _ Hnew) as (Hpos & Ha & _).
  assert (Hamount : dict_get (to_api_payload req) "amount"
                    = Some (PyFloat (float_of_Decimal a))).
  { unfold to_api_payload. rewrite Ha. reflexivity. }
  split.
  - intros n Hn Hval.
    assert (Hrep : representable (Decimal_value a)).
    { exists n, 0. split; [lia|]. split; [lia|].
      rewrite Hval. unfold ldexp. cbn. rewrite Z.mul_1_r. reflexivity. }
    apply (float_of_Decimal_exact_iff a Hpos) in Hrep. destruct Hrep as (x & Hx & Hxe).
    exists x. split; [rewrite Hamount, Hx; reflexivity|].
    rewrite Hxe. exact Hval.
  - intros x Hx Hnormal. rewrite Hamount in Hx. injection Hx as Hx.
    destruct (Decimal_as_fraction a Hpos) as (N & D & Hf & Hv & HN).
    rewrite Hv in *. rewrite Hf in Hx.
    apply (round_pos_error N D x HN); [apply normal_range; exact Hnormal | exact Hx].
Qed.

End ExactAmounts.

(* ------------------------------------------------------------------ *)
(** ** The further properties at work on the scenarios *)

Section MoreWitnesses.
Import Fixture Scenarios.

Lemma request_bounded_retry_witness :
  exists n : nat,
    Z.of_nat n <= 3
    /\ snd (_request config timing_out "GET" "/health" None None)
       = retry_trace (EvRequest "GET" "/v1/health" None None) n 0
    /\ request_count (snd (_request config timing_out "GET" "/health" None None)) = S n
    /\ sleeps (snd (_request config timing_out "GET" "/health" None None)) = backoff n 0
    /\ Qeq (fold_right Qplus 0%Q
              (sleeps (snd (_request config timing_out "GET" "/health" None None))))
           (inject_Z (2 ^ Z.of_nat n - 1)).
Proof.
  apply (request_bounded_retry config timing_out "GET" "/health" None None).
  simpl. lia.
Defined.

Lemma request_returns_first_success_witness :
  _request config (flaky 2 (PyDict [("status", PyStr "ok")])) "GET" "/health" None None
  = (Ret (PyDict [("status", PyStr "ok")]),
     retry_trace (EvRequest "GET" "/v1/health" None None) 2 0)
  /\ sleeps (retry_trace (EvRequest "GET" "/v1/health" None None) 2 0) = backoff 2 0.
Proof.
  apply (request_returns_first_success config (flaky 2 (PyDict [("status", PyStr "ok")]))
           "GET" "/health" None None 2
           (mkResponse 200 (Some (PyDict [("status", PyStr "ok")])) "{...}")).
  - simpl. lia.
  - intros j Hj. left. exists "timed out". destruct j as [|[|j]]; [reflexivity..|lia].
  - reflexivity.
  - simpl. lia.
  - reflexivity.
Defined.

Lemma request_network_errors_exhaust_retries_witness :
  _request config network_down "GET" "/health" None None
  = (Raise (SdkError AfricaPaymentsError (PyStr "Network error: connection reset")
              PyNone (PyDict [])),
     retry_trace (EvRequest "GET" "/v1/health" None None) 3 0).
Proof.
  apply (request_network_errors_exhaust_retries config network_down "GET" "/health"
           None None refusal).
  - simpl. lia.
  - intros j Hj. reflexivity.
Defined.

Lemma request_propagates_base_exception_witness :
  _request config cancelled "GET" "/health" None None
  = (Raise (PyError CancelledError EmptyString),
     retry_trace (EvRequest "GET" "/v1/health" None None) 1 0).
Proof.
  apply (request_propagates_base_exception config cancelled "GET" "/health" None None 1).
  - simpl. lia.
  - intros j Hj. left. exists "timed out". destruct j as [|j]; [reflexivity|lia].
  - reflexivity.
  - reflexivity.
Defined.

Lemma request_retries_undecodable_success_witness :
  exists message,
    _request config no_content "GET" "/health" None None
    = (Raise (SdkError AfricaPaymentsError message PyNone (PyDict [])),
       retry_trace (EvRequest "GET" "/v1/health" None None) 3 0).
Proof.
  apply (request_retries_undecodable_success config no_content "GET" "/health" None None).
  - simpl. lia.
  - intros j Hj. exists (mkResponse 204 None EmptyString).
    split; [reflexivity|]. split; [simpl; lia | reflexivity].
Defined.

Lemma request_with_checked_config_witness :
  post_init config = Ret tt
  /\ (1 <= request_count (snd (_request config timing_out "GET" "/health" None None)))%nat
  /\ fst (request_loop config timing_out "GET" "/health" None None) <> Exhausted None.
Proof.
  split; [reflexivity|].
  apply (request_with_checked_config config timing_out "GET" "/health" None None).
  reflexivity.
Defined.

Lemma raise_for_status_returns_iff_witness :
  raise_for_status 200 (PyDict []) = Ret tt
  /\ exists t, raise_for_status 200 (PyList []) = Raise (PyError AttributeError t).
Proof.
  split.
  - apply (proj1 (raise_for_status_returns_iff 200 (PyDict []))).
    split; [lia | exists []; reflexivity].
  - apply (proj2 (raise_for_status_returns_iff 200 (PyList []))).
    intros d. discriminate.
Defined.

Lemma request_unlisted_status_witness :
  _request config (fun _ => Responds forbidden_json) "GET" "/health" None None
  = (Raise (SdkError AfricaPaymentsError (PyStr "Forbidden") (PyStr "NO_ACCESS") (PyDict [])),
     [EvRequest "GET" "/v1/health" None None])
  /\ _request config (fun _ => Responds forbidden_html) "GET" "/health" None None
     = (Raise (SdkError AfricaPaymentsError (PyStr "<html>Forbidden</html>") PyNone
                 (PyDict [])),
        [EvRequest "GET" "/v1/health" None None]).
Proof.
  split.
  - apply (proj1 (request_unlisted_status config (fun _ => Responds forbidden_json)
                    "GET" "/health" None None forbidden_json
                    ltac:(simpl; lia) eq_refl ltac:(simpl; lia) eq_refl)
             [("message", PyStr "Forbidden"); ("code", PyStr "NO_ACCESS")]).
    reflexivity.
  - apply (proj2 (request_unlisted_status config (fun _ => Responds forbidden_html)
                    "GET" "/health" None None forbidden_html
                    ltac:(simpl; lia) eq_refl ltac:(simpl; lia) eq_refl)).
    reflexivity.
Defined.

Lemma error_text_witness :
  AfricaPaymentsError_str
    (SdkError AfricaPaymentsError (PyStr "Forbidden") (PyStr "NO_ACCESS") (PyDict []))
  = Some "[NO_ACCESS] Forbidden"
  /\ AfricaPaymentsError_str
       (SdkError AfricaPaymentsError (PyStr "Forbidden") PyNone (PyDict []))
     = Some "Forbidden".
Proof.
  split.
  - apply (proj1 (proj2 (proj2 (error_text config)) 403
                    [("message", PyStr "Forbidden"); ("code", PyStr "NO_ACCESS")]
                    "Forbidden" _ ltac:(lia) eq_refl eq_refl eq_refl)
             "N"%char "O_ACCESS").
    reflexivity.
  - apply (proj2 (proj2 (proj2 (error_text config)) 403
                    [("message", PyStr "Forbidden")]
                    "Forbidden" _ ltac:(lia) eq_refl eq_refl eq_refl)).
    left. reflexivity.
Defined.


Lemma effective_base_url_spec_witness :
  effective_base_url (mkPaymentConfig "k" PRODUCTION KE (Some "http://localhost:8080") 30 3)
  = "http://localhost:8080"
  /\ effective_base_url (mkPaymentConfig "k" PRODUCTION KE (Some EmptyString) 30 3)
     = "https://api.africapayments.com".
Proof.
  split.
  - apply (proj1 (proj2 (effective_base_url_spec
             (mkPaymentConfig "k" PRODUCTION KE (Some "http://localhost:8080") 30 3))));
      [reflexivity | discriminate].
  - apply (proj1 (proj2 (proj2 (effective_base_url_spec
             (mkPaymentConfig "k" PRODUCTION KE (Some EmptyString) 30 3))))).
    left. reflexivity.
Defined.

Lemma client_init_spec_witness :
  AfricaPaymentsClient_init "test-api-key" "sandbox" "ke" None (30 # 1) 3 = Ret config
  /\ In ("X-Region", "ke") (get_headers config)
  /\ In ("Authorization", "Bearer test-api-key") (get_headers config)
  /\ "test-api-key" <> EmptyString.
Proof.
  split; [reflexivity|].
  apply (proj2 (client_init_spec "test-api-key" "sandbox" "ke" None (30 # 1) 3 config)).
  reflexivity.
Defined.

Lemma validate_phone_number_spec_witness :
  validate_phone_number "+254 (712) 345-678" = Ret "254712345678"
  /\ validate_phone_number "254712345678" = Ret "254712345678"
  /\ validate_phone_number "+254 (712) 345-678" = validate_phone_number "+254712) 345-678".
Proof.
  split; [reflexivity|]. split.
  - apply (proj1 (validate_phone_number_spec "+254 (712) 345-678") "254712345678" eq_refl).
  - apply (proj1 (proj2 (validate_phone_number_spec "+254 (712) 345-678"))
             "+254" "712) 345-678" " (").
    + reflexivity.
    + reflexivity.
Defined.

Lemma PaymentRequest_new_spec_witness :
  PaymentRequest_new amount_1000_50 "kes" "+254 (712) 345-678" "REF-001" None None None None
  = Ret (mkPaymentRequest amount_1000_50 "KES" "254712345678" "REF-001" None None None None)
  /\ forall e,
       PaymentRequest_new amount_1000_50 "kes" "123" "REF-001" None None None None = Raise e ->
       e = request_invalid.
Proof.
  split.
  - apply (proj1 (PaymentRequest_new_spec amount_1000_50 "kes" "+254 (712) 345-678" "REF-001"
                    None None None None)).
    repeat split; try reflexivity; vm_compute; discriminate.
  - apply (proj2 (PaymentRequest_new_spec amount_1000_50 "kes" "123" "REF-001"
                    None None None None)).
Defined.

Lemma to_api_payload_shape_witness :
  map fst (to_api_payload request_1000)
  = ["amount"; "currency"; "phoneNumber"; "reference"; "description"; "provider"]
  /\ dict_get (to_api_payload request_1000) "provider" = Some (PyStr "mpesa")
  /\ dict_get (to_api_payload request_1000) "callbackUrl" = None.
Proof.
  destruct (to_api_payload_shape request_1000) as (H1 & _ & _ & _ & _ & _ & H7 & H8).
  split; [exact H1|]. split; [exact H8 | exact H7].
Defined.

Lemma status_predicates_exclusive_witness :
  is_pending (transaction "tx-123" SUCCESS) = false
  /\ is_failed (transaction "tx-123" SUCCESS) = false
  /\ status (transaction "tx-123" CANCELLED) = CANCELLED.
Proof.
  destruct (status_predicates_exclusive (transaction "tx-123" SUCCESS)) as (H & _).
  destruct (H eq_refl) as [H1 H2].
  split; [exact H1|]. split; [exact H2|].
  apply (proj1 (proj2 (proj2 (proj2
           (status_predicates_exclusive (transaction "tx-123" CANCELLED)))))).
  repeat split.
Defined.

Lemma validate_PaymentStatus_round_trip_witness :
  validate_PaymentStatus (PyStr "failed") = Some FAILED
  /\ PyStr "failed" = PyStr (PaymentStatus_value FAILED).
Proof.
  split.
  - apply (proj1 validate_PaymentStatus_round_trip FAILED).
  - apply (proj1 (proj2 validate_PaymentStatus_round_trip) (PyStr "failed") FAILED).
    reflexivity.
Defined.

Lemma get_transaction_invalid_body_witness :
  get_transaction config (always 200 body_without_status) "tx-123"
  = (Raise (PyError PydanticValidationError "validation error for PaymentResponse"),
     [EvRequest "GET" "/v1/payments/tx-123" None None])
  /\ is_AfricaPaymentsError
       (PyError PydanticValidationError "validation error for PaymentResponse") = false.
Proof.
  apply (get_transaction_invalid_body config (always 200 body_without_status) "tx-123"
           (mkResponse 200 (Some body_without_status) "{...}") body_without_status).
  - simpl. lia.
  - reflexivity.
  - simpl. lia.
  - reflexivity.
  - right. eexists. split; [reflexivity|]. right. left. reflexivity.
Defined.

Lemma event_id_injective_witness :
  event_id webhook_event = "payment.success:tx-123"
  /\ (event_type webhook_event = event_type webhook_event
      /\ transaction_id (data webhook_event) = transaction_id (data webhook_event)).
Proof.
  split; [reflexivity|].
  apply (event_id_injective webhook_event webhook_event).
  - intros c Hc. cbn in Hc.
    repeat (destruct Hc as [<-|Hc]; [discriminate|]). destruct Hc.
  - intros c Hc. cbn in Hc.
    repeat (destruct Hc as [<-|Hc]; [discriminate|]). destruct Hc.
  - reflexivity.
Defined.

Lemma display_name_spec_witness :
  display_name (mkProviderConfig MPESA true None) = "M-Pesa"
  /\ pc_provider (mkProviderConfig MTN true None)
     = pc_provider (mkProviderConfig MTN false None).
Proof.
  split; [reflexivity|].
  apply (proj2 (proj2 (display_name_spec (mkProviderConfig MTN true None)
                         (mkProviderConfig MTN false None)))).
  reflexivity.
Defined.

Lemma to_api_params_spec_witness :
  to_api_params query_success
  = [("limit", PyInt 50); ("offset", PyInt 10); ("reference", PyStr "REF-001");
     ("status", PyStr "success")]
  /\ (1 <= q_limit query_success <= 100 /\ 0 <= q_offset query_success)
  /\ dict_get (to_api_params query_success) "transactionId" = None.
Proof.
  split; [reflexivity|].
  destruct (to_api_params_spec query_success) as (_ & _ & Hv & Ht & _).
  split; [apply Hv; reflexivity | exact Ht].
Defined.

Lemma refund_payload_spec_witness :
  map fst (RefundRequest_to_api_payload partial_refund) = ["transactionId"; "amount"]
  /\ dict_get (RefundRequest_to_api_payload partial_refund) "amount"
     = Some (PyFloat (Float.float_of_Decimal (mkDecimal false 50000 (-2))))
  /\ dict_get (RefundRequest_to_api_payload (mkRefundRequest "tx-123" None None)) "amount"
     = None.
Proof.
  split; [reflexivity|]. split.
  - apply (proj1 (proj2 (refund_payload_spec partial_refund))). reflexivity.
  - apply (proj1 (proj2 (refund_payload_spec (mkRefundRequest "tx-123" None None)))).
    reflexivity.
Defined.

Lemma facade_requests_witness :
  exists n, Z.of_nat n <= 3
    /\ snd (refund config (flaky 1 (transaction_body "tx-123" "success")) partial_refund)
       = retry_trace (EvRequest "POST" "/v1/refunds"
                        (Some (PyDict (RefundRequest_to_api_payload partial_refund))) None)
                     n 0.
Proof.
  apply (proj1 (proj2 (proj2 (proj2 (proj2
           (facade_requests config (flaky 1 (transaction_body "tx-123" "success"))
              ltac:(simpl; lia)))))) partial_refund).
Defined.

Lemma dispatch_stops_at_base_exception_witness :
  dispatch 3 [on_payment_success; failing_handler; exiting_handler; async_handler]
           O webhook_event
  = (Some (Raise (PyError SystemExit "exit")),
     [on_payment_success; failing_handler; exiting_handler; async_handler],
     [EvHandler 1; EvHandler 2; EvHandler 4])
  /\ handler_calls
       (snd (dispatch 3 [on_payment_success; failing_handler; exiting_handler; async_handler]
               O webhook_event))
     = [1; 2; 4]%nat.
Proof.
  apply (dispatch_stops_at_base_exception 3 webhook_event
           [on_payment_success; failing_handler] exiting_handler [async_handler]
           (PyError SystemExit "exit")).
  - intros x [<-|[<-|[]]]; reflexivity.
  - intros x [<-|[<-|[]]]; reflexivity.
  - left. reflexivity.
  - reflexivity.
  - cbn. lia.
Defined.

Lemma add_then_remove_witness :
  remove_event_handler
    (add_event_handler [on_payment_success; failing_handler] async_handler) async_handler
  = Ret [on_payment_success; failing_handler].
Proof.
  apply (proj2 (add_then_remove [on_payment_success; failing_handler] async_handler)).
  intros x [<-|[<-|[]]]; discriminate.
Defined.

Lemma poll_propagates_failure_witness :
  fst (poll_transaction_status config 10 (forbidden_after 2) clock "tx-123" (5 # 1) (300 # 1)
         (Some on_progress))
  = Some (Raise (SdkError AfricaPaymentsError (PyStr "Forbidden") (PyStr "NO_ACCESS")
                   (PyDict []))).
Proof.
  assert (Hpending :
    forall k, (k < 2)%nat ->
      (fst (get_transaction config (forbidden_after 2 k) "tx-123")
       = Ret (transaction "tx-123" PENDING)
       /\ fst (run_callback (Some on_progress) k (transaction "tx-123" PENDING)) = Ret tt)
      /\ status (transaction "tx-123" PENDING) = PENDING
      /\ (clock (S k) - clock O < 300 # 1)%Q).
  { intros k Hk. destruct k as [|[|k]]; [repeat split..|lia]. }
  rewrite (proj1 (poll_propagates_failure config (forbidden_after 2) clock "tx-123"
                    (5 # 1) (300 # 1) (Some on_progress)
                    (fun _ => transaction "tx-123" PENDING) 2 10
                    (SdkError AfricaPaymentsError (PyStr "Forbidden") (PyStr "NO_ACCESS")
                       (PyDict []))
                    ltac:(lia) Hpending) eq_refl).
  reflexivity.
Defined.

Lemma connection_lifecycle_witness :
  still_open (snd (run_calls fresh [Aenter; Request; Request; Aexit])) [] = []
  /\ snd (run_calls fresh [Aenter; Request; Request; Aexit]) = [Built 0; Aclosed 0]
  /\ exists n, _client (fst (run_calls fresh ([Request] ++ [Close; Request]))) = Some n.
Proof.
  split; [|split; [reflexivity|]].
  - apply (proj1 (proj2 (proj2 (connection_lifecycle [Request; Request])))).
  - apply (proj2 (proj2 (proj2 (connection_lifecycle [Request]))) Request).
    left. reflexivity.
Defined.

Lemma accepted_signature_witness :
  verify_webhook_signature (Hashlib.bytes_of "{'test': 'data'}")
    "bd4b9fc06d04a0ced1c1699808454e2062d61c42df59b8f0c4b244335b46d85b" "webhook-secret"
  = Ret true
  /\ String.length "bd4b9fc06d04a0ced1c1699808454e2062d61c42df59b8f0c4b244335b46d85b"
     = 64%nat.
Proof.
  assert (H : verify_webhook_signature (Hashlib.bytes_of "{'test': 'data'}")
                "bd4b9fc06d04a0ced1c1699808454e2062d61c42df59b8f0c4b244335b46d85b"
                "webhook-secret" = Ret true) by (vm_compute; reflexivity).
  split; [exact H|].
  exact (proj1 (proj2 (accepted_signature _ _ _ H))).
Defined.

Lemma ascii_signature_verdict_witness :
  verify_webhook_signature (Hashlib.bytes_of "{'test': 'data'}") "invalid" "webhook-secret"
  = Ret false.
Proof.
  apply (proj2 (proj2 (ascii_signature_verdict (Hashlib.bytes_of "{'test': 'data'}")
                         "invalid" "webhook-secret" eq_refl))).
  discriminate.
Defined.

Lemma amount_float_accuracy_witness :
  (exists x,
     dict_get (to_api_payload request_1000) "amount" = Some (PyFloat (Finite x))
     /\ Qeq x (inject_Z 1000))
  /\ ((((7205759403792794 # 72057594037927936) - Float.Decimal_value amount_0_1)
       * inject_Z (2 ^ 53) <= Float.Decimal_value amount_0_1)%Q
      /\ ((Float.Decimal_value amount_0_1 - (7205759403792794 # 72057594037927936))
          * inject_Z (2 ^ 53) <= Float.Decimal_value amount_0_1)%Q).
Proof.
  split.
  - apply (proj1 (amount_float_accuracy (mkDecimal false 100000 (-2)) "kes" "254712345678"
                    "REF-001" (Some "Test payment") None None (Some MPESA) request_1000
                    eq_refl) 1000).
    + simpl. lia.
    + reflexivity.
  - apply (proj2 (amount_float_accuracy amount_0_1 "kes" "254712345678" "REF-001"
                    None None None None
                    (mkPaymentRequest amount_0_1 "KES" "254712345678" "REF-001"
                       None None None None) eq_refl)).
    + vm_compute. reflexivity.
    + vm_compute. discriminate.
Defined.

End MoreWitnesses.
